(** * Mapty: the workout model, the form handler and the storage round trip

    A shallow embedding of [script.js]: the classes [Workout], [Running] and
    [Cycling], and the methods of [App] that create workouts, look them up
    and move them through [localStorage].

    JavaScript values are an inductive type; Numbers are IEEE 754 doubles
    (Rocq's primitive floats), so [/] and [>] below are the operators the
    script applies.  Objects are ordered property lists, the order being the
    one [JSON.stringify] follows.  Handlers are computations in a monad of
    state and exceptions over the fields of [App] and the parts of the page
    the script reads and writes.  Of Leaflet the model keeps what decides
    whether a marker is placed and the map moved: how [toLatLng] reads a
    position. *)

From Stdlib Require Import ZArith List String Ascii Bool Floats Lia.
Import ListNotations.

Local Open Scope string_scope.
Local Open Scope list_scope.
Set Warnings "-register-all".

(** ** Decimal numerals

    [Date.now() + ''] and the [${...}] of a day of the month convert an
    integral Number below 10^21 to a string: its decimal numeral, with a
    minus sign when negative. *)

Module Numeral.

Definition digit (d : Z) : ascii :=
  match d with
  | 0%Z => "0" | 1%Z => "1" | 2%Z => "2" | 3%Z => "3" | 4%Z => "4"
  | 5%Z => "5" | 6%Z => "6" | 7%Z => "7" | 8%Z => "8" | _ => "9"
  end%char.

Definition is_digit (c : ascii) : bool :=
  existsb (Ascii.eqb c) (map digit [0; 1; 2; 3; 4; 5; 6; 7; 8; 9]%Z).

(** The digits of [n], least significant first. *)
Fixpoint rev_digits (fuel : nat) (n : Z) : list ascii :=
  match fuel with
  | O => []
  | S fuel' =>
      digit (n mod 10) ::
      (if (n <? 10)%Z then [] else rev_digits fuel' (n / 10))
  end.

Definition digits_fuel (n : Z) : nat := S (Z.to_nat (Z.log2 n)).

Definition rd (n : Z) : list ascii := rev_digits (digits_fuel n) n.

Definition natural_digits (n : Z) : list ascii := rev (rd n).

(** Number::toString on an integral value. *)
Definition to_string (n : Z) : string :=
  if (n <? 0)%Z
  then String "-" (string_of_list_ascii (natural_digits (- n)))
  else string_of_list_ascii (natural_digits n).

(** [k] decimal digits of [m], least significant first, zeros included. *)
Fixpoint padded (k : nat) (m : Z) : list ascii :=
  match k with
  | O => []
  | S k' => digit (m mod 10) :: padded k' (m / 10)
  end.

End Numeral.

(** ** Strings *)

Module Str.

Fixpoint skip (n : nat) (s : string) : string :=
  match n, s with
  | O, _ => s
  | S n', String _ s' => skip n' s'
  | S _, EmptyString => EmptyString
  end.

(** [s.slice(-k)]: the last [k] characters, all of [s] when it is shorter. *)
Definition slice_last (k : nat) (s : string) : string :=
  skip (String.length s - k) s.

(** [s.slice(1)]. *)
Definition slice_from_1 (s : string) : string := skip 1 s.

(** [c.toUpperCase()] on one ASCII character. *)
Definition upper (c : ascii) : ascii :=
  let n := nat_of_ascii c in
  if (97 <=? n)%nat && (n <=? 122)%nat then ascii_of_nat (n - 32) else c.

End Str.

(** ** JavaScript values *)

(** What the script observes of a [Date] made by [new Date()]: the local
    month (0 to 11) and day of the month, and the ISO 8601 string its
    [toJSON] returns. *)
Record Date := mkDate {
  getMonth : nat;
  getDate : Z;
  toISOString : string
}.

(** The prototype of an object: what [new] and [JSON.parse] give it. *)
Inductive proto := ObjectProto | RunningProto | CyclingProto.

Inductive value :=
| VUndefined
| VNull
| VBool (b : bool)
| VNum (x : float)
| VStr (s : string)
| VDate (d : Date)
| VArr (xs : list value)
| VObj (p : proto) (props : list (string * value)).

Definition props := list (string * value).

(** What a computation can end in besides a value: a TypeError or a
    SyntaxError of the engine, the [Error] that Leaflet throws on a latlng
    it refuses, and [Unmodelled], which is no exception of the script: the
    model stops there, because what follows depends on a conversion it
    leaves out (ToNumber of a string, a Date, an array or an object). *)
Inductive error :=
| TypeError (msg : string)
| SyntaxError
| LeafletError (msg : string)
| Unmodelled (what : string).

Inductive completion (A : Type) :=
| Normal (a : A)
| Throw (e : error).
Arguments Normal {A} a.
Arguments Throw {A} e.

(** The two TypeErrors of the script: a property read on [undefined] or
    [null], and a call of something that is not a function.  The wording is
    the engine's; only the kind of the exception matters. *)
Definition cannot_read (base k : string) : error :=
  TypeError ("Cannot read properties of " ++ base ++ " (reading '" ++ k ++ "')")%string.

Definition not_a_function (k : string) : error :=
  TypeError (k ++ " is not a function")%string.

(** *** Properties *)

(** [o.k], [o] an object's property list. *)
Fixpoint obj_get (k : string) (o : props) : value :=
  match o with
  | [] => VUndefined
  | (k', v) :: o' => if String.eqb k k' then v else obj_get k o'
  end.

(** [o.k = v]: an existing property keeps its place, a new one goes last. *)
Fixpoint obj_set (k : string) (v : value) (o : props) : props :=
  match o with
  | [] => [(k, v)]
  | (k', v') :: o' =>
      if String.eqb k k' then (k, v) :: o' else (k', v') :: obj_set k v o'
  end.

(** [w.k] for the property names the script reads ([coords], [type], [id],
    [description], [distance], [duration], [pace], [cadence], [speed],
    [elevationGain]): none is a property of the Array, String, Number,
    Boolean or Date prototypes, so only objects answer, and [undefined] and
    [null] have no properties at all. *)
Definition GetV (w : value) (k : string) : completion value :=
  match w with
  | VUndefined => Throw (cannot_read "undefined" k)
  | VNull => Throw (cannot_read "null" k)
  | VObj _ o => Normal (obj_get k o)
  | _ => Normal VUndefined
  end.

(** ToBoolean. *)
Definition truthy (v : value) : bool :=
  match v with
  | VUndefined | VNull => false
  | VBool b => b
  | VNum x => negb (PrimFloat.is_zero x || PrimFloat.is_nan x)
  | VStr s => negb (String.eqb s "")
  | VDate _ | VArr _ | VObj _ _ => true
  end.

(** [v === s] against a string [s]. *)
Definition strict_eq_str (v : value) (s : string) : bool :=
  match v with
  | VStr s' => String.eqb s' s
  | _ => false
  end.

(** ToNumber, where it needs no parsing: of [undefined], [null], a
    Boolean and a Number.  [None]: the conversion of a string, a Date, an
    array or an object, which goes through StringToNumber or ToPrimitive,
    is left out of the model. *)
Definition to_number (v : value) : option float :=
  match v with
  | VUndefined => Some PrimFloat.nan
  | VNull => Some 0%float
  | VBool true => Some 1%float
  | VBool false => Some 0%float
  | VNum x => Some x
  | VStr _ | VDate _ | VArr _ | VObj _ _ => None
  end.

(** Whether ToString of a value completes, the string itself being of no
    use to the model.  A primitive and a Date always convert.  An array
    converts through [join], which skips [undefined] and [null] and
    converts the other elements.  An object converts through
    [Object.prototype.toString], unless it has a property [toString] of
    its own: no value of the model is callable, so ToPrimitive finds no
    method that answers a primitive and raises a TypeError. *)
Fixpoint ToString (v : value) : completion unit :=
  match v with
  | VArr xs =>
      (fix join (l : list value) : completion unit :=
         match l with
         | [] => Normal tt
         | x :: l' =>
             match match x with
                   | VUndefined | VNull => Normal tt
                   | _ => ToString x
                   end with
             | Normal _ => join l'
             | Throw e => Throw e
             end
         end) xs
  | VObj _ o =>
      if existsb (String.eqb "toString") (List.map fst o)
      then Throw (TypeError "Cannot convert object to primitive value")
      else Normal tt
  | _ => Normal tt
  end.

(** ** JSON

    A JSON text is kept as the document it denotes; a stored string that is
    not a JSON text is [NotJSON].  Number literals stand for the double
    [JSON.parse] reads them as. *)

Inductive json :=
| JNull
| JBool (b : bool)
| JNum (x : float)
| JStr (s : string)
| JArr (items : list json)
| JObj (members : list (string * json)).

Inductive text :=
| JSONText (j : json)
| NotJSON (raw : string).

(** SerializeJSONProperty: [None] is [undefined].  A Date answers through
    [toJSON]; a Number that is not finite is written [null], and [-0] as
    [0]; in an array [undefined] becomes [null]; in an object a property
    whose value is [undefined] is left out. *)
Fixpoint serialize (v : value) : option json :=
  match v with
  | VUndefined => None
  | VNull => Some JNull
  | VBool b => Some (JBool b)
  | VNum x =>
      Some (if PrimFloat.is_finite x
            then (if PrimFloat.is_zero x && PrimFloat.get_sign x
                  then JNum 0%float else JNum x)
            else JNull)
  | VStr s => Some (JStr s)
  | VDate d => Some (JStr (toISOString d))
  | VArr xs =>
      Some (JArr ((fix items (l : list value) : list json :=
                     match l with
                     | [] => []
                     | x :: l' =>
                         match serialize x with
                         | Some j => j
                         | None => JNull
                         end :: items l'
                     end) xs))
  | VObj _ o =>
      Some (JObj ((fix members (l : props) : list (string * json) :=
                     match l with
                     | [] => []
                     | (k, x) :: l' =>
                         match serialize x with
                         | Some j => (k, j) :: members l'
                         | None => members l'
                         end
                     end) o))
  end.

(** [JSON.stringify(v)]: a text, or [undefined]. *)
Definition JSON_stringify (v : value) : option text :=
  option_map JSONText (serialize v).

(** The value a document denotes: plain objects and arrays.  A repeated
    member name keeps its first place and its last value.  The properties
    come in the order of the members.  (An object lists the names that are
    array indices first, wherever the text has them.  Such names do not
    occur in what the script stores, and this reordering is not modelled:
    what is stated below about arbitrary stored texts is stated for texts
    without member names made of digits.) *)
Fixpoint internalize (j : json) : value :=
  match j with
  | JNull => VNull
  | JBool b => VBool b
  | JNum x => VNum x
  | JStr s => VStr s
  | JArr items => VArr (map internalize items)
  | JObj members =>
      VObj ObjectProto
        ((fix build (l : list (string * json)) (acc : props) : props :=
            match l with
            | [] => acc
            | (k, x) :: l' => build l' (obj_set k (internalize x) acc)
            end) members [])
  end.

(** [JSON.parse(t)]. *)
Definition JSON_parse (t : text) : completion value :=
  match t with
  | JSONText j => Normal (internalize j)
  | NotJSON _ => Throw SyntaxError
  end.

(** ** The classes [Workout], [Running] and [Cycling] *)

(** What a constructor reads of the clock: [new Date()] for the field
    [date] and [Date.now()] for the field [id]. *)
Record Clock := mkClock {
  newDate : Date;
  now : Z
}.

(** An object under construction is the chronological list of the
    assignments [this.k = v] made so far; reading [this.k] finds the latest
    one. *)
Definition assignments := list (string * value).

Definition assign (k : string) (v : value) (this : assignments) : assignments :=
  this ++ [(k, v)].

Definition read (k : string) (this : assignments) : value :=
  obj_get k (rev this).

(** The property list the assignments leave behind. *)
Definition props_of (this : assignments) : props :=
  fold_left (fun o kv => obj_set (fst kv) (snd kv) o) this [].

Definition write_count (k : string) (this : assignments) : nat :=
  List.length (filter (fun kv => String.eqb (fst kv) k) this).

Module Workout.

(** [id = (Date.now() + '').slice(-10)] *)
Definition id (clk : Clock) : string :=
  Str.slice_last 10 (Numeral.to_string (now clk)).

(** The field initialisers, then the constructor's body. *)
Definition constructor (clk : Clock) (coords : value) (distance duration : float)
  : assignments :=
  let this := [] in
  let this := assign "date" (VDate (newDate clk)) this in
  let this := assign "id" (VStr (id clk)) this in
  let this := assign "clicks" (VNum 0%float) this in
  let this := assign "coords" coords this in
  let this := assign "distance" (VNum distance) this in
  let this := assign "duration" (VNum duration) this in
  this.

Definition months : list string :=
  [ "January"; "February"; "March"; "April"; "May"; "June"; "July";
    "August"; "September"; "October"; "November"; "December" ].

(** [`${type[0].toUpperCase()}${type.slice(1)} on ${months[m]} ${d}`]:
    [type[0]] of the empty string is [undefined], whose [toUpperCase]
    raises; a month outside the table prints as [undefined]. *)
Definition describe (type : string) (date : Date) : completion string :=
  match type with
  | EmptyString =>
      Throw (cannot_read "undefined" "toUpperCase")
  | String c _ =>
      Normal (String (Str.upper c) (Str.slice_from_1 type) ++ " on "
              ++ match nth_error months (getMonth date) with
                 | Some m => m
                 | None => "undefined"
                 end
              ++ " " ++ Numeral.to_string (getDate date))%string
  end.

(** The class stores a string in [type] and a Date in [date]; the other
    branches, which the constructors never reach, stand for the TypeError
    that [type[0].toUpperCase()] or [date.getMonth()] then ends in. *)
Definition _setDescription (this : assignments) : completion assignments :=
  match read "type" this with
  | VStr type =>
      match read "date" this with
      | VDate date =>
          match describe type date with
          | Normal d => Normal (assign "description" (VStr d) this)
          | Throw e => Throw e
          end
      | VUndefined => Throw (cannot_read "undefined" "getMonth")
      | VNull => Throw (cannot_read "null" "getMonth")
      | _ => Throw (not_a_function "getMonth")
      end
  | VNull => Throw (cannot_read "null" "0")
  | _ => Throw (cannot_read "undefined" "toUpperCase")
  end.

(** [this.clicks++] on the properties of a finished object. *)
Definition click (this : props) : completion props :=
  match to_number (obj_get "clicks" this) with
  | Some n => Normal (obj_set "clicks" (VNum (n + 1)%float) this)
  | None => Throw (Unmodelled "ToNumber")
  end.

End Workout.

Module Running.

Definition calcPace (this : assignments) : completion assignments :=
  match to_number (read "duration" this), to_number (read "distance" this) with
  | Some duration, Some distance =>
      Normal (assign "pace" (VNum (duration / distance)%float) this)
  | _, _ => Throw (Unmodelled "ToNumber")
  end.

Definition constructor (clk : Clock) (coords : value)
    (distance duration cadence : float) : completion assignments :=
  let this := Workout.constructor clk coords distance duration in
  let this := assign "type" (VStr "running") this in
  let this := assign "cadence" (VNum cadence) this in
  match calcPace this with
  | Normal this => Workout._setDescription this
  | Throw e => Throw e
  end.

(** [new Running(coords, distance, duration, cadence)] *)
Definition new (clk : Clock) (coords : value)
    (distance duration cadence : float) : completion value :=
  match constructor clk coords distance duration cadence with
  | Normal this => Normal (VObj RunningProto (props_of this))
  | Throw e => Throw e
  end.

End Running.

Module Cycling.

Definition calcSpeed (this : assignments) : completion assignments :=
  match to_number (read "distance" this), to_number (read "duration" this) with
  | Some distance, Some duration =>
      Normal (assign "speed" (VNum (distance / (duration / 60))%float) this)
  | _, _ => Throw (Unmodelled "ToNumber")
  end.

Definition constructor (clk : Clock) (coords : value)
    (distance duration elevationGain : float) : completion assignments :=
  let this := Workout.constructor clk coords distance duration in
  let this := assign "type" (VStr "cycling") this in
  let this := assign "elevationGain" (VNum elevationGain) this in
  match calcSpeed this with
  | Normal this => Workout._setDescription this
  | Throw e => Throw e
  end.

(** [new Cycling(coords, distance, duration, elevationGain)] *)
Definition new (clk : Clock) (coords : value)
    (distance duration elevationGain : float) : completion value :=
  match constructor clk coords distance duration elevationGain with
  | Normal this => Normal (VObj CyclingProto (props_of this))
  | Throw e => Throw e
  end.

End Cycling.

(** ** Leaflet

    What the script asks of Leaflet 1.x about a position: [L.marker(c)]
    and [map.setView(c, ...)] both pass [c] through [toLatLng].  An array
    of two or three elements whose first is not an object, and an object
    with a property [lat], go to the constructor [LatLng], which throws an
    [Error] when [isNaN] holds of the latitude or of the longitude;
    [undefined] and [null] are handed back, and anything else answers
    [null].  A marker or a view whose latlng is [undefined] or [null] then
    ends in a TypeError, when the map projects it. *)

Module Leaflet.

(** [isNaN(v)], where [LatLng] applies it.  The Numbers that reach it come
    from the latlng of a Leaflet event, which holds no [NaN], or from a
    JSON text, which denotes none: a Number is taken not to be [NaN]. *)
Definition isNaN (v : value) : completion bool :=
  match v with
  | VNum _ => Normal false
  | _ =>
      match to_number v with
      | Some x => Normal (PrimFloat.is_nan x)
      | None => Throw (Unmodelled "ToNumber")
      end
  end.

(** [new LatLng(lat, lng, alt)]: the check, then [+lat], [+lng] and, when
    [alt] is not [undefined], [+alt]. *)
Definition LatLng (lat lng alt : value) : completion unit :=
  match isNaN lat with
  | Throw e => Throw e
  | Normal true => Throw (LeafletError "Invalid LatLng object")
  | Normal false =>
      match isNaN lng with
      | Throw e => Throw e
      | Normal true => Throw (LeafletError "Invalid LatLng object")
      | Normal false =>
          match alt with
          | VUndefined => Normal tt
          | _ =>
              match to_number alt with
              | Some _ => Normal tt
              | None => Throw (Unmodelled "ToNumber")
              end
          end
      end
  end.

(** [typeof v === 'object'] *)
Definition is_object_type (v : value) : bool :=
  match v with
  | VNull | VDate _ | VArr _ | VObj _ _ => true
  | _ => false
  end.

Definition has_property (k : string) (o : props) : bool :=
  existsb (String.eqb k) (List.map fst o).

(** [toLatLng(c)]: [true] for a [LatLng], [false] for [undefined] or
    [null]. *)
Definition toLatLng (c : value) : completion bool :=
  match c with
  | VArr xs =>
      if is_object_type (nth 0 xs VUndefined) then Normal false
      else
        match xs with
        | [lat; lng; alt] =>
            match LatLng lat lng alt with
            | Normal _ => Normal true
            | Throw e => Throw e
            end
        | [lat; lng] =>
            match LatLng lat lng VUndefined with
            | Normal _ => Normal true
            | Throw e => Throw e
            end
        | _ => Normal false
        end
  | VObj _ o =>
      if has_property "lat" o then
        match LatLng (obj_get "lat" o)
                     (if has_property "lng" o then obj_get "lng" o
                      else obj_get "lon" o)
                     (obj_get "alt" o) with
        | Normal _ => Normal true
        | Throw e => Throw e
        end
      else Normal false
  | _ => Normal false
  end.

(** The projection of a latlng that is [undefined] or [null]. *)
Definition no_latlng (c : value) : error :=
  cannot_read (match c with VUndefined => "undefined" | _ => "null" end) "lat".

(** [map.setView(c, zoom, options)] on a loaded map. *)
Definition setView (c : value) : completion unit :=
  match toLatLng c with
  | Normal true => Normal tt
  | Normal false => Throw (no_latlng c)
  | Throw e => Throw e
  end.

End Leaflet.

(** ** The application

    The private fields of [App] together with what the script reads and
    writes of the page: the value stored under the key ['workouts'], the
    list entries and map markers (each kept as the workout it was rendered
    from, the HTML and the Leaflet layers being outside the script), the
    alerts shown, whether the form is hidden, and whether the constructor
    got as far as attaching its listeners. *)

Record App := mkApp {
  map : option value;                (* #map, centred on a value; None: undefined *)
  mapEvent : option (float * float); (* #mapEvent.latlng; None: undefined *)
  workouts : value;                  (* #workouts *)
  localStorage : option text;        (* localStorage.getItem('workouts') *)
  listItems : list value;            (* the <li class="workout"> after the form, newest first *)
  markers : list value;
  alerts : list string;
  formHidden : bool;
  listening : bool
}.

Definition with_map (m : option value) (a : App) : App :=
  mkApp m (mapEvent a) (workouts a) (localStorage a) (listItems a) (markers a)
        (alerts a) (formHidden a) (listening a).
Definition with_mapEvent (e : option (float * float)) (a : App) : App :=
  mkApp (map a) e (workouts a) (localStorage a) (listItems a) (markers a)
        (alerts a) (formHidden a) (listening a).
Definition with_workouts (w : value) (a : App) : App :=
  mkApp (map a) (mapEvent a) w (localStorage a) (listItems a) (markers a)
        (alerts a) (formHidden a) (listening a).
Definition with_localStorage (t : option text) (a : App) : App :=
  mkApp (map a) (mapEvent a) (workouts a) t (listItems a) (markers a)
        (alerts a) (formHidden a) (listening a).
Definition with_listItems (l : list value) (a : App) : App :=
  mkApp (map a) (mapEvent a) (workouts a) (localStorage a) l (markers a)
        (alerts a) (formHidden a) (listening a).
Definition with_markers (l : list value) (a : App) : App :=
  mkApp (map a) (mapEvent a) (workouts a) (localStorage a) (listItems a) l
        (alerts a) (formHidden a) (listening a).
Definition with_alerts (l : list string) (a : App) : App :=
  mkApp (map a) (mapEvent a) (workouts a) (localStorage a) (listItems a) (markers a)
        l (formHidden a) (listening a).
Definition with_formHidden (b : bool) (a : App) : App :=
  mkApp (map a) (mapEvent a) (workouts a) (localStorage a) (listItems a) (markers a)
        (alerts a) b (listening a).
Definition with_listening (b : bool) (a : App) : App :=
  mkApp (map a) (mapEvent a) (workouts a) (localStorage a) (listItems a) (markers a)
        (alerts a) (formHidden a) b.

(** Computations over [App] that may throw; the state returned with a
    [Throw] is the one in which the exception was raised. *)
Definition M (A : Type) := App -> App * completion A.

Definition ret {A} (x : A) : M A := fun a => (a, Normal x).
Definition throw {A} (e : error) : M A := fun a => (a, Throw e).
Definition bind {A B} (m : M A) (k : A -> M B) : M B :=
  fun a =>
    match m a with
    | (a', Normal x) => k x a'
    | (a', Throw e) => (a', Throw e)
    end.
Definition lift {A} (c : completion A) : M A := fun a => (a, c).
Definition gets {A} (f : App -> A) : M A := fun a => (a, Normal (f a)).
Definition modify (f : App -> App) : M unit := fun a => (f a, Normal tt).

Declare Scope app_scope.
Delimit Scope app_scope with app.
Notation "x <- m ;; k" := (bind m (fun x => k))
  (at level 61, m at next level, right associativity) : app_scope.
Notation "m ;; k" := (bind m (fun _ => k))
  (at level 61, right associativity) : app_scope.
Local Open Scope app_scope.

(** [arr.forEach(f)] *)
Fixpoint forEach_items (f : value -> M unit) (xs : list value) : M unit :=
  match xs with
  | [] => ret tt
  | x :: xs' => f x ;; forEach_items f xs'
  end.

Definition forEach (arr : value) (f : value -> M unit) : M unit :=
  match arr with
  | VArr xs => forEach_items f xs
  | VUndefined => throw (cannot_read "undefined" "forEach")
  | VNull => throw (cannot_read "null" "forEach")
  | _ => throw (not_a_function "forEach")
  end.

(** [arr.find(pred)]: the first element for which [pred] holds, else
    [undefined]; an exception of [pred] ends the scan. *)
Fixpoint find_items (pred : value -> completion bool) (xs : list value)
  : completion value :=
  match xs with
  | [] => Normal VUndefined
  | x :: xs' =>
      match pred x with
      | Normal true => Normal x
      | Normal false => find_items pred xs'
      | Throw e => Throw e
      end
  end.

Definition find (arr : value) (pred : value -> completion bool) : completion value :=
  match arr with
  | VArr xs => find_items pred xs
  | VUndefined => Throw (cannot_read "undefined" "find")
  | VNull => Throw (cannot_read "null" "find")
  | _ => Throw (not_a_function "find")
  end.

(** [arr.push(v)] *)
Definition push (arr : value) (v : value) : completion value :=
  match arr with
  | VArr xs => Normal (VArr (xs ++ [v]))
  | VUndefined => Throw (cannot_read "undefined" "push")
  | VNull => Throw (cannot_read "null" "push")
  | _ => Throw (not_a_function "push")
  end.

(** [x.toFixed(1)]: only a Number has the method. *)
Definition toFixed (x : value) : completion unit :=
  match x with
  | VNum _ => Normal tt
  | VUndefined => Throw (cannot_read "undefined" "toFixed")
  | VNull => Throw (cannot_read "null" "toFixed")
  | _ => Throw (not_a_function "toFixed")
  end.

Definition alert (msg : string) : M unit :=
  modify (fun a => with_alerts (alerts a ++ [msg]) a).

Module App.

(** What a submission of the form carries: the selected type and the
    Numbers that unary [+] makes of the input fields' values (any double,
    [NaN] for text that is not a numeral). *)
Record Form := mkForm {
  inputType : string;
  inputDistance : float;
  inputDuration : float;
  inputCadence : float;
  inputElevation : float
}.

Definition _showForm (latlng : float * float) : M unit :=
  modify (fun a => with_formHidden false (with_mapEvent (Some latlng) a)).

Definition _hideForm : M unit := modify (with_formHidden true).

(** [L.marker(workout.coords).addTo(this.#map).bindPopup(...)
    .setPopupContent(...).openPopup()]: the marker takes its latlng from
    [toLatLng]; [addTo] dereferences the map it is given and, the map being
    loaded, projects the latlng at once; the marker is on the map when the
    two template literals of the popup convert [workout.type] and
    [workout.description] to strings. *)
Definition _renderWorkoutMarker (workout : value) : M unit :=
  coords <- lift (GetV workout "coords") ;;
  latlng <- lift (Leaflet.toLatLng coords) ;;
  m <- gets map ;;
  match m with
  | None => throw (cannot_read "undefined" "addLayer")
  | Some _ =>
      if latlng : bool then
        modify (fun a => with_markers (markers a ++ [workout]) a) ;;
        type <- lift (GetV workout "type") ;;
        lift (ToString type) ;;
        _ <- lift (GetV workout "type") ;;
        description <- lift (GetV workout "description") ;;
        lift (ToString description)
      else throw (Leaflet.no_latlng coords)
  end.

(** The template literals read a property and convert it to a string one
    after the other; [form.insertAdjacentHTML] comes last. *)
Definition _renderWorkout (workout : value) : M unit :=
  type <- lift (GetV workout "type") ;;
  lift (ToString type) ;;
  id <- lift (GetV workout "id") ;;
  lift (ToString id) ;;
  description <- lift (GetV workout "description") ;;
  lift (ToString description) ;;
  _ <- lift (GetV workout "type") ;;
  distance <- lift (GetV workout "distance") ;;
  lift (ToString distance) ;;
  duration <- lift (GetV workout "duration") ;;
  lift (ToString duration) ;;
  type <- lift (GetV workout "type") ;;
  (if strict_eq_str type "running"
   then pace <- lift (GetV workout "pace") ;;
        lift (toFixed pace) ;;
        cadence <- lift (GetV workout "cadence") ;;
        lift (ToString cadence)
   else ret tt) ;;
  type <- lift (GetV workout "type") ;;
  (if strict_eq_str type "cycling"
   then speed <- lift (GetV workout "speed") ;;
        lift (toFixed speed) ;;
        elevationGain <- lift (GetV workout "elevationGain") ;;
        lift (ToString elevationGain)
   else ret tt) ;;
  modify (fun a => with_listItems (workout :: listItems a) a).

(** [localStorage.setItem('workouts', JSON.stringify(this.#workouts))];
    [setItem] stores [undefined] as the string ["undefined"]. *)
Definition _setLocalStorage : M unit :=
  ws <- gets workouts ;;
  modify (with_localStorage
            (Some match JSON_stringify ws with
                  | Some t => t
                  | None => NotJSON "undefined"
                  end)).

(** [getItem] answers [null] for a missing key, and [JSON.parse(null)]
    is [null]. *)
Definition _getLocalStorage : M unit :=
  item <- gets localStorage ;;
  data <- lift (match item with
                | Some t => JSON_parse t
                | None => Normal VNull
                end) ;;
  if negb (truthy data) then ret tt
  else
    modify (with_workouts data) ;;
    ws <- gets workouts ;;
    forEach ws _renderWorkout.

(** [position.coords] holds Numbers, which [setView] accepts. *)
Definition _loadMap (coords : float * float) : M unit :=
  let coords := VArr [VNum (fst coords); VNum (snd coords)] in
  lift (Leaflet.setView coords) ;;
  modify (with_map (Some coords)) ;;
  ws <- gets workouts ;;
  forEach ws _renderWorkoutMarker.

Definition validInputs (inputs : list float) : bool :=
  forallb PrimFloat.is_finite inputs.

Definition allPositive (inputs : list float) : bool :=
  forallb (fun inp => PrimFloat.ltb 0 inp) inputs.

(** The handler of the form's [submit].  A branch answers [None] when it
    has returned from the handler, [Some workout] when control goes on. *)
Definition _newWorkout (f : Form) (clk : Clock) : M unit :=
  let type := inputType f in
  let distance := inputDistance f in
  let duration := inputDuration f in
  e <- gets mapEvent ;;
  match e with
  | None => throw (cannot_read "undefined" "latlng")
  | Some (lat, lng) =>
      let workout := VUndefined in
      running <-
        (if String.eqb type "running" then
           let cadence := inputCadence f in
           if negb (validInputs [distance; duration; cadence])
              || negb (allPositive [distance; duration; cadence])
           then alert "Inputs have to be positive numbers." ;; ret None
           else w <- lift (Running.new clk (VArr [VNum lat; VNum lng])
                             distance duration cadence) ;;
                ret (Some w)
         else ret (Some workout)) ;;
      match running with
      | None => ret tt
      | Some workout =>
          cycling <-
            (if String.eqb type "cycling" then
               let elevation := inputElevation f in
               if negb (validInputs [distance; duration; elevation])
                  || negb (allPositive [distance; duration])
               then alert "Inputs have to be positive numbers." ;; ret None
               else w <- lift (Cycling.new clk (VArr [VNum lat; VNum lng])
                                 distance duration elevation) ;;
                    ret (Some w)
             else ret (Some workout)) ;;
          match cycling with
          | None => ret tt
          | Some workout =>
              ws <- gets workouts ;;
              ws' <- lift (push ws workout) ;;
              modify (with_workouts ws') ;;
              _renderWorkoutMarker workout ;;
              _renderWorkout workout ;;
              _hideForm ;;
              _setLocalStorage
          end
      end
  end.

(** [work => work.id === workoutEl.dataset.id] *)
Definition has_id (id : string) (work : value) : completion bool :=
  match GetV work "id" with
  | Normal v => Normal (strict_eq_str v id)
  | Throw e => Throw e
  end.

(** The handler of a click in the list: [None] when the click is outside
    every [.workout] element, else that element's [data-id].  The map is
    centred on [workout.coords] when Leaflet's [setView] accepts them. *)
Definition _moveToPopup (workoutEl : option string) : M unit :=
  match workoutEl with
  | None => ret tt
  | Some id =>
      ws <- gets workouts ;;
      workout <- lift (find ws (has_id id)) ;;
      m <- gets map ;;
      match m with
      | None => throw (cannot_read "undefined" "setView")
      | Some _ =>
          coords <- lift (GetV workout "coords") ;;
          lift (Leaflet.setView coords) ;;
          modify (with_map (Some coords))
      end
  end.

(** The page before the script runs, with [stored] under the key. *)
Definition page (stored : option text) : App :=
  mkApp None None (VArr []) stored [] [] [] true false.

(** [new App()]: the position request answers later, through [_loadMap];
    the listeners are attached last. *)
Definition constructor : M unit :=
  _getLocalStorage ;;
  modify (with_listening true).

End App.

(** ** Vocabulary of the specification *)

(** The two variants, and construction by variant: the last argument is
    the cadence of a run or the elevation gain of a ride. *)
Inductive kind := KRunning | KCycling.

Definition type_name (k : kind) : string :=
  match k with KRunning => "running" | KCycling => "cycling" end.

Definition capitalized (k : kind) : string :=
  match k with KRunning => "Running" | KCycling => "Cycling" end.

Definition construct (k : kind) (clk : Clock) (coords : value)
    (distance duration extra : float) : completion assignments :=
  match k with
  | KRunning => Running.constructor clk coords distance duration extra
  | KCycling => Cycling.constructor clk coords distance duration extra
  end.

Definition create (k : kind) (clk : Clock) (coords : value)
    (distance duration extra : float) : completion value :=
  match k with
  | KRunning => Running.new clk coords distance duration extra
  | KCycling => Cycling.new clk coords distance duration extra
  end.

(** The month names "spelled out in full". *)
Definition full_month_names : list string :=
  [ "January"; "February"; "March"; "April"; "May"; "June"; "July";
    "August"; "September"; "October"; "November"; "December" ].

(** A numeral "with no leading zero": digits only, the first not [0]. *)
Definition numeral_without_leading_zero (s : string) : bool :=
  match list_ascii_of_string s with
  | [] => false
  | c :: l =>
      negb (Ascii.eqb c "0") && forallb Numeral.is_digit (c :: l)
  end.

(** The number a string of decimal digits denotes, read from the left;
    [None] for the empty string and for a string with another character.
    The digits are the characters of codes 48 to 57. *)
Definition digit_value (c : ascii) : option Z :=
  let code := Z.of_nat (nat_of_ascii c) in
  if ((48 <=? code) && (code <=? 57))%Z then Some (code - 48)%Z else None.

Fixpoint digits_value (acc : Z) (l : list ascii) : option Z :=
  match l with
  | [] => Some acc
  | c :: l' =>
      match digit_value c with
      | Some d => digits_value (10 * acc + d) l'
      | None => None
      end
  end.

Definition decimal_value (s : string) : option Z :=
  match list_ascii_of_string s with
  | [] => None
  | l => digits_value 0 l
  end.

(** A document none of whose objects has a member name made of decimal
    digits.  An object lists its array-index names first, in ascending
    order, wherever the text has them; without such names the members of
    the text and the properties of the parsed value come in one order. *)
Definition numeric_name (k : string) : bool :=
  match decimal_value k with
  | Some _ => true
  | None => false
  end.

Fixpoint no_numeric_names (j : json) : bool :=
  match j with
  | JArr items =>
      (fix all (l : list json) : bool :=
         match l with
         | [] => true
         | x :: l' => no_numeric_names x && all l'
         end) items
  | JObj members =>
      (fix all (l : list (string * json)) : bool :=
         match l with
         | [] => true
         | (k, x) :: l' => negb (numeric_name k) && no_numeric_names x && all l'
         end) members
  | _ => true
  end.

(** ** Sample data *)

Definition july14 : Date := mkDate 6 14 "2025-07-14T09:30:00.000Z".
Definition clock1 : Clock := mkClock july14 1752485400000.
Definition nov6 : Date := mkDate 10 6 "2025-11-06T03:16:40.000Z".
Definition clock2 : Clock := mkClock nov6 (1752485400000 + 10 ^ 10).
Definition here : value := VArr [VNum 40.75; VNum (-74)].

Definition run1 : value :=
  VObj RunningProto
    [("date", VDate july14); ("id", VStr "2485400000"); ("clicks", VNum 0);
     ("coords", here); ("distance", VNum 5); ("duration", VNum 30);
     ("type", VStr "running"); ("cadence", VNum 170);
     ("pace", VNum 6); ("description", VStr "Running on July 14")].

Definition ride1 : value :=
  VObj CyclingProto
    [("date", VDate july14); ("id", VStr "2485400000"); ("clicks", VNum 0);
     ("coords", here); ("distance", VNum 20); ("duration", VNum 60);
     ("type", VStr "cycling"); ("elevationGain", VNum (-3));
     ("speed", VNum 20); ("description", VStr "Cycling on July 14")].

Definition ride2 : value :=
  VObj CyclingProto
    [("date", VDate nov6); ("id", VStr "2485400000"); ("clicks", VNum 0);
     ("coords", here); ("distance", VNum 20); ("duration", VNum 60);
     ("type", VStr "cycling"); ("elevationGain", VNum (-3));
     ("speed", VNum 20); ("description", VStr "Cycling on November 6")].

(** ** Validation policy of the specification

    "Reject unless every numeric field is a finite number, and every field
    except elevation gain is strictly positive." *)
Definition acceptable (k : kind) (f : App.Form) : bool :=
  match k with
  | KRunning =>
      PrimFloat.is_finite (App.inputDistance f)
      && PrimFloat.is_finite (App.inputDuration f)
      && PrimFloat.is_finite (App.inputCadence f)
      && PrimFloat.ltb 0 (App.inputDistance f)
      && PrimFloat.ltb 0 (App.inputDuration f)
      && PrimFloat.ltb 0 (App.inputCadence f)
  | KCycling =>
      PrimFloat.is_finite (App.inputDistance f)
      && PrimFloat.is_finite (App.inputDuration f)
      && PrimFloat.is_finite (App.inputElevation f)
      && PrimFloat.ltb 0 (App.inputDistance f)
      && PrimFloat.ltb 0 (App.inputDuration f)
  end.

(** The variant-specific field of a form. *)
Definition extra_input (k : kind) (f : App.Form) : float :=
  match k with
  | KRunning => App.inputCadence f
  | KCycling => App.inputElevation f
  end.

Definition rejection : string := "Inputs have to be positive numbers.".

(** ** Values that JSON keeps as they are *)

Fixpoint distinct (ks : list string) : bool :=
  match ks with
  | [] => true
  | k :: ks' => negb (existsb (String.eqb k) ks') && distinct ks'
  end.

(** Null, booleans, strings, finite Numbers other than [-0], and arrays
    and plain objects (with distinct property names) of such values. *)
Fixpoint plain (v : value) : bool :=
  match v with
  | VUndefined | VDate _ => false
  | VNull | VBool _ | VStr _ => true
  | VNum x =>
      PrimFloat.is_finite x
      && negb (PrimFloat.is_zero x && PrimFloat.get_sign x)
  | VArr xs =>
      (fix all (l : list value) : bool :=
         match l with
         | [] => true
         | x :: l' => plain x && all l'
         end) xs
  | VObj p o =>
      match p with ObjectProto => true | _ => false end
      && distinct (List.map fst o)
      && (fix all (l : props) : bool :=
            match l with
            | [] => true
            | (_, x) :: l' => plain x && all l'
            end) o
  end.

(** A record as the collection holds them: an object of any class whose
    properties have distinct names and hold a Date or a plain value. *)
Definition field_ok (v : value) : bool :=
  match v with
  | VDate _ => true
  | _ => plain v
  end.

Definition record (w : value) : bool :=
  match w with
  | VObj _ o => distinct (List.map fst o) && forallb (fun kv => field_ok (snd kv)) o
  | _ => false
  end.

(** What a record is after the round trip: a plain object with the same
    properties in the same order, a Date replaced by its ISO string. *)
Definition stored_field (v : value) : value :=
  match v with
  | VDate d => VStr (toISOString d)
  | _ => v
  end.

Definition as_stored (w : value) : value :=
  match w with
  | VObj _ o => VObj ObjectProto (List.map (fun kv => (fst kv, stored_field (snd kv))) o)
  | _ => w
  end.

Definition is_TypeError (e : error) : Prop := exists msg, e = TypeError msg.

Definition is_array (v : value) : bool :=
  match v with VArr _ => true | _ => false end.

Definition is_date (v : value) : bool :=
  match v with VDate _ => true | _ => false end.

(** Whether [_renderWorkout] gets through its reads of a workout. *)
Definition renders (w : value) : bool :=
  match snd (App._renderWorkout w (App.page None)) with
  | Normal _ => true
  | Throw _ => false
  end.

(** Saving the collection, then loading the page anew. *)
Definition save_then_load (a : App) : App * completion unit :=
  App.constructor (App.page (localStorage (fst (App._setLocalStorage a)))).

(** The inner loops of [serialize] and [internalize], by name. *)
Definition serialize_items : list value -> list json :=
  fix items (l : list value) : list json :=
    match l with
    | [] => []
    | x :: l' =>
        match serialize x with
        | Some j => j
        | None => JNull
        end :: items l'
    end.

Definition serialize_members : props -> list (string * json) :=
  fix members (l : props) : list (string * json) :=
    match l with
    | [] => []
    | (k, x) :: l' =>
        match serialize x with
        | Some j => (k, j) :: members l'
        | None => members l'
        end
    end.

Definition build : list (string * json) -> props -> props :=
  fix build (l : list (string * json)) (acc : props) : props :=
    match l with
    | [] => acc
    | (k, x) :: l' => build l' (obj_set k (internalize x) acc)
    end.

Definition plain_items : list value -> bool :=
  fix all (l : list value) : bool :=
    match l with
    | [] => true
    | x :: l' => plain x && all l'
    end.

Definition plain_fields : props -> bool :=
  fix all (l : props) : bool :=
    match l with
    | [] => true
    | (_, x) :: l' => plain x && all l'
    end.

(** Induction on values through arrays and objects. *)
Section ValueInduction.
Variable P : value -> Prop.
Hypothesis Pundefined : P VUndefined.
Hypothesis Pnull : P VNull.
Hypothesis Pbool : forall b, P (VBool b).
Hypothesis Pnum : forall x, P (VNum x).
Hypothesis Pstr : forall s, P (VStr s).
Hypothesis Pdate : forall d, P (VDate d).
Hypothesis Parr : forall xs, Forall P xs -> P (VArr xs).
Hypothesis Pobj : forall p o, Forall (fun kv => P (snd kv)) o -> P (VObj p o).

Fixpoint value_nested_ind (v : value) : P v :=
  match v with
  | VUndefined => Pundefined
  | VNull => Pnull
  | VBool b => Pbool b
  | VNum x => Pnum x
  | VStr s => Pstr s
  | VDate d => Pdate d
  | VArr xs =>
      Parr xs ((fix go (l : list value) : Forall P l :=
                  match l with
                  | [] => Forall_nil P
                  | x :: l' => Forall_cons x (value_nested_ind x) (go l')
                  end) xs)
  | VObj p o =>
      Pobj p o ((fix go (l : props) : Forall (fun kv => P (snd kv)) l :=
                   match l with
                   | [] => Forall_nil _
                   | kv :: l' => Forall_cons kv (value_nested_ind (snd kv)) (go l')
                   end) o)
  end.
End ValueInduction.

(** ** Sample states *)

Definition run_form : App.Form := App.mkForm "running" 5 30 170 0.
Definition walk_form : App.Form := App.mkForm "walking" PrimFloat.nan 30 170 0.
Definition tiny_form : App.Form := App.mkForm "running" 0x1p-1074 1 170 0.

(** After the map has loaded and been clicked: the form is open. *)
Definition ready : App :=
  mkApp (Some (VArr [VNum 40.5; VNum (-74.5)])) (Some (40.75, -74)%float)
        (VArr []) None [] [] [] false true.

Definition run1_json : json :=
  JObj [("date", JStr "2025-07-14T09:30:00.000Z"); ("id", JStr "2485400000");
        ("clicks", JNum 0); ("coords", JArr [JNum 40.75; JNum (-74)]);
        ("distance", JNum 5); ("duration", JNum 30); ("type", JStr "running");
        ("cadence", JNum 170); ("pace", JNum 6);
        ("description", JStr "Running on July 14")].

Definition run1_reloaded : value :=
  VObj ObjectProto
    [("date", VStr "2025-07-14T09:30:00.000Z"); ("id", VStr "2485400000");
     ("clicks", VNum 0); ("coords", here); ("distance", VNum 5);
     ("duration", VNum 30); ("type", VStr "running"); ("cadence", VNum 170);
     ("pace", VNum 6); ("description", VStr "Running on July 14")].

(** After [run_form] was submitted in [ready]. *)
Definition logged : App :=
  mkApp (Some (VArr [VNum 40.5; VNum (-74.5)])) (Some (40.75, -74)%float)
        (VArr [run1]) (Some (JSONText (JArr [run1_json]))) [run1] [run1] []
        true true.

(** [run1] with its pace overwritten before saving. *)
Definition run1_tampered : value :=
  match run1 with
  | VObj p o => VObj p (obj_set "pace" (VNum 99) o)
  | v => v
  end.

(** A page whose store holds one good record followed by [null], and one
    whose store is not JSON. *)
Definition half_corrupt_page : App :=
  App.page (Some (JSONText (JArr [run1_json; JNull]))).


(** A collection with a tampered record, ready to be saved. *)
Definition tampered : App := with_workouts (VArr [run1_tampered; ride1]) logged.

(** The run that [tiny_form] creates: its pace overflows. *)
Definition tiny_run : value :=
  VObj RunningProto
    [("date", VDate july14); ("id", VStr "2485400000"); ("clicks", VNum 0);
     ("coords", here); ("distance", VNum 0x1p-1074); ("duration", VNum 1);
     ("type", VStr "running"); ("cadence", VNum 170);
     ("pace", VNum PrimFloat.infinity);
     ("description", VStr "Running on July 14")].

Definition tiny_run_reloaded : value :=
  VObj ObjectProto
    [("date", VStr "2025-07-14T09:30:00.000Z"); ("id", VStr "2485400000");
     ("clicks", VNum 0); ("coords", here); ("distance", VNum 0x1p-1074);
     ("duration", VNum 1); ("type", VStr "running"); ("cadence", VNum 170);
     ("pace", VNull); ("description", VStr "Running on July 14")].

(** The state a submission that goes through leaves: the workout [w]
    appended to the collection [ws], a marker and a list entry for it, the
    form hidden and the collection saved. *)
Definition submitted (w : value) (ws : list value) (a : App) : App :=
  with_localStorage
    (Some (JSONText (JArr (serialize_items (ws ++ [w])))))
    (with_formHidden true
       (with_listItems (w :: listItems a)
          (with_markers (markers a ++ [w])
             (with_workouts (VArr (ws ++ [w])) a)))).

(** The state a rejected submission leaves: the alert, and nothing else. *)
Definition rejected (a : App) : App := with_alerts (alerts a ++ [rejection]) a.

(** Forms the handler rejects: the three of the specification. *)
Definition nan_distance_form : App.Form := App.mkForm "running" PrimFloat.nan 30 170 0.
Definition negative_duration_form : App.Form := App.mkForm "cycling" 5 (-5) 0 100.
Definition zero_cadence_form : App.Form := App.mkForm "running" 5 30 0 0.

(** A ride uphill by a negative amount: accepted. *)
Definition downhill_form : App.Form := App.mkForm "cycling" 20 60 0 (-3).

Definition undefined_coords : error := cannot_read "undefined" "coords".

Definition ride1_json : json :=
  JObj [("date", JStr "2025-07-14T09:30:00.000Z"); ("id", JStr "2485400000");
        ("clicks", JNum 0); ("coords", JArr [JNum 40.75; JNum (-74)]);
        ("distance", JNum 20); ("duration", JNum 60); ("type", JStr "cycling");
        ("elevationGain", JNum (-3)); ("speed", JNum 20);
        ("description", JStr "Cycling on July 14")].

(** A page whose store holds a run and a ride. *)
Definition two_records_page : App :=
  App.page (Some (JSONText (JArr [run1_json; ride1_json]))).

(** ** The rest of [App]: the position request, [reset], and the events *)

(** How the position request of [_getPosition] ends: the browser has no
    [navigator.geolocation], the request fails, or it succeeds with a
    latitude and a longitude. *)
Inductive geolocation :=
| Unsupported
| Refused
| Located (coords : float * float).

(** [_getPosition]: without [navigator.geolocation] nothing is asked and
    nothing is said; otherwise the success callback is [_loadMap] and the
    error callback alerts. *)
Definition _getPosition (g : geolocation) : M unit :=
  match g with
  | Unsupported => ret tt
  | Refused => alert "Could not get your position"
  | Located coords => App._loadMap coords
  end.

(** [location.reload()]: the script runs anew on the page, with the store
    as it is. *)
Definition reload (a : App) : App * completion unit :=
  App.constructor (App.page (localStorage a)).

(** [reset()]: [localStorage.removeItem('workouts')], then
    [location.reload()]. *)
Definition reset (a : App) : App * completion unit :=
  reload (with_localStorage None a).

(** The events the script listens to, and the handler each one reaches:
    the two callbacks of the position request, a click on the map (the
    listener is put on the map by [_loadMap], so there is none before),
    the form's [submit], and a click in the list. *)
Inductive event :=
| Position (coords : float * float)
| PositionError
| MapClick (latlng : float * float)
| Submit (f : App.Form) (clk : Clock)
| ListClick (workoutEl : option string).

Definition handle (e : event) : M unit :=
  match e with
  | Position coords => _getPosition (Located coords)
  | PositionError => _getPosition Refused
  | MapClick latlng =>
      m <- gets map ;;
      match m with
      | Some _ => App._showForm latlng
      | None => ret tt
      end
  | Submit f clk => App._newWorkout f clk
  | ListClick workoutEl => App._moveToPopup workoutEl
  end.

(** A handler that throws leaves the page in the state it had reached;
    the next event finds it there. *)
Definition run (es : list event) (a : App) : App :=
  fold_left (fun a e => fst (handle e a)) es a.

(** ** Vocabulary for the properties of the handlers *)

Definition is_object (v : value) : bool :=
  match v with VObj _ _ => true | _ => false end.

Definition is_nullish (v : value) : bool :=
  match v with VUndefined | VNull => true | _ => false end.

(** The name of [undefined] or [null] in the engine's message. *)
Definition nullish_name (v : value) : string :=
  match v with VNull => "null" | _ => "undefined" end.

(** A position as the script writes it: an array of a latitude and a
    longitude, two finite Numbers. *)
Definition is_latlng (c : value) : bool :=
  match c with
  | VArr [VNum lat; VNum lng] =>
      PrimFloat.is_finite lat && PrimFloat.is_finite lng
  | _ => false
  end.

(** A value the template literals can interpolate. *)
Definition printable (v : value) : bool :=
  match ToString v with
  | Normal _ => true
  | Throw _ => false
  end.

(** A workout whose marker can be placed and labelled: an object with a
    position in [coords] and a printable [type] and [description]. *)
Definition mappable (w : value) : bool :=
  match w with
  | VObj _ o =>
      is_latlng (obj_get "coords" o)
      && printable (obj_get "type" o)
      && printable (obj_get "description" o)
  | _ => false
  end.

(** A workout whose marker Leaflet places and whose popup can be
    labelled. *)
Definition placeable (w : value) : bool :=
  match w with
  | VObj _ o =>
      match Leaflet.toLatLng (obj_get "coords" o) with
      | Normal true =>
          printable (obj_get "type" o) && printable (obj_get "description" o)
      | _ => false
      end
  | _ => false
  end.

(** An entry that gives Leaflet no position: anything but an object, and
    an object whose [coords] is missing or [null]. *)
Definition no_position (w : value) : bool :=
  match w with
  | VObj _ o => is_nullish (obj_get "coords" o)
  | _ => true
  end.

(** The position as [_loadMap] hands it to Leaflet. *)
Definition centre (coords : float * float) : value :=
  VArr [VNum (fst coords); VNum (snd coords)].

(** The text [_setLocalStorage] writes for a collection. *)
Definition stored_text (ws : value) : text :=
  match JSON_stringify ws with
  | Some t => t
  | None => NotJSON "undefined"
  end.

(** Objects whose property names are distinct, all the way down: the
    objects a script can build. *)
Fixpoint well_formed (v : value) : bool :=
  match v with
  | VArr xs =>
      (fix all (l : list value) : bool :=
         match l with
         | [] => true
         | x :: l' => well_formed x && all l'
         end) xs
  | VObj _ o =>
      distinct (List.map fst o)
      && (fix all (l : props) : bool :=
            match l with
            | [] => true
            | (_, x) :: l' => well_formed x && all l'
            end) o
  | _ => true
  end.

Definition well_formed_items : list value -> bool :=
  fix all (l : list value) : bool :=
    match l with
    | [] => true
    | x :: l' => well_formed x && all l'
    end.

Definition well_formed_fields : props -> bool :=
  fix all (l : props) : bool :=
    match l with
    | [] => true
    | (_, x) :: l' => well_formed x && all l'
    end.

(** What an array element is written as: [undefined] becomes [null]. *)
Definition serialize_item (x : value) : json :=
  match serialize x with
  | Some j => j
  | None => JNull
  end.

(** The derived metric of a submission: the pace of a run, the speed of a
    ride. *)
Definition metric (k : kind) (f : App.Form) : float :=
  match k with
  | KRunning => (App.inputDuration f / App.inputDistance f)%float
  | KCycling => (App.inputDistance f / (App.inputDuration f / 60))%float
  end.

Definition metric_name (k : kind) : string :=
  match k with KRunning => "pace" | KCycling => "speed" end.

(** The property names of a stored record, in the order they are written. *)
Definition layout (k : kind) : list string :=
  [ "date"; "id"; "clicks"; "coords"; "distance"; "duration"; "type";
    match k with KRunning => "cadence" | KCycling => "elevationGain" end;
    match k with KRunning => "pace" | KCycling => "speed" end;
    "description" ].

(** What the handler does with the workout it has settled on: the part of
    [_newWorkout] from [push] to [_setLocalStorage]. *)
Definition commit (workout : value) : M unit :=
  ws <- gets workouts ;;
  ws' <- lift (push ws workout) ;;
  modify (with_workouts ws') ;;
  App._renderWorkoutMarker workout ;;
  App._renderWorkout workout ;;
  App._hideForm ;;
  App._setLocalStorage.

(** What the two branches of [_newWorkout] settle on: [None] when the
    handler returns after the alert, else the value of [workout]. *)
Definition settle (f : App.Form) (clk : Clock) (latlng : float * float)
  : option (completion value) :=
  let coords := VArr [VNum (fst latlng); VNum (snd latlng)] in
  if String.eqb (App.inputType f) "running" then
    if acceptable KRunning f
    then Some (Running.new clk coords (App.inputDistance f) (App.inputDuration f)
                 (App.inputCadence f))
    else None
  else if String.eqb (App.inputType f) "cycling" then
    if acceptable KCycling f
    then Some (Cycling.new clk coords (App.inputDistance f) (App.inputDuration f)
                 (App.inputElevation f))
    else None
  else Some (Normal VUndefined).

(** ** Sessions

    A session starts with the script running on a page whose store is
    empty.  An event can happen when the page offers it: the position
    request answers while there is no map; the map is clicked once it is
    there, at a latlng of Leaflet, whose Numbers are finite; the form
    is submitted while it is shown, with one of the two types its select
    offers; a click in the list is outside every entry or on an entry
    that is listed. *)

Definition listed (id : string) (a : App) : bool :=
  existsb (fun w => match App.has_id id w with
                    | Normal true => true
                    | _ => false
                    end) (listItems a).

Definition enabled (e : event) (a : App) : bool :=
  match e with
  | Position _ | PositionError =>
      match map a with None => true | Some _ => false end
  | MapClick (lat, lng) =>
      match map a with Some _ => true | None => false end
      && PrimFloat.is_finite lat && PrimFloat.is_finite lng
  | Submit f _ =>
      negb (formHidden a)
      && (String.eqb (App.inputType f) "running"
          || String.eqb (App.inputType f) "cycling")
  | ListClick None => true
  | ListClick (Some id) => listed id a
  end.

Definition start : App := fst (App.constructor (App.page None)).

(** Whether the page offers each event of a sequence when its turn
    comes, and how the handlers end. *)
Fixpoint offered (es : list event) (a : App) : bool :=
  match es with
  | [] => true
  | e :: es' => enabled e a && offered es' (fst (handle e a))
  end.

Fixpoint outcomes (es : list event) (a : App) : list (completion unit) :=
  match es with
  | [] => []
  | e :: es' => snd (handle e a) :: outcomes es' (fst (handle e a))
  end.

(** The workouts a sequence of events asks for, read off the events
    alone.  A submission of a form the policy accepts asks for one
    workout: of the variant the form selects, at the point of the last
    click on the map, with the numbers of the form and the clock of the
    submission.  Nothing else asks for any. *)
Definition kind_of (type : string) : option kind :=
  if String.eqb type "running" then Some KRunning
  else if String.eqb type "cycling" then Some KCycling
  else None.

Definition logs (click : option (float * float)) (e : event) : list value :=
  match e, click with
  | Submit f clk, Some latlng =>
      match kind_of (App.inputType f) with
      | Some k =>
          if acceptable k f then
            match create k clk (centre latlng) (App.inputDistance f)
                    (App.inputDuration f) (extra_input k f) with
            | Normal w => [w]
            | Throw _ => []
            end
          else []
      | None => []
      end
  | _, _ => []
  end.

Definition clicked (click : option (float * float)) (e : event)
  : option (float * float) :=
  match e with
  | MapClick latlng => Some latlng
  | _ => click
  end.

Fixpoint logged_from (click : option (float * float)) (es : list event)
  : list value :=
  match es with
  | [] => []
  | e :: es' => logs click e ++ logged_from (clicked click e) es'
  end.

(** The state of a session in terms of the workouts [ws] it has logged. *)
Definition session_state (ws : list value) (a : App) : Prop :=
  workouts a = VArr ws
  /\ listItems a = rev ws
  /\ markers a = ws
  /\ localStorage a = match ws with
                      | [] => None
                      | _ :: _ => Some (JSONText (JArr (serialize_items ws)))
                      end.

(** A session of three events: the position arrives, the map is clicked,
    a run is submitted. *)
Definition short_session : list event :=
  [Position (40.5, -74.5)%float; MapClick (40.75, -74)%float; Submit run_form clock1].

(** A ride whose speed overflows. *)
Definition fast_form : App.Form := App.mkForm "cycling" 0x1p1023 0x1p-1000 0 0.

Definition is_position (e : event) : bool :=
  match e with Position _ => true | _ => false end.

(** Two workouts made in the same millisecond at two places, a run and a
    ride. *)
Definition run1_fields : props :=
  [("date", VDate july14); ("id", VStr "2485400000"); ("clicks", VNum 0);
   ("coords", here); ("distance", VNum 5); ("duration", VNum 30);
   ("type", VStr "running"); ("cadence", VNum 170);
   ("pace", VNum 6); ("description", VStr "Running on July 14")].

Definition there : value := VArr [VNum 41; VNum (-73)].

Definition ride1_there : value :=
  VObj CyclingProto
    [("date", VDate july14); ("id", VStr "2485400000"); ("clicks", VNum 0);
     ("coords", there); ("distance", VNum 20); ("duration", VNum 60);
     ("type", VStr "cycling"); ("elevationGain", VNum (-3));
     ("speed", VNum 20); ("description", VStr "Cycling on July 14")].

Definition twins : App :=
  with_workouts (VArr [VObj RunningProto run1_fields; ride1_there]) logged.

(** What holds all along a session that has logged [ws]. *)
Definition session_inv (ws : list value) (a : App) : Prop :=
  listening a = true
  /\ session_state ws a
  /\ forallb placeable ws = true
  /\ (map a = None -> ws = [] /\ mapEvent a = None)
  /\ (formHidden a = false -> mapEvent a <> None).

(** A minute after [clock1]. *)
Definition clock3 : Clock := mkClock july14 1752485460000.

Definition is_located (g : geolocation) : bool :=
  match g with Located _ => true | _ => false end.

(** ** The two rows of the form

    What [_toggelElevationField] changes: whether the row of the
    elevation input and the row of the cadence input (each input in a row
    of its own) have the class [form__row--hidden].  [classList.toggle]
    adds the class when it is absent and removes it when it is there. *)
Record FormRows := mkRows {
  elevationRowHidden : bool;
  cadenceRowHidden : bool
}.

Definition _toggelElevationField (r : FormRows) : FormRows :=
  mkRows (negb (elevationRowHidden r)) (negb (cadenceRowHidden r)).

(** * Properties *)

(** ** Decimal numerals *)

Module NumeralFacts.
Import Numeral.
Local Open Scope Z_scope.

Ltac digit_cases d :=
  assert (d = 0 \/ d = 1 \/ d = 2 \/ d = 3 \/ d = 4 \/
          d = 5 \/ d = 6 \/ d = 7 \/ d = 8 \/ d = 9) by lia.

Lemma digit_inj a b :
  0 <= a < 10 -> 0 <= b < 10 -> digit a = digit b -> a = b.
Proof.
  intros Ha Hb. digit_cases a. digit_cases b.
  intuition (subst; try reflexivity; discriminate).
Qed.

Lemma digit_is_digit d : 0 <= d < 10 -> is_digit (digit d) = true.
Proof. intros Hd. digit_cases d. intuition (subst; reflexivity). Qed.

Lemma digit_zero d : 0 < d < 10 -> digit d <> "0"%char.
Proof. intros Hd. digit_cases d. intuition (subst; discriminate). Qed.

Lemma pow2_succ (f : nat) : 2 ^ Z.of_nat (S f) = 2 * 2 ^ Z.of_nat f.
Proof. rewrite Nat2Z.inj_succ, Z.pow_succ_r by lia. reflexivity. Qed.

(** Any fuel that bounds the number of binary digits gives the same
    decimal digits. *)
Lemma rev_digits_fuel f1 : forall f2 n,
  0 <= n < 2 ^ Z.of_nat (S f1) -> n < 2 ^ Z.of_nat (S f2) ->
  rev_digits (S f1) n = rev_digits (S f2) n.
Proof.
  induction f1 as [|f1 IH]; intros f2 n H1 H2.
  - change (2 ^ Z.of_nat 1) with 2 in H1.
    cbn [rev_digits]. destruct (n <? 10) eqn:E; [reflexivity|].
    apply Z.ltb_ge in E. lia.
  - cbn [rev_digits]. destruct (n <? 10) eqn:E; [reflexivity|].
    apply Z.ltb_ge in E. f_equal.
    rewrite pow2_succ in H1.
    assert (Hq : 0 <= n / 10 < 2 ^ Z.of_nat (S f1)).
    { split; [apply Z.div_pos; lia|].
      apply Z.div_lt_upper_bound; lia. }
    destruct f2 as [|f2].
    + change (2 ^ Z.of_nat 1) with 2 in H2. lia.
    + rewrite pow2_succ in H2.
      change (rev_digits (S f1) (n / 10) = rev_digits (S f2) (n / 10)).
      apply IH; [exact Hq|].
      apply Z.div_lt_upper_bound; lia.
Qed.

Lemma digits_fuel_bound n : 0 <= n -> n < 2 ^ Z.of_nat (digits_fuel n).
Proof.
  intros Hn. unfold digits_fuel.
  rewrite Nat2Z.inj_succ, Z2Nat.id by apply Z.log2_nonneg.
  destruct (Z.eq_dec n 0) as [->|Hz]; [reflexivity|].
  apply Z.log2_spec. lia.
Qed.

Lemma rd_step n :
  0 <= n ->
  rd n = digit (n mod 10) :: (if n <? 10 then [] else rd (n / 10)).
Proof.
  intros Hn. unfold rd at 1. unfold digits_fuel at 1.
  cbn [rev_digits]. f_equal.
  destruct (n <? 10) eqn:E; [reflexivity|].
  apply Z.ltb_ge in E.
  assert (Hb := digits_fuel_bound n Hn). unfold digits_fuel in Hb.
  rewrite pow2_succ in Hb.
  assert (Hq : 0 <= n / 10) by (apply Z.div_pos; lia).
  assert (Hb' := digits_fuel_bound (n / 10) Hq).
  unfold rd, digits_fuel in *.
  destruct (Z.to_nat (Z.log2 n)) as [|f] eqn:Ef.
  - change (2 ^ Z.of_nat 0) with 1 in Hb. lia.
  - apply rev_digits_fuel.
    + split; [exact Hq|]. rewrite pow2_succ.
      apply Z.div_lt_upper_bound; [lia|].
      rewrite pow2_succ in Hb. lia.
    + exact Hb'.
Qed.

Lemma pow10_succ (k : nat) : 10 ^ Z.of_nat (S k) = 10 * 10 ^ Z.of_nat k.
Proof. rewrite Nat2Z.inj_succ, Z.pow_succ_r by lia. reflexivity. Qed.

Lemma pow10_pos (k : nat) : 0 < 10 ^ Z.of_nat k.
Proof. apply Z.pow_pos_nonneg; lia. Qed.

(** The [k+1] low digits of a numeral that has them are the padded
    digits of the number modulo [10^(k+1)]. *)
Lemma firstn_rd k : forall n,
  10 ^ Z.of_nat k <= n ->
  firstn (S k) (rd n) = padded (S k) (n mod 10 ^ Z.of_nat (S k)).
Proof.
  induction k as [|k IH]; intros n Hn.
  - change (10 ^ Z.of_nat 0) with 1 in Hn.
    rewrite rd_step by lia. cbn [firstn padded].
    change (10 ^ Z.of_nat 1) with 10. rewrite Z.mod_mod by lia. reflexivity.
  - assert (Hp := pow10_pos k). rewrite pow10_succ in Hn.
    rewrite rd_step by lia.
    destruct (n <? 10) eqn:E; [apply Z.ltb_lt in E; lia|].
    change (firstn (S (S k)) (digit (n mod 10) :: rd (n / 10)))
      with (digit (n mod 10) :: firstn (S k) (rd (n / 10))).
    rewrite IH by (apply Z.div_le_lower_bound; lia).
    rewrite (pow10_succ (S k)).
    assert (Hp' := pow10_pos (S k)).
    rewrite (Z.rem_mul_r n 10 (10 ^ Z.of_nat (S k))) by lia.
    set (q := (n / 10) mod 10 ^ Z.of_nat (S k)).
    assert (Hr : 0 <= n mod 10 < 10) by (apply Z.mod_pos_bound; lia).
    change (padded (S (S k)) (n mod 10 + 10 * q))
      with (digit ((n mod 10 + 10 * q) mod 10)
            :: padded (S k) ((n mod 10 + 10 * q) / 10)).
    f_equal.
    + f_equal. apply (Z.mod_unique _ _ q); [left; lia | lia].
    + f_equal. apply (Z.div_unique _ _ _ (n mod 10)); [left; lia | lia].
Qed.

Lemma padded_length k : forall m, List.length (padded k m) = k.
Proof. induction k; intros m; cbn; [reflexivity | now rewrite IHk]. Qed.

Lemma padded_inj k : forall a b,
  0 <= a < 10 ^ Z.of_nat k -> 0 <= b < 10 ^ Z.of_nat k ->
  padded k a = padded k b -> a = b.
Proof.
  induction k as [|k IH]; intros a b Ha Hb E.
  - change (10 ^ Z.of_nat 0) with 1 in *. lia.
  - rewrite pow10_succ in Ha, Hb. cbn [padded] in E.
    injection E as Ed Er.
    apply digit_inj in Ed; try (apply Z.mod_pos_bound; lia).
    apply IH in Er.
    + rewrite (Z.div_mod a 10), (Z.div_mod b 10) by lia. lia.
    + split; [apply Z.div_pos; lia | apply Z.div_lt_upper_bound; lia].
    + split; [apply Z.div_pos; lia | apply Z.div_lt_upper_bound; lia].
Qed.

Lemma rd_length k n : 10 ^ Z.of_nat k <= n -> (S k <= List.length (rd n))%nat.
Proof.
  intros Hn. assert (E := f_equal (@List.length _) (firstn_rd k n Hn)).
  rewrite padded_length, length_firstn in E. lia.
Qed.

(** A positive number's numeral is made of digits and does not start
    with a zero. *)
Lemma rd_leading n :
  0 < n ->
  exists c l, rev (rd n) = c :: l /\ c <> "0"%char
              /\ forallb is_digit (c :: l) = true.
Proof.
  intros Hn. assert (H0 : 0 <= n) by lia. revert Hn. pattern n.
  apply Z_lt_induction; [|exact H0].
  clear n H0. intros n IH Hn.
  assert (Hr : 0 <= n mod 10 < 10) by (apply Z.mod_pos_bound; lia).
  rewrite rd_step by lia.
  destruct (n <? 10) eqn:E.
  - apply Z.ltb_lt in E. rewrite Z.mod_small by lia.
    exists (digit n), []. cbn [rev app forallb].
    rewrite digit_is_digit by lia.
    repeat split. apply digit_zero. lia.
  - apply Z.ltb_ge in E.
    destruct (IH (n / 10)) as (c & l & E1 & E2 & E3).
    + split; [apply Z.div_pos; lia | apply Z.div_lt; lia].
    + apply Z.div_str_pos. lia.
    + exists c, (l ++ [digit (n mod 10)]).
      cbn [rev]. rewrite E1. repeat split; [exact E2|].
      change ((c :: l) ++ [digit (n mod 10)]) with ((c :: l) ++ [digit (n mod 10)]).
      rewrite app_comm_cons, forallb_app, E3. cbn [forallb].
      rewrite digit_is_digit by lia. reflexivity.
Qed.

End NumeralFacts.

(** ** Strings *)

Module StrFacts.
Import Str.

Lemma length_of_list l : String.length (string_of_list_ascii l) = List.length l.
Proof. induction l; cbn; congruence. Qed.

Lemma skip_of_list n : forall l,
  skip n (string_of_list_ascii l) = string_of_list_ascii (skipn n l).
Proof.
  induction n as [|n IH]; intros [|c l]; cbn; try reflexivity. apply IH.
Qed.

Lemma of_list_inj l1 l2 :
  string_of_list_ascii l1 = string_of_list_ascii l2 -> l1 = l2.
Proof.
  intros E. apply (f_equal list_ascii_of_string) in E.
  now rewrite !list_ascii_of_string_of_list_ascii in E.
Qed.

(** The last [k] characters of a string given by its characters in
    reverse. *)
Lemma slice_last_rev k l :
  (k <= List.length l)%nat ->
  slice_last k (string_of_list_ascii (rev l)) = string_of_list_ascii (rev (firstn k l)).
Proof.
  intros Hk. unfold slice_last.
  rewrite length_of_list, skip_of_list, length_rev, skipn_rev.
  do 3 f_equal. lia.
Qed.

End StrFacts.

(** ** Construction *)

Module ClassFacts.

(** The object [new Running(...)] makes, property by property. *)
Lemma Running_new_eq clk coords distance duration cadence :
  Running.new clk coords distance duration cadence =
  Normal (VObj RunningProto
    [("date", VDate (newDate clk)); ("id", VStr (Workout.id clk));
     ("clicks", VNum 0); ("coords", coords); ("distance", VNum distance);
     ("duration", VNum duration); ("type", VStr "running");
     ("cadence", VNum cadence); ("pace", VNum (duration / distance));
     ("description",
      VStr ("Running on "
            ++ match nth_error Workout.months (getMonth (newDate clk)) with
               | Some m => m
               | None => "undefined"
               end
            ++ " " ++ Numeral.to_string (getDate (newDate clk)))%string)])%float.
Proof. reflexivity. Qed.

Lemma Cycling_new_eq clk coords distance duration elevationGain :
  Cycling.new clk coords distance duration elevationGain =
  Normal (VObj CyclingProto
    [("date", VDate (newDate clk)); ("id", VStr (Workout.id clk));
     ("clicks", VNum 0); ("coords", coords); ("distance", VNum distance);
     ("duration", VNum duration); ("type", VStr "cycling");
     ("elevationGain", VNum elevationGain);
     ("speed", VNum (distance / (duration / 60)));
     ("description",
      VStr ("Cycling on "
            ++ match nth_error Workout.months (getMonth (newDate clk)) with
               | Some m => m
               | None => "undefined"
               end
            ++ " " ++ Numeral.to_string (getDate (newDate clk)))%string)])%float.
Proof. reflexivity. Qed.

Example running_example : Running.new clock1 here 5 30 170 = Normal run1.
Proof. vm_compute. reflexivity. Qed.

Example cycling_example : Cycling.new clock1 here 20 60 (-3) = Normal ride1.
Proof. vm_compute. reflexivity. Qed.

Example cycling_example_later : Cycling.new clock2 here 20 60 (-3) = Normal ride2.
Proof. vm_compute. reflexivity. Qed.

End ClassFacts.

(** ** Derived metrics *)

(** C5. Constructing a Running workout succeeds and stores in [pace] the
    double [duration / distance], computed by the constructor itself.  This
    holds for all arguments, the valid ones (all three positive) among
    them. *)
Theorem running_pace_is_duration_over_distance :
  forall clk coords distance duration cadence,
  exists w,
    Running.new clk coords distance duration cadence = Normal w
    /\ GetV w "pace" = Normal (VNum (duration / distance)%float)
    /\ GetV w "distance" = Normal (VNum distance)
    /\ GetV w "duration" = Normal (VNum duration)
    /\ GetV w "cadence" = Normal (VNum cadence).
Proof.
  intros. eexists. split; [apply ClassFacts.Running_new_eq|].
  repeat split.
Qed.

(** The scenario of the specification: 5 km in 30 min is a pace of 6. *)
Example running_pace_scenario :
  exists w, Running.new clock1 here 5 30 170 = Normal w
            /\ GetV w "pace" = Normal (VNum 6).
Proof. exists run1. split; vm_compute; reflexivity. Qed.

(** C6. Constructing a Cycling workout succeeds and stores in [speed] the
    double [distance / (duration / 60)], computed by the constructor
    itself. *)
Theorem cycling_speed_is_distance_over_hours :
  forall clk coords distance duration elevationGain,
  exists w,
    Cycling.new clk coords distance duration elevationGain = Normal w
    /\ GetV w "speed" = Normal (VNum (distance / (duration / 60))%float)
    /\ GetV w "distance" = Normal (VNum distance)
    /\ GetV w "duration" = Normal (VNum duration)
    /\ GetV w "elevationGain" = Normal (VNum elevationGain).
Proof.
  intros. eexists. split; [apply ClassFacts.Cycling_new_eq|].
  repeat split.
Qed.

(** ** Descriptions *)

Lemma month_in_full m :
  (m < 12)%nat ->
  exists name, nth_error Workout.months m = Some name
               /\ nth_error full_month_names m = Some name.
Proof.
  intros Hm.
  do 12 (destruct m as [|m]; [eexists; split; reflexivity|]). lia.
Qed.

Lemma day_numeral d :
  (0 < d)%Z -> numeral_without_leading_zero (Numeral.to_string d) = true.
Proof.
  intros Hd. unfold numeral_without_leading_zero, Numeral.to_string.
  destruct (d <? 0)%Z eqn:E; [apply Z.ltb_lt in E; lia|].
  rewrite list_ascii_of_string_of_list_ascii. unfold Numeral.natural_digits.
  destruct (NumeralFacts.rd_leading d Hd) as (c & l & -> & Hc & Hall).
  rewrite Hall, andb_true_r.
  destruct (Ascii.eqb_spec c "0"); [contradiction | reflexivity].
Qed.

Lemma digits_value_app l1 : forall acc l2,
  digits_value acc (l1 ++ l2)
  = match digits_value acc l1 with
    | Some v => digits_value v l2
    | None => None
    end.
Proof.
  induction l1 as [|c l1 IH]; intros acc l2; cbn; [reflexivity|].
  destruct (digit_value c); [apply IH | reflexivity].
Qed.

Lemma digit_value_digit d :
  (0 <= d < 10)%Z -> digit_value (Numeral.digit d) = Some d.
Proof.
  intros Hd.
  assert (d = 0 \/ d = 1 \/ d = 2 \/ d = 3 \/ d = 4 \/
          d = 5 \/ d = 6 \/ d = 7 \/ d = 8 \/ d = 9)%Z by lia.
  intuition (subst; reflexivity).
Qed.

Lemma natural_digits_value n :
  (0 <= n)%Z -> digits_value 0 (Numeral.natural_digits n) = Some n.
Proof.
  intros H0. generalize H0. pattern n. apply Z_lt_induction; [|exact H0].
  clear n H0. intros n IH Hn. unfold Numeral.natural_digits in *.
  assert (Hr : (0 <= n mod 10 < 10)%Z) by (apply Z.mod_pos_bound; lia).
  rewrite NumeralFacts.rd_step by lia.
  destruct (n <? 10)%Z eqn:E.
  - apply Z.ltb_lt in E. rewrite Z.mod_small by lia.
    cbn [rev app digits_value]. rewrite digit_value_digit by lia.
    f_equal.
  - apply Z.ltb_ge in E. cbn [rev]. rewrite digits_value_app.
    rewrite IH
      by (try split; try apply Z.div_pos; try apply Z.div_lt; lia).
    cbn [digits_value]. rewrite digit_value_digit by lia.
    f_equal. rewrite (Z.div_mod n 10) at 3 by lia. reflexivity.
Qed.

(** The numeral of a positive number denotes that number. *)
Lemma day_value d :
  (0 < d)%Z -> decimal_value (Numeral.to_string d) = Some d.
Proof.
  intros Hd. unfold decimal_value, Numeral.to_string.
  destruct (d <? 0)%Z eqn:E; [apply Z.ltb_lt in E; lia|].
  rewrite list_ascii_of_string_of_list_ascii.
  assert (Hv := natural_digits_value d ltac:(lia)).
  destruct (Numeral.natural_digits d); [|exact Hv].
  cbn in Hv. injection Hv as <-. lia.
Qed.

(** C7. For either variant and every date [new Date()] can give (month 0
    to 11, day 1 to 31) construction succeeds with the description
    ["<CapitalizedVariant> on <Month> <Day>"]: the month is the full name
    of the date's month; the day is made of decimal digits, the first not a
    zero, and the number these digits denote, read from the left, is the
    day of the month.  The string is [describe] of the type and the date
    alone, so equal inputs give equal strings whatever the other
    arguments; and the constructor assigns [description] exactly once. *)
Theorem description_format :
  forall k clk coords distance duration extra,
  (getMonth (newDate clk) < 12)%nat ->
  (1 <= getDate (newDate clk) <= 31)%Z ->
  exists this w month day,
    construct k clk coords distance duration extra = Normal this
    /\ create k clk coords distance duration extra
       = Normal w
    /\ w = VObj (match k with KRunning => RunningProto | KCycling => CyclingProto end)
              (props_of this)
    /\ write_count "description" this = 1%nat
    /\ GetV w "description"
       = Normal (VStr (capitalized k ++ " on " ++ month ++ " " ++ day)%string)
    /\ Workout.describe (type_name k) (newDate clk)
       = Normal (capitalized k ++ " on " ++ month ++ " " ++ day)%string
    /\ nth_error full_month_names (getMonth (newDate clk)) = Some month
    /\ decimal_value day = Some (getDate (newDate clk))
    /\ numeral_without_leading_zero day = true.
Proof.
  intros k clk coords distance duration extra Hm Hd.
  destruct (month_in_full _ Hm) as (name & E1 & E2).
  assert (Hday := day_numeral (getDate (newDate clk)) ltac:(lia)).
  assert (Hval := day_value (getDate (newDate clk)) ltac:(lia)).
  destruct k.
  - eexists _, _, name, _.
    split; [reflexivity|].
    split; [apply ClassFacts.Running_new_eq|].
    split; [reflexivity|].
    split; [reflexivity|].
    split; [cbn [GetV obj_get String.eqb Ascii.eqb Bool.eqb]; rewrite E1; reflexivity|].
    split; [unfold Workout.describe; cbn [type_name]; rewrite E1; reflexivity|].
    split; [exact E2|].
    split; [exact Hval | exact Hday].
  - eexists _, _, name, _.
    split; [reflexivity|].
    split; [apply ClassFacts.Cycling_new_eq|].
    split; [reflexivity|].
    split; [reflexivity|].
    split; [cbn [GetV obj_get String.eqb Ascii.eqb Bool.eqb]; rewrite E1; reflexivity|].
    split; [unfold Workout.describe; cbn [type_name]; rewrite E1; reflexivity|].
    split; [exact E2|].
    split; [exact Hval | exact Hday].
Qed.

Lemma description_format_witness :
  (getMonth (newDate clock1) < 12)%nat
  /\ (1 <= getDate (newDate clock1) <= 31)%Z
  /\ exists this w month day,
    construct KRunning clock1 here 5 30 170 = Normal this
    /\ create KRunning clock1 here 5 30 170 = Normal w
    /\ w = VObj RunningProto (props_of this)
    /\ write_count "description" this = 1%nat
    /\ GetV w "description"
       = Normal (VStr (capitalized KRunning ++ " on " ++ month ++ " " ++ day)%string)
    /\ Workout.describe (type_name KRunning) (newDate clock1)
       = Normal (capitalized KRunning ++ " on " ++ month ++ " " ++ day)%string
    /\ nth_error full_month_names (getMonth (newDate clock1)) = Some month
    /\ decimal_value day = Some (getDate (newDate clock1))
    /\ numeral_without_leading_zero day = true.
Proof.
  split; [cbn; lia|]. split; [cbn; lia|].
  apply (description_format KRunning clock1 here 5 30 170); cbn; lia.
Defined.

Example description_example :
  GetV run1 "description" = Normal (VStr "Running on July 14")
  /\ GetV ride2 "description" = Normal (VStr "Cycling on November 6").
Proof. split; reflexivity. Qed.

(** ** Identifiers *)

Lemma id_is_suffix clk :
  (10 ^ 9 <= now clk)%Z ->
  Workout.id clk
  = string_of_list_ascii (rev (Numeral.padded 10 (now clk mod 10 ^ 10))).
Proof.
  intros Hn. unfold Workout.id, Numeral.to_string.
  destruct (now clk <? 0)%Z eqn:E; [apply Z.ltb_lt in E; lia|].
  unfold Numeral.natural_digits.
  rewrite StrFacts.slice_last_rev by (apply (NumeralFacts.rd_length 9); exact Hn).
  rewrite (NumeralFacts.firstn_rd 9) by exact Hn. reflexivity.
Qed.

Lemma id_eq_iff c1 c2 :
  (10 ^ 9 <= now c1)%Z -> (10 ^ 9 <= now c2)%Z ->
  Workout.id c1 = Workout.id c2
  <-> (now c1 mod 10 ^ 10 = now c2 mod 10 ^ 10)%Z.
Proof.
  intros H1 H2. rewrite !id_is_suffix by assumption. split.
  - intros E. apply StrFacts.of_list_inj in E.
    apply (f_equal (@rev _)) in E. rewrite !rev_involutive in E.
    apply (NumeralFacts.padded_inj 10) in E;
      [exact E | apply Z.mod_pos_bound; lia | apply Z.mod_pos_bound; lia].
  - intros ->. reflexivity.
Qed.

Lemma create_id k clk coords distance duration extra :
  exists w, create k clk coords distance duration extra = Normal w
            /\ GetV w "id" = Normal (VStr (Workout.id clk)).
Proof.
  destruct k.
  - eexists. split; [apply ClassFacts.Running_new_eq | reflexivity].
  - eexists. split; [apply ClassFacts.Cycling_new_eq | reflexivity].
Qed.

(** C9, amended. The id of a workout is the last 10 characters of the
    decimal numeral of [Date.now()] read at construction.  For readings of
    at least 10^9 ms, two workouts have the same id exactly when the
    readings agree modulo 10^10: ids differ when the readings differ by
    less than 10^10 ms, and coincide when they are equal. *)
Theorem ids_equal_iff_clock_congruent :
  forall k1 k2 c1 c2 coords1 coords2 d1 d2 t1 t2 x1 x2,
  (10 ^ 9 <= now c1)%Z -> (10 ^ 9 <= now c2)%Z ->
  exists w1 w2 id1 id2,
    create k1 c1 coords1 d1 t1 x1 = Normal w1
    /\ create k2 c2 coords2 d2 t2 x2 = Normal w2
    /\ GetV w1 "id" = Normal (VStr id1)
    /\ GetV w2 "id" = Normal (VStr id2)
    /\ id1 = Str.slice_last 10 (Numeral.to_string (now c1))
    /\ id2 = Str.slice_last 10 (Numeral.to_string (now c2))
    /\ (id1 = id2 <-> now c1 mod 10 ^ 10 = now c2 mod 10 ^ 10)%Z
    /\ (now c1 <> now c2 -> Z.abs (now c1 - now c2) < 10 ^ 10 -> id1 <> id2)%Z.
Proof.
  intros k1 k2 c1 c2 coords1 coords2 d1 d2 t1 t2 x1 x2 H1 H2.
  destruct (create_id k1 c1 coords1 d1 t1 x1) as (w1 & E1 & I1).
  destruct (create_id k2 c2 coords2 d2 t2 x2) as (w2 & E2 & I2).
  exists w1, w2, (Workout.id c1), (Workout.id c2).
  repeat (split; [assumption || reflexivity|]).
  split; [apply id_eq_iff; assumption|].
  intros Hne Habs E. apply id_eq_iff in E; try assumption.
  assert (D1 := Z.div_mod (now c1) (10 ^ 10) ltac:(lia)).
  assert (D2 := Z.div_mod (now c2) (10 ^ 10) ltac:(lia)).
  rewrite E in D1. change (10 ^ 10)%Z with 10000000000%Z in *. lia.
Qed.

Lemma ids_equal_iff_clock_congruent_witness :
  (10 ^ 9 <= now clock1)%Z /\ (10 ^ 9 <= now clock2)%Z /\
  exists w1 w2 id1 id2,
    create KRunning clock1 here 5 30 170 = Normal w1
    /\ create KCycling clock2 here 20 60 (-3) = Normal w2
    /\ GetV w1 "id" = Normal (VStr id1)
    /\ GetV w2 "id" = Normal (VStr id2)
    /\ id1 = Str.slice_last 10 (Numeral.to_string (now clock1))
    /\ id2 = Str.slice_last 10 (Numeral.to_string (now clock2))
    /\ (id1 = id2 <-> now clock1 mod 10 ^ 10 = now clock2 mod 10 ^ 10)%Z
    /\ (now clock1 <> now clock2 ->
        Z.abs (now clock1 - now clock2) < 10 ^ 10 -> id1 <> id2)%Z.
Proof.
  split; [vm_compute; discriminate|].
  split; [vm_compute; discriminate|].
  apply (ids_equal_iff_clock_congruent
           KRunning KCycling clock1 clock2 here here 5 20 30 60 170 (-3));
    vm_compute; discriminate.
Defined.

(** C9 as stated fails: a run and a ride made at the same clock reading
    are distinct workouts with the same id, and so is a ride made 10^10 ms
    (about 116 days) later. *)
Lemma ids_not_unique :
  Running.new clock1 here 5 30 170 = Normal run1
  /\ Cycling.new clock1 here 20 60 (-3) = Normal ride1
  /\ Cycling.new clock2 here 20 60 (-3) = Normal ride2
  /\ run1 <> ride1
  /\ GetV run1 "id" = GetV ride1 "id"
  /\ now clock1 <> now clock2
  /\ GetV run1 "id" = GetV ride2 "id".
Proof.
  repeat split; try (vm_compute; reflexivity); try discriminate.
Qed.

(** ** Properties of objects *)

Lemma obj_get_set_same k v o : obj_get k (obj_set k v o) = v.
Proof.
  induction o as [|[k' v'] o IH]; cbn.
  - now rewrite String.eqb_refl.
  - destruct (String.eqb k k') eqn:E; cbn; rewrite ?String.eqb_refl, ?E; auto.
Qed.

Lemma obj_get_set_other k k' v o :
  k' <> k -> obj_get k' (obj_set k v o) = obj_get k' o.
Proof.
  intros Hk. induction o as [|[k0 v0] o IH]; cbn.
  - destruct (String.eqb_spec k' k); [contradiction | reflexivity].
  - destruct (String.eqb_spec k k0) as [->|Hn]; cbn.
    + destruct (String.eqb_spec k' k0); [contradiction | reflexivity].
    + destruct (String.eqb k' k0); [reflexivity | exact IH].
Qed.

Lemma obj_set_names k v o :
  existsb (String.eqb k) (List.map fst o) = true ->
  List.map fst (obj_set k v o) = List.map fst o.
Proof.
  induction o as [|[k0 v0] o IH]; cbn; [discriminate|].
  destruct (String.eqb_spec k k0) as [->|Hn]; cbn; [reflexivity|].
  intros H. now rewrite IH.
Qed.

Lemma obj_set_fresh k v o :
  existsb (String.eqb k) (List.map fst o) = false ->
  obj_set k v o = o ++ [(k, v)].
Proof.
  induction o as [|[k0 v0] o IH]; cbn; [reflexivity|].
  destruct (String.eqb k k0); cbn; [discriminate|].
  intros H. now rewrite IH.
Qed.

(** [clicks++] on [undefined] gives [NaN] and on [null] gives 1; on a
    string the model stops. *)
Example click_examples :
  Workout.click [("clicks", VNum 0)] = Normal [("clicks", VNum 1)]
  /\ Workout.click [("clicks", VNull)] = Normal [("clicks", VNum 1)]
  /\ Workout.click [("clicks", VStr "5")] = Throw (Unmodelled "ToNumber").
Proof. repeat split. Qed.

(** [click] adds one to a Number in [clicks] and leaves every other
    property, and the order of the properties, as they were. *)
Lemma click_spec this n :
  obj_get "clicks" this = VNum n ->
  exists this',
    Workout.click this = Normal this'
    /\ obj_get "clicks" this' = VNum (n + 1)%float
    /\ (forall k, k <> "clicks" -> obj_get k this' = obj_get k this)
    /\ List.map fst this' = List.map fst this.
Proof.
  intros Hn.
  assert (Hk : existsb (String.eqb "clicks") (List.map fst this) = true).
  { induction this as [|[k v] this IH]; [discriminate|].
    cbn [obj_get] in Hn. cbn [List.map fst existsb].
    destruct (String.eqb "clicks" k); [reflexivity | exact (IH Hn)]. }
  unfold Workout.click. rewrite Hn. cbn [to_number].
  eexists. split; [reflexivity|]. split; [apply obj_get_set_same|].
  split; [intros k Hk'; now apply obj_get_set_other|].
  now apply obj_set_names.
Qed.

(** ** JSON *)

Module JSONFacts.

Lemma serialize_arr xs : serialize (VArr xs) = Some (JArr (serialize_items xs)).
Proof. reflexivity. Qed.

Lemma serialize_obj p o : serialize (VObj p o) = Some (JObj (serialize_members o)).
Proof. reflexivity. Qed.

Lemma internalize_obj l : internalize (JObj l) = VObj ObjectProto (build l []).
Proof. reflexivity. Qed.

Lemma plain_arr xs : plain (VArr xs) = plain_items xs.
Proof. reflexivity. Qed.

Lemma plain_obj p o :
  plain (VObj p o)
  = match p with ObjectProto => true | _ => false end
    && distinct (List.map fst o) && plain_fields o.
Proof. reflexivity. Qed.

Lemma distinct_app_cons k l2 : forall l1,
  distinct (l1 ++ k :: l2) = true -> existsb (String.eqb k) l1 = false.
Proof.
  induction l1 as [|a l1 IH]; cbn; [reflexivity|].
  rewrite andb_true_iff, negb_true_iff, existsb_app. cbn.
  intros [Hx Hd]. rewrite (IH Hd), orb_false_r.
  apply orb_false_iff in Hx as [_ Hx]. apply orb_false_iff in Hx as [Hx _].
  now rewrite String.eqb_sym.
Qed.

(** Members with distinct names are added one after the other. *)
Lemma build_distinct : forall l acc,
  distinct (List.map fst acc ++ List.map fst l) = true ->
  build l acc = acc ++ List.map (fun kj => (fst kj, internalize (snd kj))) l.
Proof.
  induction l as [|[k x] l IH]; intros acc Hd.
  - cbn. now rewrite app_nil_r.
  - cbn [List.map fst snd] in *.
    change (build ((k, x) :: l) acc) with (build l (obj_set k (internalize x) acc)).
    rewrite obj_set_fresh by (eapply distinct_app_cons; exact Hd).
    rewrite IH.
    + now rewrite <- app_assoc.
    + rewrite map_app. cbn. now rewrite <- app_assoc.
Qed.

(** A plain value comes back from JSON as it went in. *)
Lemma plain_round_trip v :
  plain v = true -> exists j, serialize v = Some j /\ internalize j = v.
Proof.
  induction v as [| |b|x|s|d|xs IH|p o IH] using value_nested_ind; intros Hp;
    try discriminate; try (eexists; split; reflexivity).
  - cbn in Hp. apply andb_true_iff in Hp as [Hf Hz].
    apply negb_true_iff in Hz. cbn. rewrite Hf, Hz.
    eexists; split; reflexivity.
  - rewrite plain_arr in Hp. rewrite serialize_arr.
    eexists; split; [reflexivity|]. cbn [internalize]. f_equal.
    induction IH as [|x xs Hx _ IHxs]; [reflexivity|].
    cbn in Hp. apply andb_true_iff in Hp as [Hpx Hpxs].
    destruct (Hx Hpx) as (j & Ej & Ij). cbn. rewrite Ej, Ij. f_equal.
    apply IHxs, Hpxs.
  - rewrite plain_obj in Hp.
    apply andb_true_iff in Hp as [Hp Hfields].
    apply andb_true_iff in Hp as [Hproto Hd].
    destruct p; try discriminate.
    rewrite serialize_obj. eexists; split; [reflexivity|].
    rewrite internalize_obj. f_equal.
    assert (E : List.map fst (serialize_members o) = List.map fst o
                /\ List.map (fun kj => (fst kj, internalize (snd kj)))
                            (serialize_members o) = o).
    { clear Hd. induction IH as [|[k x] o Hx _ IHo]; [split; reflexivity|].
      cbn in Hfields. apply andb_true_iff in Hfields as [Hpx Hpo].
      destruct (Hx Hpx) as (j & Ej & Ij). cbn in Ej, Ij.
      destruct (IHo Hpo) as [E1 E2].
      cbn. rewrite Ej. cbn. rewrite Ij, E1, E2. split; reflexivity. }
    destruct E as [E1 E2].
    rewrite build_distinct by (cbn; rewrite E1; exact Hd).
    cbn. exact E2.
Qed.

Lemma stored_field_round_trip v :
  field_ok v = true ->
  exists j, serialize v = Some j /\ internalize j = stored_field v.
Proof.
  destruct v; cbn [field_ok stored_field]; intros H;
    try (apply plain_round_trip; exact H).
  eexists; split; reflexivity.
Qed.

(** A record comes back with the same properties in the same order, its
    dates as ISO strings, as a plain object. *)
Lemma record_round_trip w :
  record w = true ->
  exists j, serialize w = Some j /\ internalize j = as_stored w.
Proof.
  destruct w as [| | | | | |xs|p o]; try discriminate.
  unfold record. rewrite andb_true_iff. intros [Hd Hf].
  rewrite serialize_obj. eexists; split; [reflexivity|].
  rewrite internalize_obj. cbn [as_stored]. f_equal.
  assert (E : List.map fst (serialize_members o) = List.map fst o
              /\ List.map (fun kj => (fst kj, internalize (snd kj)))
                          (serialize_members o)
                 = List.map (fun kv => (fst kv, stored_field (snd kv))) o).
  { clear Hd. induction o as [|[k x] o IHo]; [split; reflexivity|].
    cbn in Hf. apply andb_true_iff in Hf as [Hx Ho].
    destruct (stored_field_round_trip x Hx) as (j & Ej & Ij).
    destruct (IHo Ho) as [E1 E2].
    cbn. rewrite Ej. cbn. rewrite Ij, E1, E2. split; reflexivity. }
  destruct E as [E1 E2].
  rewrite build_distinct by (cbn; rewrite E1; exact Hd).
  cbn. exact E2.
Qed.

Lemma records_round_trip ws :
  forallb record ws = true ->
  List.map internalize (serialize_items ws) = List.map as_stored ws.
Proof.
  induction ws as [|w ws IH]; [reflexivity|].
  cbn [forallb]. rewrite andb_true_iff. intros [Hw Hws].
  destruct (record_round_trip w Hw) as (j & Ej & Ij).
  cbn. rewrite Ej, Ij, (IH Hws). reflexivity.
Qed.

Lemma obj_get_stored k o :
  obj_get k (List.map (fun kv => (fst kv, stored_field (snd kv))) o)
  = stored_field (obj_get k o).
Proof.
  induction o as [|[k' v] o IH]; cbn; [reflexivity|].
  destruct (String.eqb k k'); [reflexivity | exact IH].
Qed.

End JSONFacts.

(** ** The application: rendering and loading *)

Module AppFacts.

Lemma with_listItems_twice l1 l2 a :
  with_listItems l2 (with_listItems l1 a) = with_listItems l2 a.
Proof. reflexivity. Qed.

Lemma with_listItems_same a : with_listItems (listItems a) a = a.
Proof. destruct a; reflexivity. Qed.

(** The exceptions of the conversions and reads of a rendering are
    TypeErrors. *)
Lemma ToString_throws v : forall e, ToString v = Throw e -> is_TypeError e.
Proof.
  induction v as [| |b|x|s|d|xs IH|p o _] using value_nested_ind;
    intros e; try discriminate.
  - cbn [ToString]. induction IH as [|x xs Hx _ IHxs]; [discriminate|].
    destruct x; try exact IHxs;
      match goal with
      | |- context [ToString ?v] =>
          destruct (ToString v) as [[]|e']; [exact IHxs | apply Hx]
      end.
  - cbn [ToString]. destruct (existsb _ _); [|discriminate].
    intros [= <-]. eexists; reflexivity.
Qed.

Lemma GetV_throws w k e : GetV w k = Throw e -> is_TypeError e.
Proof. destruct w; try discriminate; intros [= <-]; eexists; reflexivity. Qed.

Lemma toFixed_throws x e : toFixed x = Throw e -> is_TypeError e.
Proof. destruct x; try discriminate; intros [= <-]; eexists; reflexivity. Qed.

Ltac render_step :=
  match goal with
  | |- context [ToString ?v] =>
      destruct (ToString v) as [[]|] eqn:?; cbn [snd fst]; try reflexivity
  | |- context [toFixed ?v] =>
      destruct (toFixed v) as [[]|] eqn:?; cbn [snd fst]; try reflexivity
  | |- context [strict_eq_str ?v ?s] =>
      destruct (strict_eq_str v s); cbn [snd fst]; try reflexivity
  end.

(** [_renderWorkout] reads the workout only: whether it throws does not
    depend on the state, and when it does not it adds the list entry. *)
Lemma renderWorkout_eq w a :
  App._renderWorkout w a
  = match snd (App._renderWorkout w (App.page None)) with
    | Normal _ => (with_listItems (w :: listItems a) a, Normal tt)
    | Throw e => (a, Throw e)
    end.
Proof.
  destruct w as [| |b|x|s|d|xs|p o]; try reflexivity.
  unfold App._renderWorkout, bind, lift, ret, modify.
  cbn [GetV snd fst].
  repeat render_step.
Qed.

(** What [_renderWorkout] throws is a TypeError. *)
Lemma renderWorkout_throws w a e :
  snd (App._renderWorkout w a) = Throw e -> is_TypeError e.
Proof.
  destruct w as [| |b|x|s|d|xs|p o];
    try (intros [= <-]; eexists; reflexivity); try discriminate.
  unfold App._renderWorkout, bind, lift, ret, modify.
  cbn [GetV snd fst].
  repeat match goal with
         | |- context [ToString ?v] =>
             let E := fresh "E" in
             destruct (ToString v) as [[]|] eqn:E; cbn [snd fst];
               [|intros [= <-]; exact (ToString_throws _ _ E)]
         | |- context [toFixed ?v] =>
             let E := fresh "E" in
             destruct (toFixed v) as [[]|] eqn:E; cbn [snd fst];
               [|intros [= <-]; exact (toFixed_throws _ _ E)]
         | |- context [strict_eq_str ?v ?s] =>
             destruct (strict_eq_str v s); cbn [snd fst]
         end; discriminate.
Qed.

Lemma renderWorkout_ok w a :
  renders w = true ->
  App._renderWorkout w a = (with_listItems (w :: listItems a) a, Normal tt).
Proof.
  unfold renders. intros H. rewrite renderWorkout_eq.
  destruct (snd (App._renderWorkout w (App.page None))); [reflexivity | discriminate].
Qed.

Lemma renderWorkout_fails w a :
  renders w = false ->
  exists msg, App._renderWorkout w a = (a, Throw (TypeError msg)).
Proof.
  unfold renders. intros H. rewrite renderWorkout_eq.
  destruct (snd (App._renderWorkout w (App.page None))) as [u|e] eqn:E;
    [discriminate|].
  destruct (renderWorkout_throws _ _ _ E) as (msg & ->). eauto.
Qed.

Lemma forEach_render_all : forall ws a,
  forallb renders ws = true ->
  forEach_items App._renderWorkout ws a
  = (with_listItems (rev ws ++ listItems a) a, Normal tt).
Proof.
  induction ws as [|w ws IH]; intros a H.
  - cbn. now rewrite with_listItems_same.
  - cbn [forallb] in H. apply andb_true_iff in H as [Hw Hws].
    cbn [forEach_items]. unfold bind. rewrite (renderWorkout_ok w a Hw).
    rewrite (IH _ Hws). cbn [rev listItems with_listItems].
    now rewrite <- app_assoc.
Qed.

Lemma forEach_render_stops : forall good bad rest a,
  forallb renders good = true -> renders bad = false ->
  exists msg,
    forEach_items App._renderWorkout (good ++ bad :: rest) a
    = (with_listItems (rev good ++ listItems a) a, Throw (TypeError msg)).
Proof.
  induction good as [|w good IH]; intros bad rest a Hg Hb.
  - destruct (renderWorkout_fails bad a Hb) as (e & E). exists e.
    cbn [app forEach_items rev]. unfold bind. rewrite E.
    now rewrite with_listItems_same.
  - cbn [forallb] in Hg. apply andb_true_iff in Hg as [Hw Hg].
    destruct (IH bad rest (with_listItems (w :: listItems a) a) Hg Hb) as (e & E).
    exists e. cbn [app forEach_items]. unfold bind.
    rewrite (renderWorkout_ok w a Hw), E. cbn [rev listItems with_listItems].
    now rewrite <- app_assoc.
Qed.

(** Rendering list entries never touches the collection. *)
Lemma forEach_render_workouts : forall ws a,
  workouts (fst (forEach_items App._renderWorkout ws a)) = workouts a.
Proof.
  induction ws as [|w ws IH]; intros a; [reflexivity|].
  cbn [forEach_items]. unfold bind. rewrite renderWorkout_eq.
  destruct (snd (App._renderWorkout w (App.page None))); [|reflexivity].
  now rewrite IH.
Qed.

(** What [_getLocalStorage] does once the stored text has been parsed to
    a truthy value. *)
Lemma getLocalStorage_truthy a j :
  localStorage a = Some (JSONText j) ->
  truthy (internalize j) = true ->
  App._getLocalStorage a
  = forEach (internalize j) App._renderWorkout (with_workouts (internalize j) a).
Proof.
  intros Hs Ht. unfold App._getLocalStorage, bind, gets, lift, modify.
  rewrite Hs. cbn [JSON_parse]. rewrite Ht. reflexivity.
Qed.

End AppFacts.

(** ** Loading *)



(** What the script stores has no member name made of digits. *)
Example stored_records_have_no_numeric_names :
  no_numeric_names (JArr [run1_json; ride1_json; JNull]) = true
  /\ no_numeric_names (JObj [("b", JNum 1); ("1", JNum 2)]) = false.
Proof. split; reflexivity. Qed.

(** An entry whose [type] cannot be converted to a string is not
    rendered: the load throws a TypeError at it. *)
Example unprintable_type_is_not_rendered :
  renders (internalize (JObj [("type", JObj [("toString", JNum 1)])])) = false
  /\ exists msg,
       App.constructor
         (App.page (Some (JSONText
            (JArr [JObj [("type", JObj [("toString", JNum 1)])]]))))
       = (with_workouts
            (VArr [internalize (JObj [("type", JObj [("toString", JNum 1)])])])
            (App.page (Some (JSONText
               (JArr [JObj [("type", JObj [("toString", JNum 1)])]])))),
          Throw (TypeError msg)).
Proof. split; [reflexivity | eexists; vm_compute; reflexivity]. Qed.

(** ** Saving and loading *)

Lemma setLocalStorage_eq a :
  App._setLocalStorage a
  = (with_localStorage
       (Some match JSON_stringify (workouts a) with
             | Some t => t
             | None => NotJSON "undefined"
             end) a, Normal tt).
Proof. reflexivity. Qed.

Lemma save_then_load_eq a ws :
  workouts a = VArr ws ->
  save_then_load a
  = App.constructor (App.page (Some (JSONText (JArr (serialize_items ws))))).
Proof.
  intros Hw. unfold save_then_load. rewrite setLocalStorage_eq, Hw. reflexivity.
Qed.

(** C1, amended. Let the collection hold records: objects whose properties
    have distinct names and hold a Date or a plain value (null, a boolean, a
    string, a finite Number other than -0, or arrays and plain objects of
    these).  Saving and then loading the page installs the same records in
    the same order, each a plain object with the same properties in the
    same order: a property holding a Date comes back as the Date's ISO
    string, every other property with the value that was saved.  Nothing is
    recomputed: [pace] and [speed] come back as saved whatever [distance]
    and [duration] are.  When the reloaded records can be rendered the load
    completes and lists them. *)
Theorem storage_round_trip :
  forall a ws,
  workouts a = VArr ws -> forallb record ws = true ->
  workouts (fst (save_then_load a)) = VArr (List.map as_stored ws)
  /\ (forall i w,
        nth_error ws i = Some w ->
        exists w',
          nth_error (List.map as_stored ws) i = Some w'
          /\ (forall k v, GetV w k = Normal v -> is_date v = false ->
                          GetV w' k = Normal v)
          /\ (forall k d, GetV w k = Normal (VDate d) ->
                          GetV w' k = Normal (VStr (toISOString d))))
  /\ (forallb renders (List.map as_stored ws) = true ->
      snd (save_then_load a) = Normal tt
      /\ listItems (fst (save_then_load a)) = rev (List.map as_stored ws)).
Proof.
  intros a ws Hw Hr. rewrite (save_then_load_eq a ws Hw).
  set (pg := App.page (Some (JSONText (JArr (serialize_items ws))))).
  assert (Ei : internalize (JArr (serialize_items ws)) = VArr (List.map as_stored ws)).
  { cbn [internalize]. now rewrite JSONFacts.records_round_trip. }
  assert (El : App._getLocalStorage pg
               = forEach_items App._renderWorkout (List.map as_stored ws)
                   (with_workouts (VArr (List.map as_stored ws)) pg)).
  { rewrite (AppFacts.getLocalStorage_truthy pg (JArr (serialize_items ws)));
      [now rewrite Ei | reflexivity | reflexivity]. }
  split; [|split].
  - unfold App.constructor, bind. rewrite El.
    assert (Hk := AppFacts.forEach_render_workouts (List.map as_stored ws)
                    (with_workouts (VArr (List.map as_stored ws)) pg)).
    destruct (forEach_items _ _ _) as [a' [u|e]]; exact Hk.
  - intros i w Hi. exists (as_stored w).
    split; [now apply map_nth_error|].
    assert (Hrec : record w = true).
    { rewrite forallb_forall in Hr. apply Hr. eapply nth_error_In; eauto. }
    destruct w as [| | | | | |xs|p o]; try discriminate.
    cbn [as_stored GetV]. split.
    + intros k v [= <-] Hv. rewrite JSONFacts.obj_get_stored.
      destruct (obj_get k o); try discriminate; reflexivity.
    + intros k d [= E]. now rewrite JSONFacts.obj_get_stored, E.
  - intros Hok. unfold App.constructor, bind. rewrite El.
    rewrite AppFacts.forEach_render_all by exact Hok.
    cbn. rewrite app_nil_r. split; reflexivity.
Qed.

Lemma storage_round_trip_witness :
  workouts tampered = VArr [run1_tampered; ride1]
  /\ forallb record [run1_tampered; ride1] = true
  /\ workouts (fst (save_then_load tampered))
     = VArr (List.map as_stored [run1_tampered; ride1]).
Proof.
  split; [reflexivity|]. split; [vm_compute; reflexivity|].
  apply (storage_round_trip tampered [run1_tampered; ride1]);
    vm_compute; reflexivity.
Defined.

(** A pace overwritten with 99 before saving is 99 after loading, next to
    the distance 5 and duration 30 it no longer follows from. *)
Example tampered_pace_survives :
  GetV run1_tampered "pace" = Normal (VNum 99)
  /\ exists w r,
       workouts (fst (save_then_load tampered)) = VArr [w; r]
       /\ GetV w "pace" = Normal (VNum 99)
       /\ GetV w "distance" = Normal (VNum 5)
       /\ GetV w "duration" = Normal (VNum 30)
       /\ snd (save_then_load tampered) = Normal tt.
Proof.
  split; [reflexivity|].
  exists (as_stored run1_tampered), (as_stored ride1).
  repeat split; vm_compute; reflexivity.
Qed.

(** C1 as stated fails.  The run of the specification's scenario comes
    back with its [date] a string, not the Date that was saved; and the
    run that the accepted input 5e-324 km in 1 min creates has the pace
    [Infinity], which is saved as [null]: after loading, [pace] is [null]
    and rendering the entry throws. *)
Lemma reload_changes_date_and_overflowing_pace :
  App._newWorkout run_form clock1 ready = (logged, Normal tt)
  /\ workouts logged = VArr [run1]
  /\ workouts (fst (save_then_load logged)) = VArr [run1_reloaded]
  /\ GetV run1 "date" = Normal (VDate july14)
  /\ GetV run1_reloaded "date" = Normal (VStr "2025-07-14T09:30:00.000Z")
  /\ run1_reloaded <> run1
  /\ acceptable KRunning tiny_form = true
  /\ workouts (fst (App._newWorkout tiny_form clock1 ready)) = VArr [tiny_run]
  /\ snd (App._newWorkout tiny_form clock1 ready) = Normal tt
  /\ GetV tiny_run "pace" = Normal (VNum PrimFloat.infinity)
  /\ workouts (fst (save_then_load (fst (App._newWorkout tiny_form clock1 ready))))
     = VArr [tiny_run_reloaded]
  /\ GetV tiny_run_reloaded "pace" = Normal VNull
  /\ snd (save_then_load (fst (App._newWorkout tiny_form clock1 ready)))
     = Throw (cannot_read "null" "toFixed").
Proof.
  repeat split; try (vm_compute; reflexivity). discriminate.
Qed.

(** ** The form handler *)

Lemma running_check f :
  negb (App.validInputs
          [App.inputDistance f; App.inputDuration f; App.inputCadence f])
  || negb (App.allPositive
             [App.inputDistance f; App.inputDuration f; App.inputCadence f])
  = negb (acceptable KRunning f).
Proof.
  unfold App.validInputs, App.allPositive, acceptable. cbn [forallb].
  destruct (PrimFloat.is_finite (App.inputDistance f)),
           (PrimFloat.is_finite (App.inputDuration f)),
           (PrimFloat.is_finite (App.inputCadence f)),
           (PrimFloat.ltb 0 (App.inputDistance f)),
           (PrimFloat.ltb 0 (App.inputDuration f)),
           (PrimFloat.ltb 0 (App.inputCadence f)); reflexivity.
Qed.

Lemma cycling_check f :
  negb (App.validInputs
          [App.inputDistance f; App.inputDuration f; App.inputElevation f])
  || negb (App.allPositive [App.inputDistance f; App.inputDuration f])
  = negb (acceptable KCycling f).
Proof.
  unfold App.validInputs, App.allPositive, acceptable. cbn [forallb].
  destruct (PrimFloat.is_finite (App.inputDistance f)),
           (PrimFloat.is_finite (App.inputDuration f)),
           (PrimFloat.is_finite (App.inputElevation f)),
           (PrimFloat.ltb 0 (App.inputDistance f)),
           (PrimFloat.ltb 0 (App.inputDuration f)); reflexivity.
Qed.

Lemma created_is_object k clk coords distance duration extra :
  exists p o,
    create k clk coords distance duration extra = Normal (VObj p o)
    /\ renders (VObj p o) = true.
Proof.
  destruct k.
  - do 2 eexists. split; [apply ClassFacts.Running_new_eq | reflexivity].
  - do 2 eexists. split; [apply ClassFacts.Cycling_new_eq | reflexivity].
Qed.

(** ** Positions *)

(** How Leaflet reads what it is given as a position: a pair or a triple
    of Numbers and an object with [lat] and [lng] are a latlng; a missing
    position, an array of another length and an array that starts with an
    object or [null] are none; an [undefined] coordinate is refused.  A
    coordinate that is a string is outside the model. *)
Example toLatLng_examples :
  Leaflet.toLatLng here = Normal true
  /\ Leaflet.toLatLng (VArr [VNum 40.75; VNum (-74); VNum 12]) = Normal true
  /\ Leaflet.toLatLng (VObj ObjectProto [("lat", VNum 40.75); ("lng", VNum (-74))])
     = Normal true
  /\ Leaflet.toLatLng VUndefined = Normal false
  /\ Leaflet.toLatLng VNull = Normal false
  /\ Leaflet.toLatLng (VArr [VNum 40.75]) = Normal false
  /\ Leaflet.toLatLng (VArr [VNull; VNum (-74)]) = Normal false
  /\ Leaflet.toLatLng (VObj ObjectProto [("id", VStr "7")]) = Normal false
  /\ Leaflet.toLatLng (VArr [VNum 40.75; VUndefined])
     = Throw (LeafletError "Invalid LatLng object")
  /\ Leaflet.toLatLng (VArr [VStr "40.75"; VNum (-74)])
     = Throw (Unmodelled "ToNumber").
Proof. repeat split. Qed.

(** With the map loaded, the marker of an object is placed when Leaflet
    accepts its [coords] and the popup can be labelled. *)
Lemma renderWorkoutMarker_placed p o a m :
  map a = Some m ->
  Leaflet.toLatLng (obj_get "coords" o) = Normal true ->
  ToString (obj_get "type" o) = Normal tt ->
  ToString (obj_get "description" o) = Normal tt ->
  App._renderWorkoutMarker (VObj p o) a
  = (with_markers (markers a ++ [VObj p o]) a, Normal tt).
Proof.
  intros Hm Hc Ht Hd. unfold App._renderWorkoutMarker, bind, lift, gets, modify.
  cbn [GetV]. rewrite Hc, Hm. cbn [map with_markers]. rewrite Ht, Hd.
  reflexivity.
Qed.

(** Leaflet accepts a pair of Numbers. *)
Lemma toLatLng_pair lat lng :
  Leaflet.toLatLng (VArr [VNum lat; VNum lng]) = Normal true.
Proof. reflexivity. Qed.

Lemma is_latlng_accepted c :
  is_latlng c = true ->
  Leaflet.toLatLng c = Normal true /\ Leaflet.setView c = Normal tt.
Proof.
  destruct c as [| | | | | |xs|]; try discriminate.
  destruct xs as [|[| | |lat| | | |] [|[| | |lng| | | |] [|]]]; try discriminate.
  intros _. split; reflexivity.
Qed.

Lemma mappable_placed w a m :
  map a = Some m -> mappable w = true ->
  App._renderWorkoutMarker w a
  = (with_markers (markers a ++ [w]) a, Normal tt).
Proof.
  intros Hm Hw. destruct w as [| | | | | | |p o]; try discriminate.
  cbn [mappable] in Hw. apply andb_true_iff in Hw as [Hw Hd].
  apply andb_true_iff in Hw as [Hc Ht].
  apply is_latlng_accepted in Hc as [Hc _]. unfold printable in Ht, Hd.
  destruct (ToString (obj_get "type" o)) as [[]|] eqn:Et; [|discriminate].
  destruct (ToString (obj_get "description" o)) as [[]|] eqn:Ed; [|discriminate].
  now apply (renderWorkoutMarker_placed p o a m).
Qed.

(** The workout a submission creates at a clicked position has its marker
    placed. *)
Lemma created_is_placed k clk lat lng distance duration extra :
  exists p o,
    create k clk (VArr [VNum lat; VNum lng]) distance duration extra
    = Normal (VObj p o)
    /\ renders (VObj p o) = true
    /\ forall a m, map a = Some m ->
         App._renderWorkoutMarker (VObj p o) a
         = (with_markers (markers a ++ [VObj p o]) a, Normal tt).
Proof.
  destruct k.
  - do 2 eexists. split; [apply ClassFacts.Running_new_eq|].
    split; [reflexivity|].
    intros a m Hm. apply (renderWorkoutMarker_placed _ _ a m Hm); reflexivity.
  - do 2 eexists. split; [apply ClassFacts.Cycling_new_eq|].
    split; [reflexivity|].
    intros a m Hm. apply (renderWorkoutMarker_placed _ _ a m Hm); reflexivity.
Qed.
(** C3, amended. For a submission whose type is ['running'] or
    ['cycling'], made after the map was clicked: the handler rejects it
    exactly when some numeric field is not finite or some field other than
    the elevation gain is not positive (the cadence of a run must be
    positive, the elevation gain of a ride only finite).  A rejection shows
    the alert and changes nothing else: the collection, the store, the list
    and the markers are as they were.  An accepted submission, the map being
    loaded, constructs the workout, appends it, renders it and saves the
    collection. *)
Theorem validation_policy :
  forall k f clk a lat lng,
  mapEvent a = Some (lat, lng) ->
  App.inputType f = type_name k ->
  (acceptable k f = false ->
   App._newWorkout f clk a = (rejected a, Normal tt)
   /\ workouts (rejected a) = workouts a
   /\ localStorage (rejected a) = localStorage a
   /\ listItems (rejected a) = listItems a
   /\ markers (rejected a) = markers a)
  /\ (acceptable k f = true ->
      forall ws m, workouts a = VArr ws -> map a = Some m ->
      exists w,
        create k clk (VArr [VNum lat; VNum lng])
          (App.inputDistance f) (App.inputDuration f) (extra_input k f) = Normal w
        /\ App._newWorkout f clk a = (submitted w ws a, Normal tt)).
Proof.
  intros k f clk a lat lng He Ht. split.
  - intros Hacc. split; [|repeat split].
    unfold App._newWorkout, bind, gets. rewrite He, Ht.
    destruct k; cbn [type_name String.eqb Ascii.eqb Bool.eqb].
    + rewrite running_check, Hacc. reflexivity.
    + unfold ret at 1. rewrite cycling_check, Hacc. reflexivity.
  - intros Hacc ws m Hw Hm.
    destruct (created_is_placed k clk lat lng
                (App.inputDistance f) (App.inputDuration f) (extra_input k f))
      as (p & o & Ec & Hr & Hp).
    exists (VObj p o). split; [exact Ec|].
    unfold App._newWorkout, bind, gets. rewrite He, Ht.
    destruct k; cbn [type_name String.eqb Ascii.eqb Bool.eqb create extra_input] in *.
    + rewrite running_check, Hacc. cbn [negb]. unfold lift at 1. rewrite Ec.
      unfold ret at 1. unfold ret at 1. rewrite Hw. unfold lift at 1. cbn [push].
      unfold modify at 1.
      rewrite (Hp _ m) by exact Hm.
      rewrite AppFacts.renderWorkout_ok by exact Hr.
      reflexivity.
    + unfold ret at 1. rewrite cycling_check, Hacc. cbn [negb]. unfold lift at 1. rewrite Ec.
      unfold ret at 1. rewrite Hw. unfold lift at 1. cbn [push].
      unfold modify at 1.
      rewrite (Hp _ m) by exact Hm.
      rewrite AppFacts.renderWorkout_ok by exact Hr.
      reflexivity.
Qed.

Lemma validation_policy_witness :
  mapEvent ready = Some (40.75, -74)%float
  /\ App.inputType zero_cadence_form = type_name KRunning
  /\ acceptable KRunning zero_cadence_form = false
  /\ App._newWorkout zero_cadence_form clock1 ready = (rejected ready, Normal tt).
Proof.
  split; [reflexivity|]. split; [reflexivity|]. split; [vm_compute; reflexivity|].
  apply (validation_policy KRunning zero_cadence_form clock1 ready
           40.75%float (-74)%float eq_refl eq_refl).
  vm_compute. reflexivity.
Defined.

(** The three rejections of the specification, and a negative elevation
    gain going through. *)
Example rejections :
  App._newWorkout nan_distance_form clock1 ready = (rejected ready, Normal tt)
  /\ App._newWorkout negative_duration_form clock1 ready = (rejected ready, Normal tt)
  /\ App._newWorkout zero_cadence_form clock1 ready = (rejected ready, Normal tt)
  /\ App._newWorkout downhill_form clock1 ready = (submitted ride1 [] ready, Normal tt).
Proof. repeat split; vm_compute; reflexivity. Qed.

(** C3 as stated fails for a submission whose type is neither ['running']
    nor ['cycling']: its distance is [NaN], yet nothing is rejected and the
    collection grows by an [undefined] entry. *)
Lemma unknown_type_is_not_validated :
  App.inputType walk_form = "walking"
  /\ PrimFloat.is_finite (App.inputDistance walk_form) = false
  /\ App._newWorkout walk_form clock1 ready
     = (with_workouts (VArr [VUndefined]) ready, Throw undefined_coords)
  /\ workouts ready = VArr []
  /\ alerts (fst (App._newWorkout walk_form clock1 ready)) = [].
Proof. repeat split; vm_compute; reflexivity. Qed.

(** C10, amended. A submission whose type is neither ['running'] nor
    ['cycling'] is not validated and constructs nothing; [undefined] is
    appended to the collection, and reading its [coords] for the marker
    throws a TypeError: the handler ends there, before the form is hidden
    and before the store is written. *)
Theorem unknown_type_appends_undefined_then_throws :
  forall f clk a latlng ws,
  mapEvent a = Some latlng -> workouts a = VArr ws ->
  App.inputType f <> "running" -> App.inputType f <> "cycling" ->
  App._newWorkout f clk a
  = (with_workouts (VArr (ws ++ [VUndefined])) a, Throw undefined_coords)
  /\ localStorage (fst (App._newWorkout f clk a)) = localStorage a
  /\ alerts (fst (App._newWorkout f clk a)) = alerts a
  /\ formHidden (fst (App._newWorkout f clk a)) = formHidden a.
Proof.
  intros f clk a [lat lng] ws He Hw Hr Hc.
  assert (E : App._newWorkout f clk a
              = (with_workouts (VArr (ws ++ [VUndefined])) a,
                 Throw undefined_coords)).
  { unfold App._newWorkout, bind, gets. rewrite He.
    apply String.eqb_neq in Hr, Hc. rewrite Hr, Hc.
    unfold ret at 1. unfold ret at 1. rewrite Hw. reflexivity. }
  rewrite E. repeat split.
Qed.

Lemma unknown_type_appends_undefined_then_throws_witness :
  mapEvent ready = Some (40.75, -74)%float
  /\ workouts ready = VArr []
  /\ App._newWorkout walk_form clock1 ready
     = (with_workouts (VArr ([] ++ [VUndefined])) ready,
        Throw undefined_coords).
Proof.
  split; [reflexivity|]. split; [reflexivity|].
  apply (unknown_type_appends_undefined_then_throws
           walk_form clock1 ready (40.75, -74)%float []);
    [reflexivity | reflexivity | discriminate | discriminate].
Defined.

(** C10 as stated fails: after such a submission the store is what it
    was, here empty, although the collection holds the [undefined] entry
    that [JSON.stringify] would write as [[null]]. *)
Lemma unknown_type_does_not_reach_the_store :
  localStorage ready = None
  /\ workouts (fst (App._newWorkout walk_form clock1 ready)) = VArr [VUndefined]
  /\ JSON_stringify (VArr [VUndefined]) = Some (JSONText (JArr [JNull]))
  /\ localStorage (fst (App._newWorkout walk_form clock1 ready)) = None
  /\ snd (App._newWorkout walk_form clock1 ready) = Throw undefined_coords.
Proof. repeat split; vm_compute; reflexivity. Qed.

(** The entry reaches the store with the next submission that goes
    through, as [null]. *)
Example undefined_entry_saved_later :
  localStorage (fst (App._newWorkout run_form clock1
                       (fst (App._newWorkout walk_form clock1 ready))))
  = Some (JSONText (JArr [JNull; run1_json])).
Proof. vm_compute. reflexivity. Qed.

(** ** Selecting a workout *)

Lemma find_items_none pred : forall ws,
  Forall (fun w => pred w = Normal false) ws ->
  find_items pred ws = Normal VUndefined.
Proof.
  induction 1 as [|w ws Hw _ IH]; [reflexivity|].
  cbn. now rewrite Hw.
Qed.

Lemma find_items_found pred : forall ws w,
  find_items pred ws = Normal w -> w = VUndefined \/ pred w = Normal true.
Proof.
  induction ws as [|x ws IH]; intros w; cbn.
  - intros [= <-]. now left.
  - destruct (pred x) as [[|]|e] eqn:E; [|apply IH|discriminate].
    intros [= <-]. now right.
Qed.

Lemma find_found arr id w :
  find arr (App.has_id id) = Normal w -> w <> VUndefined ->
  exists p o, w = VObj p o /\ strict_eq_str (obj_get "id" o) id = true.
Proof.
  intros Hf Hw. destruct arr; try discriminate. cbn [find] in Hf.
  apply find_items_found in Hf as [->|Hp]; [contradiction|].
  unfold App.has_id in Hp.
  destruct w; cbn in Hp; try discriminate. injection Hp as Hp. eauto.
Qed.

(** C4, amended. When no workout of the collection has the id of the
    clicked element, [find] answers [undefined] and the handler throws a
    TypeError on reading its [coords]; the collection, the store and the
    map are as they were. *)
Theorem lookup_miss_throws :
  forall a id ws m,
  workouts a = VArr ws -> map a = Some m ->
  Forall (fun w => App.has_id id w = Normal false) ws ->
  find (workouts a) (App.has_id id) = Normal VUndefined
  /\ App._moveToPopup (Some id) a = (a, Throw undefined_coords).
Proof.
  intros a id ws m Hw Hm Hall.
  assert (E : find (workouts a) (App.has_id id) = Normal VUndefined).
  { rewrite Hw. cbn [find]. now apply find_items_none. }
  split; [exact E|].
  unfold App._moveToPopup, bind, gets, lift. rewrite E, Hm. reflexivity.
Qed.

Lemma lookup_miss_throws_witness :
  workouts logged = VArr [run1]
  /\ find (workouts logged) (App.has_id "0000000000") = Normal VUndefined
  /\ App._moveToPopup (Some "0000000000") logged
     = (logged, Throw undefined_coords).
Proof.
  split; [reflexivity|].
  apply (lookup_miss_throws logged "0000000000" [run1]
           (VArr [VNum 40.5; VNum (-74.5)])%float);
    [reflexivity | reflexivity |].
  constructor; [vm_compute; reflexivity | constructor].
Defined.

(** C4 as stated fails: in a collection of one run, a click on an element
    with another id finds nothing, and the handler ends in a TypeError. *)
Lemma lookup_miss_is_not_silent :
  find (workouts logged) (App.has_id "0000000000") = Normal VUndefined
  /\ snd (App._moveToPopup (Some "0000000000") logged)
     = Throw undefined_coords.
Proof. split; vm_compute; reflexivity. Qed.

(** C8, amended. When the clicked element resolves to a workout of the
    collection, [_moveToPopup] changes no field of it, [clicks] included:
    the collection and the store are as they were, whether [setView] moves
    the map or throws.  When the workout's [coords] are a position (a pair
    of finite Numbers, as in every workout the form creates) the map is centred
    on them and the handler returns; when they are missing, [setView]
    throws a TypeError and the map stays where it was.  The method
    [click], which no handler calls, adds one to a Number in [clicks] and
    changes no other field. *)
Theorem selection_moves_the_map_only :
  forall a id m w,
  map a = Some m ->
  find (workouts a) (App.has_id id) = Normal w -> w <> VUndefined ->
  exists p o,
    w = VObj p o
    /\ workouts (fst (App._moveToPopup (Some id) a)) = workouts a
    /\ localStorage (fst (App._moveToPopup (Some id) a)) = localStorage a
    /\ (is_latlng (obj_get "coords" o) = true ->
        App._moveToPopup (Some id) a
        = (with_map (Some (obj_get "coords" o)) a, Normal tt))
    /\ (is_nullish (obj_get "coords" o) = true ->
        exists msg, App._moveToPopup (Some id) a = (a, Throw (TypeError msg)))
    /\ (forall n, obj_get "clicks" o = VNum n ->
        exists o',
          Workout.click o = Normal o'
          /\ obj_get "clicks" o' = VNum (n + 1)%float
          /\ (forall k, k <> "clicks" -> obj_get k o' = obj_get k o)).
Proof.
  intros a id m w Hm Hf Hw.
  destruct (find_found _ _ _ Hf Hw) as (p & o & -> & _).
  exists p, o. split; [reflexivity|].
  assert (E : App._moveToPopup (Some id) a
              = match Leaflet.setView (obj_get "coords" o) with
                | Normal _ => (with_map (Some (obj_get "coords" o)) a, Normal tt)
                | Throw e => (a, Throw e)
                end).
  { unfold App._moveToPopup, bind, gets, lift, modify. rewrite Hf, Hm.
    cbn [GetV]. destruct (Leaflet.setView _); reflexivity. }
  rewrite E. split; [|split; [|split; [|split]]].
  - destruct (Leaflet.setView _); reflexivity.
  - destruct (Leaflet.setView _); reflexivity.
  - intros Hc. apply is_latlng_accepted in Hc as [_ ->]. reflexivity.
  - intros Hc. destruct (obj_get "coords" o); try discriminate;
      eexists; reflexivity.
  - intros n Hn. destruct (click_spec o n Hn) as (o' & E1 & E2 & E3 & _).
    exists o'. repeat split; assumption.
Qed.

Lemma selection_moves_the_map_only_witness :
  map logged = Some (VArr [VNum 40.5; VNum (-74.5)])%float
  /\ find (workouts logged) (App.has_id "2485400000") = Normal run1
  /\ exists p o,
       run1 = VObj p o
       /\ workouts (fst (App._moveToPopup (Some "2485400000") logged))
          = workouts logged
       /\ localStorage (fst (App._moveToPopup (Some "2485400000") logged))
          = localStorage logged
       /\ (is_latlng (obj_get "coords" o) = true ->
           App._moveToPopup (Some "2485400000") logged
           = (with_map (Some (obj_get "coords" o)) logged, Normal tt))
       /\ (is_nullish (obj_get "coords" o) = true ->
           exists msg,
             App._moveToPopup (Some "2485400000") logged
             = (logged, Throw (TypeError msg)))
       /\ (forall n, obj_get "clicks" o = VNum n ->
           exists o',
             Workout.click o = Normal o'
             /\ obj_get "clicks" o' = VNum (n + 1)%float
             /\ (forall k, k <> "clicks" -> obj_get k o' = obj_get k o)).
Proof.
  split; [reflexivity|]. split; [vm_compute; reflexivity|].
  apply (selection_moves_the_map_only logged "2485400000"
           (VArr [VNum 40.5; VNum (-74.5)])%float run1);
    [reflexivity | vm_compute; reflexivity | discriminate].
Defined.

(** C8 as stated fails: the run is selected, the map moves to it, and its
    [clicks] is 0 after the selection as it was before. *)
Lemma selection_does_not_count :
  find (workouts logged) (App.has_id "2485400000") = Normal run1
  /\ GetV run1 "clicks" = Normal (VNum 0)
  /\ App._moveToPopup (Some "2485400000") logged
     = (with_map (Some here) logged, Normal tt)
  /\ workouts (with_map (Some here) logged) = VArr [run1].
Proof. repeat split; vm_compute; reflexivity. Qed.

(** The sample states are reached by the script. *)
Example ready_is_reached :
  fst (App._showForm (40.75, -74)%float
         (fst (App._loadMap (40.5, -74.5)%float
                 (fst (App.constructor (App.page None)))))) = ready.
Proof. vm_compute. reflexivity. Qed.

(** ** Scenarios of the specification *)

(** One run of 5 km in 30 min at cadence 170: the pace is 6, the
    description names the day, the collection holds the run alone and the
    store one serialized record. *)
Theorem first_run_scenario :
  App._newWorkout run_form clock1 ready = (logged, Normal tt)
  /\ workouts logged = VArr [run1]
  /\ GetV run1 "pace" = Normal (VNum 6)
  /\ GetV run1 "description" = Normal (VStr "Running on July 14")
  /\ localStorage logged = Some (JSONText (JArr [run1_json])).
Proof. repeat split; vm_compute; reflexivity. Qed.

(** A store of two records, a run and a ride: loading gives a collection
    of two entries whose second still has the type ['cycling'], and both
    are listed. *)
Theorem two_records_scenario :
  exists r1 r2,
    App.constructor two_records_page
    = (with_listening true
         (with_listItems [r2; r1]
            (with_workouts (VArr [r1; r2]) two_records_page)),
       Normal tt)
    /\ GetV r1 "type" = Normal (VStr "running")
    /\ GetV r2 "type" = Normal (VStr "cycling")
    /\ GetV r2 "speed" = Normal (VNum 20).
Proof.
  exists (internalize run1_json), (internalize ride1_json).
  repeat split; vm_compute; reflexivity.
Qed.
(** * Properties of the handlers *)

(** ** What each handler can change *)

Module HandlerFacts.

Lemma with_markers_same a : with_markers (markers a) a = a.
Proof. destruct a; reflexivity. Qed.

Ltac same_markers a :=
  exists (markers a); eexists; rewrite with_markers_same; reflexivity.

(** [_renderWorkoutMarker] changes the markers only. *)
Lemma renderWorkoutMarker_frame w a :
  exists ms r, App._renderWorkoutMarker w a = (with_markers ms a, r).
Proof.
  unfold App._renderWorkoutMarker, bind, lift, gets, modify, throw.
  destruct (GetV w "coords") as [c|e]; [|same_markers a].
  destruct (Leaflet.toLatLng c) as [[|]|e]; cbn [fst snd];
    [| |same_markers a]; (destruct (map a) eqn:Em; [|same_markers a]);
    [|same_markers a].
  exists (markers a ++ [w]).
  destruct (GetV w "type") as [t|e]; [|eexists; reflexivity].
  destruct (ToString t) as [[]|e]; [|eexists; reflexivity].
  destruct (GetV w "description") as [d|e]; eexists; reflexivity.
Qed.

Lemma placeable_cases w :
  placeable w = true ->
  exists p o,
    w = VObj p o
    /\ Leaflet.toLatLng (obj_get "coords" o) = Normal true
    /\ ToString (obj_get "type" o) = Normal tt
    /\ ToString (obj_get "description" o) = Normal tt.
Proof.
  destruct w as [| | | | | | |p o]; try discriminate. cbn [placeable].
  destruct (Leaflet.toLatLng (obj_get "coords" o)) as [[|]|] eqn:Ec;
    try discriminate.
  unfold printable.
  destruct (ToString (obj_get "type" o)) as [[]|] eqn:Et; [|discriminate].
  destruct (ToString (obj_get "description" o)) as [[]|] eqn:Ed; [|discriminate].
  intros _. exists p, o. repeat split; assumption.
Qed.

Lemma mappable_placeable w : mappable w = true -> placeable w = true.
Proof.
  destruct w as [| | | | | | |p o]; try discriminate. cbn [mappable placeable].
  intros H. apply andb_true_iff in H as [H Hd].
  apply andb_true_iff in H as [Hc Ht].
  apply is_latlng_accepted in Hc as [-> _]. now rewrite Ht, Hd.
Qed.

(** With the map loaded a placeable workout gets its marker; without it
    [addTo] throws. *)
Lemma placeable_placed w a m :
  map a = Some m -> placeable w = true ->
  App._renderWorkoutMarker w a
  = (with_markers (markers a ++ [w]) a, Normal tt).
Proof.
  intros Hm Hw. destruct (placeable_cases w Hw) as (p & o & -> & Hc & Ht & Hd).
  now apply (renderWorkoutMarker_placed p o a m).
Qed.

Lemma placeable_no_map w a :
  map a = None -> placeable w = true ->
  App._renderWorkoutMarker w a
  = (a, Throw (cannot_read "undefined" "addLayer")).
Proof.
  intros Hm Hw. destruct (placeable_cases w Hw) as (p & o & -> & Hc & Ht & Hd).
  unfold App._renderWorkoutMarker, bind, lift, gets, modify, throw.
  cbn [GetV]. rewrite Hc, Hm. reflexivity.
Qed.

(** An entry without a position gets no marker: a TypeError, on reading
    [coords] of [undefined] or [null], or inside Leaflet. *)
Lemma no_position_throws w :
  no_position w = true ->
  exists msg, forall a m,
    map a = Some m ->
    App._renderWorkoutMarker w a = (a, Throw (TypeError msg)).
Proof.
  intros Hw. unfold App._renderWorkoutMarker, bind, lift, gets, modify, throw.
  destruct w as [| | | | | | |p o]; cbn [GetV Leaflet.toLatLng];
    try (eexists; intros a m Hm; reflexivity);
    try (eexists; intros a m Hm; rewrite Hm; reflexivity).
  cbn [no_position] in Hw.
  destruct (obj_get "coords" o); try discriminate;
    cbn [Leaflet.toLatLng]; eexists; intros a m Hm; rewrite Hm; reflexivity.
Qed.

Lemma nullish_throws w a :
  is_nullish w = true ->
  App._renderWorkoutMarker w a
  = (a, Throw (cannot_read (nullish_name w) "coords")).
Proof. destruct w; try discriminate; reflexivity. Qed.

(** Placing markers changes the markers only. *)
Lemma forEach_marker_frame : forall ws a,
  exists ms r,
    forEach_items App._renderWorkoutMarker ws a = (with_markers ms a, r).
Proof.
  induction ws as [|w ws IH]; intros a.
  - exists (markers a), (Normal tt). cbn. now rewrite with_markers_same.
  - cbn [forEach_items]. unfold bind.
    destruct (renderWorkoutMarker_frame w a) as (ms & [u|e] & ->).
    + destruct (IH (with_markers ms a)) as (ms' & r & E).
      exists ms', r. rewrite E. reflexivity.
    + eexists ms, _. reflexivity.
Qed.

Lemma forEach_marker_all : forall ws a m,
  map a = Some m -> forallb placeable ws = true ->
  forEach_items App._renderWorkoutMarker ws a
  = (with_markers (markers a ++ ws) a, Normal tt).
Proof.
  induction ws as [|w ws IH]; intros a m Hm Hall.
  - cbn. now rewrite app_nil_r, with_markers_same.
  - cbn [forallb] in Hall. apply andb_true_iff in Hall as [Hw Hws].
    cbn [forEach_items]. unfold bind. rewrite (placeable_placed w a m Hm Hw).
    rewrite (IH _ m) by (assumption || reflexivity).
    cbn [markers with_markers]. now rewrite <- app_assoc.
Qed.

Lemma forEach_marker_stops : forall good bad rest a m e,
  map a = Some m -> forallb placeable good = true ->
  (forall a', map a' = Some m ->
              App._renderWorkoutMarker bad a' = (a', Throw e)) ->
  forEach_items App._renderWorkoutMarker (good ++ bad :: rest) a
  = (with_markers (markers a ++ good) a, Throw e).
Proof.
  induction good as [|w good IH]; intros bad rest a m e Hm Hall Hbad.
  - cbn [app forEach_items]. unfold bind. rewrite (Hbad a Hm).
    now rewrite app_nil_r, with_markers_same.
  - cbn [forallb] in Hall. apply andb_true_iff in Hall as [Hw Hws].
    cbn [app forEach_items]. unfold bind. rewrite (placeable_placed w a m Hm Hw).
    rewrite (IH bad rest _ m e) by (assumption || reflexivity).
    cbn [markers with_markers]. now rewrite <- app_assoc.
Qed.

(** [_loadMap] on a collection that is an array. *)
Lemma loadMap_eq coords a ws :
  workouts a = VArr ws ->
  App._loadMap coords a
  = forEach_items App._renderWorkoutMarker ws (with_map (Some (centre coords)) a).
Proof.
  intros Hw. unfold App._loadMap, bind, modify, gets, lift. cbn [fst snd].
  change (VArr [VNum (fst coords); VNum (snd coords)]) with (centre coords).
  change (workouts (with_map (Some (centre coords)) a)) with (workouts a).
  now rewrite Hw.
Qed.

(** [_loadMap] sets the map and adds markers; nothing else. *)
Lemma loadMap_frame coords a :
  exists ms r,
    App._loadMap coords a = (with_markers ms (with_map (Some (centre coords)) a), r).
Proof.
  unfold App._loadMap, bind, modify, gets, lift. cbn [fst snd].
  change (VArr [VNum (fst coords); VNum (snd coords)]) with (centre coords).
  set (a' := with_map (Some (centre coords)) a).
  destruct (workouts a') as [| | | | | |xs|p o]; cbn [forEach];
    try (exists (markers a'); eexists; unfold throw;
         now rewrite with_markers_same).
  destruct (forEach_marker_frame xs a') as (ms & r & E).
  exists ms, r. exact E.
Qed.

(** [_moveToPopup] moves the map or changes nothing. *)
Lemma moveToPopup_frame el a :
  (exists r, App._moveToPopup el a = (a, r))
  \/ (exists c, App._moveToPopup el a = (with_map (Some c) a, Normal tt)).
Proof.
  destruct el as [id|]; [|left; eexists; reflexivity].
  unfold App._moveToPopup, bind, gets, lift.
  destruct (find (workouts a) (App.has_id id)) as [w|e]; [|left; eexists; reflexivity].
  destruct (map a); [|left; eexists; reflexivity].
  destruct (GetV w "coords") as [c|e]; [|left; eexists; reflexivity].
  destruct (Leaflet.setView c) as [u|e]; [|left; eexists; reflexivity].
  right. exists c. reflexivity.
Qed.

(** A click on a workout that is found, the map being loaded. *)
Lemma moveToPopup_found id a m p o :
  map a = Some m ->
  find (workouts a) (App.has_id id) = Normal (VObj p o) ->
  App._moveToPopup (Some id) a
  = match Leaflet.setView (obj_get "coords" o) with
    | Normal _ => (with_map (Some (obj_get "coords" o)) a, Normal tt)
    | Throw e => (a, Throw e)
    end.
Proof.
  intros Hm Hf. unfold App._moveToPopup, bind, gets, lift, modify.
  rewrite Hf, Hm. cbn [GetV]. destruct (Leaflet.setView _); reflexivity.
Qed.

(** [_newWorkout], once the map was clicked, in terms of what its two
    branches settle on. *)
Lemma newWorkout_eq f clk a latlng :
  mapEvent a = Some latlng ->
  App._newWorkout f clk a
  = match settle f clk latlng with
    | None => (rejected a, Normal tt)
    | Some (Normal w) => commit w a
    | Some (Throw e) => (a, Throw e)
    end.
Proof.
  intros He. destruct latlng as [lat lng].
  unfold App._newWorkout, settle, bind, gets. rewrite He. cbn [fst snd].
  destruct (String.eqb (App.inputType f) "running") eqn:Er.
  - apply String.eqb_eq in Er. rewrite running_check.
    destruct (acceptable KRunning f); cbn [negb]; [|reflexivity].
    rewrite ClassFacts.Running_new_eq. rewrite Er. reflexivity.
  - unfold ret at 1.
    destruct (String.eqb (App.inputType f) "cycling") eqn:Ec.
    + rewrite cycling_check.
      destruct (acceptable KCycling f); cbn [negb]; [|reflexivity].
      rewrite ClassFacts.Cycling_new_eq. reflexivity.
    + reflexivity.
Qed.

Lemma newWorkout_no_click f clk a :
  mapEvent a = None ->
  App._newWorkout f clk a = (a, Throw (cannot_read "undefined" "latlng")).
Proof.
  intros He. unfold App._newWorkout, bind, gets. rewrite He. reflexivity.
Qed.

(** What [settle] hands on is never an exception: construction is total,
    and what it makes can be placed and rendered. *)
Lemma settle_cases f clk latlng :
  settle f clk latlng = None
  \/ settle f clk latlng = Some (Normal VUndefined)
  \/ exists w, settle f clk latlng = Some (Normal w)
               /\ placeable w = true /\ renders w = true.
Proof.
  unfold settle.
  destruct (String.eqb (App.inputType f) "running").
  - destruct (acceptable KRunning f); [|now left].
    right; right. rewrite ClassFacts.Running_new_eq.
    eexists. repeat split.
  - destruct (String.eqb (App.inputType f) "cycling"); [|now right; left].
    destruct (acceptable KCycling f); [|now left].
    right; right. rewrite ClassFacts.Cycling_new_eq.
    eexists. repeat split.
Qed.

(** [commit] on a collection that is an array: of [undefined], and of a
    workout that can be placed and rendered. *)
Lemma commit_undefined a ws :
  workouts a = VArr ws ->
  commit VUndefined a
  = (with_workouts (VArr (ws ++ [VUndefined])) a, Throw undefined_coords).
Proof.
  intros Hw. unfold commit, bind, gets, lift, modify. rewrite Hw. reflexivity.
Qed.

Lemma commit_eq w a ws :
  workouts a = VArr ws -> placeable w = true -> renders w = true ->
  commit w a
  = match map a with
    | None => (with_workouts (VArr (ws ++ [w])) a,
               Throw (cannot_read "undefined" "addLayer"))
    | Some _ => (submitted w ws a, Normal tt)
    end.
Proof.
  intros Hw Hp Hr. unfold commit, bind, gets, lift, modify. rewrite Hw.
  cbn [push fst snd]. destruct (map a) as [m|] eqn:Em.
  - rewrite (placeable_placed w _ m) by assumption.
    rewrite (AppFacts.renderWorkout_ok w _ Hr). reflexivity.
  - rewrite (placeable_no_map w) by assumption. reflexivity.
Qed.

Lemma commit_not_array w a :
  is_array (workouts a) = false -> exists e, commit w a = (a, Throw e).
Proof.
  intros Hw. unfold commit, bind, gets, lift.
  destruct (workouts a); try discriminate; eexists; reflexivity.
Qed.

End HandlerFacts.

(** ** The map *)

(** X1. When the position arrives and every entry of the collection is an
    object with a position in [coords] (a pair of finite Numbers)
    and a [type] and a [description] that convert to strings, [_loadMap]
    centres the map on the position and places one marker per entry, in
    the order of the collection; nothing else changes and nothing is
    thrown. *)
Theorem loadMap_places_every_marker :
  forall a coords ws,
  workouts a = VArr ws -> forallb mappable ws = true ->
  App._loadMap coords a
  = (with_markers (markers a ++ ws) (with_map (Some (centre coords)) a),
     Normal tt).
Proof.
  intros a coords ws Hw Hall. rewrite (HandlerFacts.loadMap_eq coords a ws Hw).
  rewrite (HandlerFacts.forEach_marker_all ws _ (centre coords));
    [reflexivity | reflexivity |].
  apply forallb_forall. intros w Hin. apply HandlerFacts.mappable_placeable.
  rewrite forallb_forall in Hall. now apply Hall.
Qed.

Lemma loadMap_places_every_marker_witness :
  workouts (fst (reload logged)) = VArr [run1_reloaded]
  /\ forallb mappable [run1_reloaded] = true
  /\ App._loadMap (40.5, -74.5)%float (fst (reload logged))
     = (with_markers (markers (fst (reload logged)) ++ [run1_reloaded])
          (with_map (Some (centre (40.5, -74.5)%float)) (fst (reload logged))),
        Normal tt).
Proof.
  split; [vm_compute; reflexivity|]. split; [vm_compute; reflexivity|].
  apply (loadMap_places_every_marker (fst (reload logged)) (40.5, -74.5)%float
           [run1_reloaded]); vm_compute; reflexivity.
Defined.

(** X2. When the collection holds, after some workouts that can be mapped,
    an entry that gives no position (anything but an object, or an object
    whose [coords] is missing or [null]), [_loadMap] has set the map and
    placed the markers of those workouts when it throws a TypeError at
    that entry; the entries after it get no marker.  For [undefined] and
    [null] the TypeError is the one of reading their [coords]. *)
Theorem loadMap_stops_at_missing_entry :
  forall a coords good bad rest,
  workouts a = VArr (good ++ bad :: rest) ->
  forallb mappable good = true -> no_position bad = true ->
  (exists msg,
     App._loadMap coords a
     = (with_markers (markers a ++ good) (with_map (Some (centre coords)) a),
        Throw (TypeError msg)))
  /\ (is_nullish bad = true ->
      snd (App._loadMap coords a)
      = Throw (cannot_read (nullish_name bad) "coords")).
Proof.
  intros a coords good bad rest Hw Hall Hbad.
  rewrite (HandlerFacts.loadMap_eq coords a _ Hw).
  assert (Hgood : forallb placeable good = true).
  { apply forallb_forall. intros w Hin. apply HandlerFacts.mappable_placeable.
    rewrite forallb_forall in Hall. now apply Hall. }
  split.
  - destruct (HandlerFacts.no_position_throws bad Hbad) as (msg & E).
    exists msg.
    rewrite (HandlerFacts.forEach_marker_stops good bad rest _ (centre coords)
               (TypeError msg));
      [reflexivity | reflexivity | exact Hgood |].
    intros a' Hm'. now apply (E a' (centre coords)).
  - intros Hn.
    rewrite (HandlerFacts.forEach_marker_stops good bad rest _ (centre coords)
               (cannot_read (nullish_name bad) "coords"));
      [reflexivity | reflexivity | exact Hgood |].
    intros a' _. now apply HandlerFacts.nullish_throws.
Qed.

Lemma loadMap_stops_at_missing_entry_witness :
  workouts (fst (App.constructor half_corrupt_page))
  = VArr ([run1_reloaded] ++ VNull :: [])
  /\ forallb mappable [run1_reloaded] = true
  /\ (exists msg,
        App._loadMap (40.5, -74.5)%float (fst (App.constructor half_corrupt_page))
        = (with_markers (markers (fst (App.constructor half_corrupt_page))
                         ++ [run1_reloaded])
             (with_map (Some (centre (40.5, -74.5)%float))
                (fst (App.constructor half_corrupt_page))),
           Throw (TypeError msg)))
  /\ (is_nullish VNull = true ->
      snd (App._loadMap (40.5, -74.5)%float
             (fst (App.constructor half_corrupt_page)))
      = Throw (cannot_read (nullish_name VNull) "coords")).
Proof.
  split; [vm_compute; reflexivity|]. split; [vm_compute; reflexivity|].
  apply (loadMap_stops_at_missing_entry
           (fst (App.constructor half_corrupt_page)) (40.5, -74.5)%float
           [run1_reloaded] VNull []); vm_compute; reflexivity.
Defined.

(** An object without [coords] among the stored workouts: the marker of
    the run before it is placed, then Leaflet throws. *)
Example loadMap_stops_at_entry_without_coords :
  exists msg,
    App._loadMap (40.5, -74.5)%float
      (with_workouts (VArr [run1_reloaded; VObj ObjectProto [("id", VStr "7")]])
         (App.page None))
    = (with_markers [run1_reloaded]
         (with_map (Some (centre (40.5, -74.5)%float))
            (with_workouts (VArr [run1_reloaded; VObj ObjectProto [("id", VStr "7")]])
               (App.page None))),
       Throw (TypeError msg)).
Proof. eexists. vm_compute. reflexivity. Qed.
(** ** Clicks in the list *)

Lemma click_without_map id a :
  map a = None -> exists e, App._moveToPopup (Some id) a = (a, Throw e).
Proof.
  intros Hm. unfold App._moveToPopup, bind, gets, lift, throw.
  destruct (find (workouts a) (App.has_id id)); [|eexists; reflexivity].
  rewrite Hm. eexists; reflexivity.
Qed.

(** X3. While there is no map (the position has not arrived, or never will),
    a click on any list entry ends in a TypeError and changes nothing,
    whether or not the collection has a workout of that id. *)
Theorem click_before_map_throws :
  forall a id,
  map a = None ->
  exists msg, App._moveToPopup (Some id) a = (a, Throw (TypeError msg)).
Proof.
  intros a id Hm. unfold App._moveToPopup, bind, gets, lift, throw.
  destruct (find (workouts a) (App.has_id id)) as [w|e] eqn:Ef.
  - rewrite Hm. eexists; reflexivity.
  - destruct (workouts a) as [| | | | | |xs|p o]; cbn in Ef;
      try (injection Ef as <-; eexists; reflexivity).
    clear Hm. induction xs as [|x xs IH]; cbn in Ef; [discriminate|].
    unfold App.has_id at 1 in Ef.
    destruct x as [| | | | | |ys|p o]; cbn in Ef;
      try (injection Ef as <-; eexists; reflexivity);
      try (apply IH; exact Ef).
    destruct (strict_eq_str (obj_get "id" o) id); [discriminate | apply IH; exact Ef].
Qed.

Lemma click_before_map_throws_witness :
  map (fst (reload logged)) = None
  /\ exists msg,
       App._moveToPopup (Some "2485400000") (fst (reload logged))
       = (fst (reload logged), Throw (TypeError msg)).
Proof.
  split; [reflexivity|].
  apply (click_before_map_throws (fst (reload logged)) "2485400000").
  reflexivity.
Defined.

Lemma find_items_first pred w after : forall before,
  Forall (fun x => pred x = Normal false) before ->
  pred w = Normal true ->
  find_items pred (before ++ w :: after) = Normal w.
Proof.
  induction 1 as [|x before Hx _ IH]; intros Hw; cbn.
  - now rewrite Hw.
  - rewrite Hx. now apply IH.
Qed.

(** X4. With the map loaded, a click on the list entry of id [id] centres
    the map on the [coords] of the first workout of the collection that
    has this id, these being a position (a pair of finite Numbers),
    whatever comes after it: of two workouts with the same id the
    earlier one is always the one shown. *)
Theorem click_moves_to_first_with_id :
  forall a id m before p o after,
  workouts a = VArr (before ++ VObj p o :: after) ->
  map a = Some m ->
  Forall (fun w => App.has_id id w = Normal false) before ->
  strict_eq_str (obj_get "id" o) id = true ->
  is_latlng (obj_get "coords" o) = true ->
  App._moveToPopup (Some id) a
  = (with_map (Some (obj_get "coords" o)) a, Normal tt).
Proof.
  intros a id m before p o after Hw Hm Hb Hid Hc.
  rewrite (HandlerFacts.moveToPopup_found id a m p o Hm).
  - apply is_latlng_accepted in Hc as [_ ->]. reflexivity.
  - rewrite Hw. cbn [find].
    apply (find_items_first (App.has_id id) (VObj p o) after before Hb).
    unfold App.has_id. cbn [GetV]. now rewrite Hid.
Qed.

Lemma click_moves_to_first_with_id_witness :
  workouts twins = VArr ([] ++ VObj RunningProto run1_fields :: [ride1_there])
  /\ GetV ride1_there "id" = Normal (VStr "2485400000")
  /\ GetV ride1_there "coords" = Normal there
  /\ obj_get "coords" run1_fields = here
  /\ there <> here
  /\ App._moveToPopup (Some "2485400000") twins
     = (with_map (Some (obj_get "coords" run1_fields)) twins, Normal tt).
Proof.
  split; [reflexivity|]. split; [reflexivity|]. split; [reflexivity|].
  split; [reflexivity|]. split; [discriminate|].
  apply (click_moves_to_first_with_id twins "2485400000"
           (VArr [VNum 40.5; VNum (-74.5)])%float [] RunningProto run1_fields
           [ride1_there]);
    [reflexivity | reflexivity | constructor | vm_compute; reflexivity
    | vm_compute; reflexivity].
Defined.
(** ** What the events can do to the collection and to the store *)

(** X5. Whatever the event and the state, the handler leaves the workouts
    of the collection as they are and in their order; it appends at most one
    entry at the end, and only the form's [submit] appends. *)
Theorem collection_only_grows_at_the_end :
  forall e a ws,
  workouts a = VArr ws ->
  exists extra,
    workouts (fst (handle e a)) = VArr (ws ++ extra)
    /\ (List.length extra <= 1)%nat
    /\ (extra <> [] -> exists f clk, e = Submit f clk).
Proof.
  intros e a ws Hw.
  assert (Same : forall a', workouts a' = workouts a ->
            exists extra, workouts a' = VArr (ws ++ extra)
                          /\ (List.length extra <= 1)%nat
                          /\ (extra <> [] -> exists f clk, e = Submit f clk)).
  { intros a' E. exists []. rewrite E, Hw, app_nil_r.
    split; [reflexivity|]. split; [cbn; lia | congruence]. }
  assert (One : forall f clk w a', e = Submit f clk ->
            workouts a' = VArr (ws ++ [w]) ->
            exists extra, workouts a' = VArr (ws ++ extra)
                          /\ (List.length extra <= 1)%nat
                          /\ (extra <> [] -> exists f clk, e = Submit f clk)).
  { intros f clk w a' -> E. exists [w]. split; [exact E|].
    split; [cbn; lia | eauto]. }
  destruct e as [c| |l|f clk|el]; cbn [handle _getPosition].
  - destruct (HandlerFacts.loadMap_frame c a) as (ms & r & ->). now apply Same.
  - now apply Same.
  - unfold bind, gets. destruct (map a); now apply Same.
  - destruct (mapEvent a) as [latlng|] eqn:He.
    + rewrite (HandlerFacts.newWorkout_eq f clk a latlng He).
      destruct (HandlerFacts.settle_cases f clk latlng)
        as [-> | [-> | (w & -> & Hp & Hr)]].
      * now apply Same.
      * rewrite (HandlerFacts.commit_undefined a ws Hw).
        now apply (One f clk VUndefined).
      * rewrite (HandlerFacts.commit_eq w a ws Hw Hp Hr).
        destruct (map a); now apply (One f clk w).
    + rewrite (HandlerFacts.newWorkout_no_click f clk a He). now apply Same.
  - destruct (HandlerFacts.moveToPopup_frame el a) as [(r & ->) | (c & ->)];
      now apply Same.
Qed.

Lemma collection_only_grows_at_the_end_witness :
  workouts logged = VArr [run1]
  /\ exists extra,
       workouts (fst (handle (Submit downhill_form clock2) logged))
       = VArr ([run1] ++ extra)
       /\ (List.length extra <= 1)%nat
       /\ (extra <> [] -> exists f clk, Submit downhill_form clock2 = Submit f clk).
Proof.
  split; [reflexivity|].
  apply (collection_only_grows_at_the_end (Submit downhill_form clock2) logged [run1]).
  reflexivity.
Defined.

Lemma app_one_neq {A} (l : list A) x : l ++ [x] <> l.
Proof.
  intros E. apply (f_equal (@List.length A)) in E.
  rewrite length_app in E. cbn in E. lia.
Qed.

(** What a handler does to the store: it writes it, on returning from a
    submission that changed the collection, or leaves it, and then it has
    thrown or left the collection as well. *)
Lemma store_cases e a :
  ((exists f clk, e = Submit f clk)
   /\ snd (handle e a) = Normal tt
   /\ workouts (fst (handle e a)) <> workouts a
   /\ localStorage (fst (handle e a))
      = Some (stored_text (workouts (fst (handle e a)))))
  \/ (localStorage (fst (handle e a)) = localStorage a
      /\ (snd (handle e a) = Normal tt ->
          workouts (fst (handle e a)) = workouts a)).
Proof.
  destruct e as [c| |l|f clk|el]; cbn [handle _getPosition].
  - right. destruct (HandlerFacts.loadMap_frame c a) as (ms & r & ->).
    split; reflexivity.
  - right. split; reflexivity.
  - right. unfold bind, gets. destruct (map a); split; reflexivity.
  - destruct (mapEvent a) as [latlng|] eqn:He.
    + rewrite (HandlerFacts.newWorkout_eq f clk a latlng He).
      destruct (is_array (workouts a)) eqn:Ea.
      * destruct (workouts a) as [| | | | | |ws|p0 o0] eqn:Hw; try discriminate.
        destruct (HandlerFacts.settle_cases f clk latlng)
          as [-> | [-> | (w & -> & Hp & Hr)]].
        -- right. split; [reflexivity | intros _; exact Hw].
        -- right. rewrite (HandlerFacts.commit_undefined a ws Hw).
           split; [reflexivity | discriminate].
        -- rewrite (HandlerFacts.commit_eq w a ws Hw Hp Hr).
           destruct (map a); [|right; split; [reflexivity | discriminate]].
           left. split; [eauto|]. split; [reflexivity|].
           split; [|reflexivity].
           cbn. intros [= E]. now apply app_one_neq in E.
      * right. destruct (settle f clk latlng) as [[w|err]|].
        -- destruct (HandlerFacts.commit_not_array w a Ea) as (err & ->).
           split; [reflexivity | discriminate].
        -- split; [reflexivity | discriminate].
        -- split; reflexivity.
    + right. rewrite (HandlerFacts.newWorkout_no_click f clk a He).
      split; [reflexivity | discriminate].
  - right.
    destruct (HandlerFacts.moveToPopup_frame el a) as [(r & ->) | (c & ->)];
      split; reflexivity.
Qed.

(** X6. The store is written exactly when a handler returns after the
    collection has changed, which only the form's [submit] does, on
    appending a workout: the store then holds the serialization of the
    whole collection as it is after the handler.  In every other case the
    store is left as it was: when the handler throws, and when it leaves
    the collection as it was, as loading the map, a click and a rejected
    submission do. *)
Theorem store_written_only_by_a_completed_submission :
  forall e a,
  (snd (handle e a) = Normal tt ->
   workouts (fst (handle e a)) <> workouts a ->
   (exists f clk, e = Submit f clk)
   /\ localStorage (fst (handle e a))
      = Some (stored_text (workouts (fst (handle e a)))))
  /\ ((exists err, snd (handle e a) = Throw err)
      \/ workouts (fst (handle e a)) = workouts a ->
      localStorage (fst (handle e a)) = localStorage a)
  /\ (forall f clk latlng,
        e = Submit f clk -> mapEvent a = Some latlng ->
        settle f clk latlng = None ->
        handle e a = (rejected a, Normal tt)
        /\ localStorage (rejected a) = localStorage a).
Proof.
  intros e a. split; [|split].
  - intros Hn Hc.
    destruct (store_cases e a) as [(He & _ & _ & Hs) | (_ & Hw)];
      [now split | now destruct Hc; apply Hw].
  - intros H.
    destruct (store_cases e a) as [(_ & Hn & Hc & _) | (Hs & _)];
      [|exact Hs].
    destruct H as [(err & Herr) | Heq]; [congruence | contradiction].
  - intros f clk latlng -> He Hs. cbn [handle].
    rewrite (HandlerFacts.newWorkout_eq f clk a latlng He), Hs.
    split; reflexivity.
Qed.

(** A rejected submission and an accepted one, on the store. *)
Example store_after_submissions :
  localStorage (fst (handle (Submit zero_cadence_form clock1) ready)) = None
  /\ localStorage (fst (handle (Submit run_form clock1) ready))
     = Some (JSONText (JArr [run1_json])).
Proof. split; vm_compute; reflexivity. Qed.

(** ** Without a position *)

Lemma with_alerts_same a : with_alerts (alerts a) a = a.
Proof. destruct a; reflexivity. Qed.

Lemma step_without_map e a :
  map a = None -> mapEvent a = None -> is_position e = false ->
  exists al, fst (handle e a) = with_alerts al a.
Proof.
  intros Hm He Hp. destruct e as [c| |l|f clk|[id|]]; try discriminate;
    cbn [handle _getPosition].
  - eexists. reflexivity.
  - unfold bind, gets. rewrite Hm. exists (alerts a). now rewrite with_alerts_same.
  - rewrite (HandlerFacts.newWorkout_no_click f clk a He).
    exists (alerts a). now rewrite with_alerts_same.
  - destruct (click_without_map id a Hm) as (e & ->).
    exists (alerts a). now rewrite with_alerts_same.
  - exists (alerts a). now rewrite with_alerts_same.
Qed.

(** X7. When the position request fails or cannot be made, and as long
    as no position arrives, no sequence of map clicks, submissions and list
    clicks changes anything but the alerts: there is no map and no marker,
    the form stays as it is, and the collection, the list and the store
    are what the load made them.  A browser without geolocation gives not
    even the alert. *)
Theorem without_position_nothing_changes :
  forall g es a,
  map a = None -> mapEvent a = None -> is_located g = false ->
  forallb (fun e => negb (is_position e)) es = true ->
  map (run es (fst (_getPosition g a))) = None
  /\ mapEvent (run es (fst (_getPosition g a))) = None
  /\ workouts (run es (fst (_getPosition g a))) = workouts a
  /\ localStorage (run es (fst (_getPosition g a))) = localStorage a
  /\ listItems (run es (fst (_getPosition g a))) = listItems a
  /\ markers (run es (fst (_getPosition g a))) = markers a
  /\ formHidden (run es (fst (_getPosition g a))) = formHidden a
  /\ (g = Unsupported -> _getPosition g a = (a, Normal tt)).
Proof.
  intros g es a Hm He Hg Hall.
  assert (G : exists al, fst (_getPosition g a) = with_alerts al a).
  { destruct g; try discriminate; cbn [_getPosition].
    - exists (alerts a). cbn. now rewrite with_alerts_same.
    - eexists. reflexivity. }
  destruct G as (al & ->).
  assert (Run : forall es a,
            map a = None -> mapEvent a = None ->
            forallb (fun e => negb (is_position e)) es = true ->
            map (run es a) = None /\ mapEvent (run es a) = None
            /\ workouts (run es a) = workouts a
            /\ localStorage (run es a) = localStorage a
            /\ listItems (run es a) = listItems a
            /\ markers (run es a) = markers a
            /\ formHidden (run es a) = formHidden a).
  { clear. induction es as [|e es IH]; intros a Hm He Hall.
    - repeat split; assumption.
    - cbn [forallb] in Hall. apply andb_true_iff in Hall as [Hp Hes].
      apply negb_true_iff in Hp.
      destruct (step_without_map e a Hm He Hp) as (al & E).
      cbn [run fold_left]. fold (run es (fst (handle e a))). rewrite E.
      apply (IH (with_alerts al a)); assumption. }
  destruct (Run es (with_alerts al a) Hm He Hall) as (R1 & R2 & R3 & R4 & R5 & R6 & R7).
  repeat split; try assumption.
  intros ->. reflexivity.
Qed.

Lemma without_position_nothing_changes_witness :
  map (fst (reload logged)) = None /\ mapEvent (fst (reload logged)) = None
  /\ workouts (run [MapClick (40.75, -74)%float; Submit run_form clock2;
                    ListClick (Some "2485400000")]
                 (fst (_getPosition Refused (fst (reload logged)))))
     = workouts (fst (reload logged)).
Proof.
  split; [reflexivity|]. split; [reflexivity|].
  apply (without_position_nothing_changes Refused
           [MapClick (40.75, -74)%float; Submit run_form clock2;
            ListClick (Some "2485400000")] (fst (reload logged))); reflexivity.
Defined.

(** ** Sessions *)

Module SessionFacts.

Lemma find_items_listed id : forall ws,
  forallb placeable ws = true ->
  (exists w, In w ws /\ App.has_id id w = Normal true) ->
  exists w, find_items (App.has_id id) ws = Normal w /\ placeable w = true.
Proof.
  induction ws as [|x ws IH]; intros Hall (w & Hin & Hw); [destruct Hin|].
  cbn [forallb] in Hall. apply andb_true_iff in Hall as [Hx Hws].
  destruct (HandlerFacts.placeable_cases x Hx) as (p & o & -> & _).
  cbn [find_items]. unfold App.has_id at 1. cbn [GetV].
  destruct (strict_eq_str (obj_get "id" o) id) eqn:E; [eauto|].
  apply IH; [exact Hws|]. exists w. split; [|exact Hw].
  destruct Hin as [<-|Hin]; [|exact Hin].
  unfold App.has_id in Hw. cbn [GetV] in Hw. congruence.
Qed.

Lemma listed_in id a ws :
  listItems a = rev ws -> listed id a = true ->
  exists w, In w ws /\ App.has_id id w = Normal true.
Proof.
  unfold listed. intros -> H. apply existsb_exists in H as (w & Hin & Hw).
  exists w. split; [now apply in_rev|].
  destruct (App.has_id id w) as [[|]|]; congruence.
Qed.

(** What the handler settles on for a form of one of the two types is
    what the events ask for. *)
Lemma settle_logs f clk latlng :
  String.eqb (App.inputType f) "running"
  || String.eqb (App.inputType f) "cycling" = true ->
  (settle f clk latlng = None /\ logs (Some latlng) (Submit f clk) = [])
  \/ exists w, settle f clk latlng = Some (Normal w)
               /\ logs (Some latlng) (Submit f clk) = [w]
               /\ placeable w = true /\ renders w = true.
Proof.
  intros Ht. unfold settle, logs, kind_of.
  change (VArr [VNum (fst latlng); VNum (snd latlng)]) with (centre latlng).
  destruct (String.eqb (App.inputType f) "running").
  - destruct (acceptable KRunning f); [|now left].
    right. cbn [create extra_input]. rewrite ClassFacts.Running_new_eq.
    eexists. repeat split.
  - destruct (String.eqb (App.inputType f) "cycling"); [|discriminate].
    destruct (acceptable KCycling f); [|now left].
    right. cbn [create extra_input]. rewrite ClassFacts.Cycling_new_eq.
    eexists. repeat split.
Qed.

Ltac side :=
  try assumption; try reflexivity; try (cbn; discriminate).

Lemma inv_start : session_inv [] start.
Proof. repeat split; try reflexivity; discriminate. Qed.

(** An event the page offers is handled without an exception, logs what
    it asks for, and keeps the invariant. *)
Lemma inv_step ws a e :
  session_inv ws a -> enabled e a = true ->
  snd (handle e a) = Normal tt
  /\ session_inv (ws ++ logs (mapEvent a) e) (fst (handle e a))
  /\ mapEvent (fst (handle e a)) = clicked (mapEvent a) e.
Proof.
  intros (Hl & (Hw & Hli & Hmk & Hst) & Hobj & Hnomap & Hform) Hen.
  assert (Nothing : forall a',
            listening a' = true -> workouts a' = workouts a ->
            listItems a' = listItems a -> markers a' = markers a ->
            localStorage a' = localStorage a ->
            (map a' = None -> ws = [] /\ mapEvent a' = None) ->
            (formHidden a' = false -> mapEvent a' <> None) ->
            session_inv (ws ++ []) a').
  { intros a' E1 E2 E3 E4 E5 E6 E7. rewrite app_nil_r.
    split; [exact E1|]. split; [|split; [exact Hobj|split; assumption]].
    repeat split; congruence. }
  destruct e as [c| |[lat lng]|f clk|[id|]];
    cbn [handle _getPosition enabled clicked] in *.
  - destruct (map a) eqn:Hm; [discriminate|].
    destruct (Hnomap eq_refl) as [-> He].
    rewrite (HandlerFacts.loadMap_eq c a [] Hw).
    cbn [forEach_items ret fst snd logs].
    split; [reflexivity|]. split; [|reflexivity].
    apply Nothing; side.
  - split; [reflexivity|]. split; [|reflexivity]. cbn [logs].
    apply Nothing; side.
  - destruct (map a) eqn:Hm; [|discriminate].
    unfold bind, gets. rewrite Hm. split; [reflexivity|].
    split; [|reflexivity]. cbn [logs].
    apply Nothing; side; cbn; rewrite Hm; discriminate.
  - apply andb_true_iff in Hen as [Hvis Ht]. apply negb_true_iff in Hvis.
    destruct (mapEvent a) as [latlng|] eqn:He; [|now destruct (Hform Hvis)].
    destruct (map a) as [m|] eqn:Hm;
      [|destruct (Hnomap eq_refl) as [_ Hn]; congruence].
    rewrite (HandlerFacts.newWorkout_eq f clk a latlng He).
    destruct (settle_logs f clk latlng Ht)
      as [(-> & ->) | (w & -> & -> & Hp & Hr)].
    + split; [reflexivity|]. split; [|exact He].
      apply Nothing; side; cbn; rewrite ?Hm, ?He; discriminate.
    + rewrite (HandlerFacts.commit_eq w a ws Hw Hp Hr), Hm.
      split; [reflexivity|]. split; [|exact He].
      split; [exact Hl|]. split.
      { repeat split; cbn.
        - rewrite Hli, rev_unit. reflexivity.
        - now rewrite Hmk.
        - destruct (ws ++ [w]) eqn:E; [|reflexivity].
          now destruct ws. }
      split; [rewrite forallb_app, Hobj; cbn; now rewrite Hp|].
      cbn. rewrite Hm. split; discriminate.
  - destruct (listed_in id a ws Hli Hen) as (w & Hin & Hid).
    destruct (find_items_listed id ws Hobj (ex_intro _ w (conj Hin Hid)))
      as (w' & Ef & Hp).
    destruct (HandlerFacts.placeable_cases w' Hp) as (p & o & -> & Hc & _).
    destruct (map a) as [m|] eqn:Hm;
      [|destruct (Hnomap eq_refl) as [-> _]; destruct Hin].
    rewrite (HandlerFacts.moveToPopup_found id a m p o Hm)
      by (rewrite Hw; exact Ef).
    unfold Leaflet.setView. rewrite Hc. cbn [fst snd logs].
    split; [reflexivity|]. split; [|reflexivity].
    apply Nothing; side.
  - split; [reflexivity|]. split; [|reflexivity]. cbn [logs].
    apply Nothing; side.
Qed.

Lemma session_run : forall es ws a,
  session_inv ws a -> offered es a = true ->
  Forall (fun r => r = Normal tt) (outcomes es a)
  /\ session_inv (ws ++ logged_from (mapEvent a) es) (run es a).
Proof.
  induction es as [|e es IH]; intros ws a Hinv Hoff.
  - cbn. rewrite app_nil_r. split; [constructor | exact Hinv].
  - cbn [offered] in Hoff. apply andb_true_iff in Hoff as [Hen Hoff].
    destruct (inv_step ws a e Hinv Hen) as (Hn & Hinv' & Hclick).
    destruct (IH _ _ Hinv' Hoff) as (Hall & Hfin).
    cbn [outcomes logged_from]. split; [constructor; assumption|].
    unfold run in *. cbn [fold_left].
    rewrite Hclick, <- app_assoc in Hfin. exact Hfin.
Qed.

End SessionFacts.

(** X8. Take a session that starts on an empty store and any sequence of
    events the page offers one after the other.  No handler throws.  At
    the end the collection holds exactly the workouts the events ask for
    ([logged_from]: one for each submission of an acceptable form, of the
    variant the form selects, made from the numbers of the form at the
    point of the last click on the map), in the order they were asked
    for, all of them objects; the list shows them newest first and the
    map has their markers in the order of the collection; and the store
    is empty while nothing was logged and otherwise holds the
    serialization of the collection. *)
Theorem sessions_never_throw :
  forall es,
  offered es start = true ->
  Forall (fun r => r = Normal tt) (outcomes es start)
  /\ session_state (logged_from None es) (run es start)
  /\ forallb is_object (logged_from None es) = true.
Proof.
  intros es Hoff.
  destruct (SessionFacts.session_run es [] start SessionFacts.inv_start Hoff)
    as (Hall & _ & Hs & Hobj & _).
  cbn [app] in Hs, Hobj. change (mapEvent start) with (@None (float * float)) in *.
  split; [exact Hall|]. split; [exact Hs|].
  apply forallb_forall. intros w Hin. rewrite forallb_forall in Hobj.
  destruct (HandlerFacts.placeable_cases w (Hobj w Hin)) as (p & o & -> & _).
  reflexivity.
Qed.

Lemma sessions_never_throw_witness :
  offered short_session start = true
  /\ logged_from None short_session = [run1]
  /\ run short_session start = logged
  /\ Forall (fun r => r = Normal tt) (outcomes short_session start)
  /\ session_state (logged_from None short_session) (run short_session start)
  /\ forallb is_object (logged_from None short_session) = true.
Proof.
  split; [vm_compute; reflexivity|]. split; [vm_compute; reflexivity|].
  split; [vm_compute; reflexivity|].
  apply (sessions_never_throw short_session). vm_compute. reflexivity.
Defined.

(** A longer session: a rejected form, two accepted ones after two
    clicks, and clicks in the list. *)
Example longer_session :
  offered [Position (40.5, -74.5)%float; MapClick (40.75, -74)%float;
           Submit zero_cadence_form clock1; Submit run_form clock1;
           ListClick (Some "2485400000"); MapClick (41, -73)%float;
           Submit downhill_form clock3; ListClick None] start = true
  /\ List.length
       (logged_from None
          [Position (40.5, -74.5)%float; MapClick (40.75, -74)%float;
           Submit zero_cadence_form clock1; Submit run_form clock1;
           ListClick (Some "2485400000"); MapClick (41, -73)%float;
           Submit downhill_form clock3; ListClick None]) = 2%nat.
Proof. split; vm_compute; reflexivity. Qed.

(** ** Loading and saving again *)

Module ReloadFacts.

Lemma serialize_items_map l : serialize_items l = List.map serialize_item l.
Proof. induction l as [|x l IH]; cbn; [reflexivity | now rewrite <- IH]. Qed.

Lemma well_formed_arr xs : well_formed (VArr xs) = well_formed_items xs.
Proof. reflexivity. Qed.

Lemma well_formed_obj p o :
  well_formed (VObj p o) = distinct (List.map fst o) && well_formed_fields o.
Proof. reflexivity. Qed.

(** The members written are a selection of the properties, in order. *)
Lemma members_names k : forall o,
  existsb (String.eqb k) (List.map fst (serialize_members o)) = true ->
  existsb (String.eqb k) (List.map fst o) = true.
Proof.
  induction o as [|[k' x] o IH]; cbn; [discriminate|].
  destruct (serialize x); cbn.
  - destruct (String.eqb k k'); [reflexivity | exact IH].
  - intros H. rewrite (IH H). apply orb_true_r.
Qed.

Lemma members_distinct : forall o,
  distinct (List.map fst o) = true ->
  distinct (List.map fst (serialize_members o)) = true.
Proof.
  induction o as [|[k x] o IH]; cbn; [reflexivity|].
  rewrite andb_true_iff, negb_true_iff. intros [Hk Hd].
  destruct (serialize x); cbn; [|now apply IH].
  rewrite (IH Hd), andb_true_r. apply negb_true_iff.
  destruct (existsb (String.eqb k) (List.map fst (serialize_members o))) eqn:E;
    [|reflexivity].
  apply members_names in E. congruence.
Qed.

(** What [JSON.stringify] writes, read by [JSON.parse] and written
    again, is the same text. *)
Lemma serialize_internalize v :
  well_formed v = true ->
  forall j, serialize v = Some j -> serialize (internalize j) = Some j.
Proof.
  induction v as [| |b|x|s|d|xs IH|p o IH] using value_nested_ind;
    intros Hwf j Hj; try discriminate;
    try (injection Hj as <-; reflexivity).
  - cbn [serialize] in Hj. injection Hj as <-.
    destruct (PrimFloat.is_finite x) eqn:Ef; [|reflexivity].
    destruct (PrimFloat.is_zero x && PrimFloat.get_sign x) eqn:Ez.
    + reflexivity.
    + cbn [internalize serialize]. now rewrite Ef, Ez.
  - rewrite JSONFacts.serialize_arr in Hj. injection Hj as <-.
    rewrite well_formed_arr in Hwf.
    cbn [internalize]. rewrite JSONFacts.serialize_arr. do 2 f_equal.
    induction IH as [|x xs Hx _ IHxs]; [reflexivity|].
    cbn in Hwf. apply andb_true_iff in Hwf as [Hwx Hwxs].
    cbn. rewrite (IHxs Hwxs). f_equal.
    destruct (serialize x) as [jx|] eqn:Ex; [|reflexivity].
    now rewrite (Hx Hwx jx eq_refl).
  - rewrite JSONFacts.serialize_obj in Hj. injection Hj as <-.
    rewrite well_formed_obj in Hwf. apply andb_true_iff in Hwf as [Hd Hwf].
    rewrite JSONFacts.internalize_obj.
    rewrite JSONFacts.build_distinct by (cbn; now apply members_distinct).
    rewrite JSONFacts.serialize_obj. cbn [app]. do 2 f_equal.
    clear Hd. induction IH as [|[k x] o Hx _ IHo]; [reflexivity|].
    cbn in Hwf. apply andb_true_iff in Hwf as [Hwx Hwo].
    cbn in Hx. cbn.
    destruct (serialize x) as [jx|] eqn:Ex; [|now apply IHo].
    cbn. rewrite (Hx Hwx jx eq_refl). f_equal. now apply IHo.
Qed.

Lemma serialize_items_again : forall ws,
  forallb well_formed ws = true ->
  serialize_items (List.map internalize (serialize_items ws)) = serialize_items ws.
Proof.
  induction ws as [|x ws IH]; [reflexivity|].
  cbn [forallb]. rewrite andb_true_iff. intros [Hx Hws].
  cbn. rewrite (IH Hws). f_equal.
  destruct (serialize x) as [jx|] eqn:Ex; [|reflexivity].
  now rewrite (serialize_internalize x Hx jx Ex).
Qed.

(** Rendering list entries changes the list only. *)
Lemma forEach_render_frame : forall ws a,
  exists li r, forEach_items App._renderWorkout ws a = (with_listItems li a, r).
Proof.
  induction ws as [|w ws IH]; intros a.
  - exists (listItems a), (Normal tt). cbn. now rewrite AppFacts.with_listItems_same.
  - cbn [forEach_items]. unfold bind. rewrite AppFacts.renderWorkout_eq.
    destruct (snd (App._renderWorkout w (App.page None))).
    + destruct (IH (with_listItems (w :: listItems a) a)) as (li & r & E).
      exists li, r. rewrite E. reflexivity.
    + eexists (listItems a), _. now rewrite AppFacts.with_listItems_same.
Qed.

(** [_getLocalStorage] changes the collection and the list only. *)
Lemma getLocalStorage_frame a :
  exists w li r,
    App._getLocalStorage a = (with_listItems li (with_workouts w a), r).
Proof.
  assert (Same : forall r : completion unit, exists w li r',
            (a, r) = (with_listItems li (with_workouts w a), r')).
  { intros r. exists (workouts a), (listItems a), r. now destruct a. }
  unfold App._getLocalStorage, bind, gets, lift.
  destruct (localStorage a) as [[j|raw]|]; cbn [JSON_parse]; try apply Same.
  destruct (truthy (internalize j)); cbn [negb]; [|apply Same].
  unfold modify. cbn [fst snd].
  change (workouts (with_workouts (internalize j) a)) with (internalize j).
  set (a' := with_workouts (internalize j) a).
  destruct (internalize j) as [| | | | | |xs|p o]; cbn [forEach];
    try (exists (workouts a'), (listItems a'); eexists; unfold throw;
         now destruct a).
  destruct (forEach_render_frame xs a') as (li & r & E).
  exists (VArr xs), li, r. rewrite E. subst a'. now destruct a.
Qed.

Lemma constructor_frame a :
  exists w li b r,
    App.constructor a
    = (with_listening b (with_listItems li (with_workouts w a)), r).
Proof.
  unfold App.constructor, bind.
  destruct (getLocalStorage_frame a) as (w & li & r & ->).
  destruct r as [u|e].
  - exists w, li, true. eexists. reflexivity.
  - exists w, li, (listening a). eexists. now destruct a.
Qed.

Lemma constructor_workouts j a :
  localStorage a = Some (JSONText j) -> truthy (internalize j) = true ->
  workouts (fst (App.constructor a)) = internalize j.
Proof.
  intros Hs Ht. unfold App.constructor, bind.
  rewrite (AppFacts.getLocalStorage_truthy a j Hs Ht).
  assert (E : workouts (fst (forEach (internalize j) App._renderWorkout
                               (with_workouts (internalize j) a)))
              = internalize j).
  { destruct (internalize j) as [| | | | | |xs|p o]; try reflexivity.
    cbn [forEach]. now rewrite AppFacts.forEach_render_workouts. }
  destruct (forEach _ _ _) as [a' [u|e]]; exact E.
Qed.

End ReloadFacts.

(** X9. Let the collection hold objects whose property names are
    distinct.  Saving it, reloading the page and saving what was loaded writes the
    very text of the first save: dates, non-finite Numbers and [undefined]
    were translated by the first save, and the second one has nothing left
    to change. *)
Theorem saving_what_was_loaded_writes_the_same_text :
  forall a ws,
  workouts a = VArr ws -> forallb well_formed ws = true ->
  localStorage (fst (App._setLocalStorage (fst (reload (fst (App._setLocalStorage a))))))
  = localStorage (fst (App._setLocalStorage a)).
Proof.
  intros a ws Hw Hwf. rewrite !setLocalStorage_eq. cbn [fst localStorage with_localStorage].
  unfold reload. cbn [localStorage with_localStorage]. rewrite Hw.
  change (JSON_stringify (VArr ws)) with (Some (JSONText (JArr (serialize_items ws)))).
  rewrite (ReloadFacts.constructor_workouts (JArr (serialize_items ws)))
    by reflexivity.
  cbn [internalize].
  change (JSON_stringify (VArr ?l)) with (Some (JSONText (JArr (serialize_items l)))).
  now rewrite ReloadFacts.serialize_items_again.
Qed.

Lemma saving_what_was_loaded_writes_the_same_text_witness :
  workouts tampered = VArr [run1_tampered; ride1]
  /\ forallb well_formed [run1_tampered; ride1] = true
  /\ localStorage (fst (App._setLocalStorage
                          (fst (reload (fst (App._setLocalStorage tampered))))))
     = localStorage (fst (App._setLocalStorage tampered)).
Proof.
  split; [reflexivity|]. split; [vm_compute; reflexivity|].
  apply (saving_what_was_loaded_writes_the_same_text tampered [run1_tampered; ride1]);
    vm_compute; reflexivity.
Defined.

(** X10. Loading never writes: whatever the store holds, text that is not JSON
    included, running the script on the page leaves the store as it is,
    places no marker and creates no map; so reloading again gives the same
    page, with the same outcome. *)
Theorem loading_never_writes :
  forall a,
  localStorage (fst (reload a)) = localStorage a
  /\ markers (fst (reload a)) = []
  /\ map (fst (reload a)) = None
  /\ alerts (fst (reload a)) = []
  /\ reload (fst (reload a)) = reload a.
Proof.
  intros a. unfold reload.
  destruct (ReloadFacts.constructor_frame (App.page (localStorage a)))
    as (w & li & b & r & E).
  rewrite E. cbn [fst localStorage with_listening with_listItems with_workouts
                  App.page markers map alerts].
  repeat split. now rewrite <- E.
Qed.

(** [reset()], called on a page where the script has started: the store
    is emptied and the script starts anew, on an empty collection. *)
Example reset_starts_afresh :
  forall a, reset a = (with_listening true (App.page None), Normal tt).
Proof. reflexivity. Qed.

(** ** A metric that overflows *)

Module OverflowFacts.

(** Among entries that cannot all be rendered there is a first one that
    cannot. *)
Lemma first_failure : forall ws,
  forallb renders ws = false ->
  exists good bad rest,
    ws = good ++ bad :: rest
    /\ forallb renders good = true /\ renders bad = false.
Proof.
  induction ws as [|w ws IH]; intros H; [discriminate|].
  cbn [forallb] in H. destruct (renders w) eqn:Ew.
  - destruct (IH H) as (good & bad & rest & -> & Hg & Hb).
    exists (w :: good), bad, rest. cbn [forallb]. rewrite Ew, Hg. auto.
  - exists [], w, ws. auto.
Qed.

(** Loading a store whose entries cannot all be rendered: the collection
    is installed, the entries before the first that cannot be rendered
    are listed, and a TypeError ends the constructor before the listeners
    are attached. *)
Lemma reload_fails a items :
  localStorage a = Some (JSONText (JArr items)) ->
  forallb renders (List.map internalize items) = false ->
  exists good bad rest msg,
    List.map internalize items = good ++ bad :: rest
    /\ forallb renders good = true /\ renders bad = false
    /\ reload a
       = (with_listItems (rev good)
            (with_workouts (VArr (good ++ bad :: rest))
               (App.page (localStorage a))),
          Throw (TypeError msg)).
Proof.
  intros Hs Hbad.
  destruct (first_failure _ Hbad) as (good & bad & rest & E & Hg & Hb).
  destruct (AppFacts.forEach_render_stops good bad rest
              (with_workouts (VArr (good ++ bad :: rest))
                 (App.page (localStorage a))) Hg Hb) as (msg & F).
  exists good, bad, rest, msg. repeat split; try assumption.
  unfold reload, App.constructor, bind.
  rewrite (AppFacts.getLocalStorage_truthy _ (JArr items))
    by (rewrite ?Hs; reflexivity).
  cbn [internalize forEach]. rewrite E, F. cbn [listItems with_workouts App.page].
  now rewrite app_nil_r.
Qed.

Lemma settle_accepted k f clk latlng :
  App.inputType f = type_name k -> acceptable k f = true ->
  settle f clk latlng
  = Some (create k clk (VArr [VNum (fst latlng); VNum (snd latlng)])
            (App.inputDistance f) (App.inputDuration f) (extra_input k f)).
Proof.
  intros Ht Ha. unfold settle. rewrite Ht.
  destruct k; cbn [type_name String.eqb Ascii.eqb Bool.eqb create extra_input];
    now rewrite Ha.
Qed.

(** What [JSON.stringify] writes for a Number can be interpolated when it
    is read back. *)
Lemma number_printable x j :
  serialize (VNum x) = Some j -> ToString (internalize j) = Normal tt.
Proof.
  cbn [serialize]. intros [= <-].
  destruct (PrimFloat.is_finite x); [|reflexivity].
  destruct (PrimFloat.is_zero x && PrimFloat.get_sign x); reflexivity.
Qed.

(** A stored run whose pace is [null] cannot be rendered, nor a stored
    ride whose speed is [null]. *)
Lemma null_metric_fails k o :
  obj_get "type" o = VStr (type_name k) ->
  obj_get (metric_name k) o = VNull ->
  ToString (obj_get "id" o) = Normal tt ->
  ToString (obj_get "description" o) = Normal tt ->
  ToString (obj_get "distance" o) = Normal tt ->
  ToString (obj_get "duration" o) = Normal tt ->
  renders (VObj ObjectProto o) = false.
Proof.
  intros Ht Hm Hi Hde Hdi Hdu. unfold renders, App._renderWorkout, bind, lift.
  cbn [GetV]. rewrite Ht, Hi, Hde, Hdi, Hdu.
  destruct k; cbn [type_name metric_name] in *; cbn; rewrite Hm; reflexivity.
Qed.

(** The workout of a form whose metric is not finite: it is placed and
    rendered; its metric is written [null], reads [null] after a reload,
    and the reloaded workout cannot be rendered. *)
Lemma created_reload_fails k f clk lat lng :
  PrimFloat.is_finite (metric k f) = false ->
  exists w members,
    create k clk (VArr [VNum lat; VNum lng]) (App.inputDistance f)
      (App.inputDuration f) (extra_input k f)
    = Normal w
    /\ placeable w = true
    /\ renders w = true
    /\ GetV w (metric_name k) = Normal (VNum (metric k f))
    /\ serialize_item w = JObj members
    /\ In (metric_name k, JNull) members
    /\ GetV (internalize (JObj members)) (metric_name k) = Normal VNull
    /\ renders (internalize (JObj members)) = false.
Proof.
  intros H.
  destruct (serialize (VNum (App.inputDistance f))) as [jd|] eqn:Ed;
    [|discriminate].
  destruct (serialize (VNum (App.inputDuration f))) as [jt|] eqn:Et;
    [|discriminate].
  assert (Hd := number_printable _ _ Ed). assert (Ht := number_printable _ _ Et).
  destruct k; cbn [create metric extra_input metric_name] in *.
  - rewrite ClassFacts.Running_new_eq.
    eexists (VObj _ _), (serialize_members _).
    split; [reflexivity|]. split; [reflexivity|]. split; [reflexivity|].
    split; [reflexivity|]. split; [reflexivity|].
    cbn [serialize_members]. rewrite Ed, Et.
    cbn [serialize]. rewrite H.
    split; [cbn [In]; repeat (first [left; reflexivity | right])|].
    split; [reflexivity|].
    rewrite JSONFacts.internalize_obj.
    apply (null_metric_fails KRunning); try reflexivity; assumption.
  - rewrite ClassFacts.Cycling_new_eq.
    eexists (VObj _ _), (serialize_members _).
    split; [reflexivity|]. split; [reflexivity|]. split; [reflexivity|].
    split; [reflexivity|]. split; [reflexivity|].
    cbn [serialize_members]. rewrite Ed, Et.
    cbn [serialize]. rewrite H.
    split; [cbn [In]; repeat (first [left; reflexivity | right])|].
    split; [reflexivity|].
    rewrite JSONFacts.internalize_obj.
    apply (null_metric_fails KCycling); try reflexivity; assumption.
Qed.

End OverflowFacts.

(** X11. An accepted submission, made after a click on the loaded map,
    whose pace (of a run) or speed (of a ride) overflows to [Infinity]
    goes through, and the workout is saved
    with [null] as its [pace] or [speed].  From then on the page cannot be
    loaded: every run of the script installs the stored collection, in
    which that metric now reads [null], lists the entries before the first
    one it cannot render, and throws a TypeError before the listeners are
    attached; the store stays as it is, so the next load ends the same
    way. *)
Theorem overflowing_metric_breaks_every_reload :
  forall k f clk a latlng m ws,
  mapEvent a = Some latlng -> is_latlng (centre latlng) = true ->
  map a = Some m -> workouts a = VArr ws ->
  App.inputType f = type_name k -> acceptable k f = true ->
  PrimFloat.is_finite (metric k f) = false ->
  exists w members good bad rest msg,
    App._newWorkout f clk a = (submitted w ws a, Normal tt)
    /\ GetV w (metric_name k) = Normal (VNum (metric k f))
    /\ localStorage (submitted w ws a)
       = Some (JSONText (JArr (serialize_items ws ++ [JObj members])))
    /\ In (metric_name k, JNull) members
    /\ GetV (internalize (JObj members)) (metric_name k) = Normal VNull
    /\ List.map internalize (serialize_items ws) ++ [internalize (JObj members)]
       = good ++ bad :: rest
    /\ forallb renders good = true /\ renders bad = false
    /\ reload (submitted w ws a)
       = (with_listItems (rev good)
            (with_workouts (VArr (good ++ bad :: rest))
               (App.page (localStorage (submitted w ws a)))),
          Throw (TypeError msg))
    /\ listening (fst (reload (submitted w ws a))) = false
    /\ localStorage (fst (reload (submitted w ws a)))
       = localStorage (submitted w ws a)
    /\ reload (fst (reload (submitted w ws a))) = reload (submitted w ws a).
Proof.
  intros k f clk a [lat lng] m ws He _ Hm Hw Ht Ha Hinf.
  destruct (OverflowFacts.created_reload_fails k f clk lat lng Hinf)
    as (w & members & Ec & Hp & Hr & Hmet & Hser & Hin & Hnull & Hbad).
  assert (E : App._newWorkout f clk a = (submitted w ws a, Normal tt)).
  { rewrite (HandlerFacts.newWorkout_eq f clk a (lat, lng) He).
    rewrite (OverflowFacts.settle_accepted k f clk (lat, lng) Ht Ha).
    cbn [fst snd]. rewrite Ec.
    now rewrite (HandlerFacts.commit_eq w a ws Hw Hp Hr), Hm. }
  assert (Es : serialize_items (ws ++ [w]) = serialize_items ws ++ [JObj members]).
  { rewrite !ReloadFacts.serialize_items_map, map_app. cbn [List.map].
    now rewrite Hser. }
  assert (Hst : localStorage (submitted w ws a)
                = Some (JSONText (JArr (serialize_items ws ++ [JObj members])))).
  { cbn [submitted localStorage with_localStorage]. now rewrite Es. }
  destruct (OverflowFacts.reload_fails (submitted w ws a)
              (serialize_items ws ++ [JObj members]) Hst)
    as (good & bad & rest & msg & Esplit & Hg & Hb & R).
  { rewrite map_app, forallb_app. cbn [List.map forallb]. rewrite Hbad.
    apply andb_false_iff. right. reflexivity. }
  rewrite map_app in Esplit. cbn [List.map] in Esplit.
  exists w, members, good, bad, rest, msg.
  split; [exact E|]. split; [exact Hmet|]. split; [exact Hst|].
  split; [exact Hin|]. split; [exact Hnull|]. split; [exact Esplit|].
  split; [exact Hg|]. split; [exact Hb|]. split; [exact R|].
  rewrite R. cbn [fst]. split; [reflexivity|]. split; [reflexivity|].
  unfold reload at 1. cbn [localStorage with_listItems with_workouts App.page].
  rewrite <- R. reflexivity.
Qed.

Lemma overflowing_metric_breaks_every_reload_witness :
  acceptable KCycling fast_form = true
  /\ is_latlng (centre (40.75, -74)%float) = true
  /\ PrimFloat.is_finite (metric KCycling fast_form) = false
  /\ exists w members good bad rest msg,
    App._newWorkout fast_form clock1 ready = (submitted w [] ready, Normal tt)
    /\ GetV w (metric_name KCycling) = Normal (VNum (metric KCycling fast_form))
    /\ localStorage (submitted w [] ready)
       = Some (JSONText (JArr (serialize_items [] ++ [JObj members])))
    /\ In (metric_name KCycling, JNull) members
    /\ GetV (internalize (JObj members)) (metric_name KCycling) = Normal VNull
    /\ List.map internalize (serialize_items []) ++ [internalize (JObj members)]
       = good ++ bad :: rest
    /\ forallb renders good = true /\ renders bad = false
    /\ reload (submitted w [] ready)
       = (with_listItems (rev good)
            (with_workouts (VArr (good ++ bad :: rest))
               (App.page (localStorage (submitted w [] ready)))),
          Throw (TypeError msg))
    /\ listening (fst (reload (submitted w [] ready))) = false
    /\ localStorage (fst (reload (submitted w [] ready)))
       = localStorage (submitted w [] ready)
    /\ reload (fst (reload (submitted w [] ready))) = reload (submitted w [] ready).
Proof.
  split; [vm_compute; reflexivity|]. split; [vm_compute; reflexivity|].
  split; [vm_compute; reflexivity|].
  apply (overflowing_metric_breaks_every_reload
           KCycling fast_form clock1 ready (40.75, -74)%float
           (VArr [VNum 40.5; VNum (-74.5)])%float []
           eq_refl eq_refl eq_refl eq_refl eq_refl eq_refl eq_refl).
Defined.

(** The ride of [fast_form]: its speed is [Infinity], the store has
    [null], and loading throws on [toFixed] of [null]. *)
Example overflowing_speed :
  localStorage (fst (App._newWorkout fast_form clock1 ready))
  = Some (JSONText (JArr [JObj
      [("date", JStr "2025-07-14T09:30:00.000Z"); ("id", JStr "2485400000");
       ("clicks", JNum 0); ("coords", JArr [JNum 40.75; JNum (-74)]);
       ("distance", JNum 0x1p1023); ("duration", JNum 0x1p-1000);
       ("type", JStr "cycling"); ("elevationGain", JNum 0);
       ("speed", JNull); ("description", JStr "Cycling on July 14")]]))
  /\ snd (reload (fst (App._newWorkout fast_form clock1 ready)))
     = Throw (cannot_read "null" "toFixed").
Proof. split; vm_compute; reflexivity. Qed.

(** ** Identifiers and stored records *)

Lemma padded_digits k : forall m,
  forallb Numeral.is_digit (Numeral.padded k m) = true.
Proof.
  induction k as [|k IH]; intros m; [reflexivity|].
  cbn [Numeral.padded forallb]. rewrite IH, andb_true_r.
  apply NumeralFacts.digit_is_digit. apply Z.mod_pos_bound. lia.
Qed.

(** X12. For every clock reading from 10^9 ms on (12 January 1970), the id of
    a workout is a string of exactly ten decimal digits. *)
Theorem id_is_ten_digits :
  forall clk,
  (10 ^ 9 <= now clk)%Z ->
  String.length (Workout.id clk) = 10%nat
  /\ forallb Numeral.is_digit (list_ascii_of_string (Workout.id clk)) = true.
Proof.
  intros clk Hn. rewrite (id_is_suffix clk Hn). split.
  - now rewrite StrFacts.length_of_list, length_rev, NumeralFacts.padded_length.
  - rewrite list_ascii_of_string_of_list_ascii. apply forallb_forall.
    intros c Hc. apply in_rev in Hc.
    assert (H := padded_digits 10 (now clk mod 10 ^ 10)).
    rewrite forallb_forall in H. now apply H.
Qed.

Lemma id_is_ten_digits_witness :
  (10 ^ 9 <= now clock1)%Z
  /\ String.length (Workout.id clock1) = 10%nat
  /\ forallb Numeral.is_digit (list_ascii_of_string (Workout.id clock1)) = true.
Proof.
  split; [vm_compute; discriminate|].
  apply (id_is_ten_digits clock1). vm_compute. discriminate.
Defined.

(** X13. Whatever the numbers of an accepted form, the workout it creates is
    written to the store as an object with the ten members [date], [id],
    [clicks], [coords], [distance], [duration], [type], [cadence] or
    [elevationGain], [pace] or [speed], [description], in this order: no
    member is ever left out.  Read back, it is a plain object with the same
    properties in the same order whose [type] is still the string
    ['running'] or ['cycling'], the only trace of the class that made
    it. *)
Theorem stored_record_layout :
  forall k clk lat lng distance duration extra,
  exists w members o,
    create k clk (VArr [VNum lat; VNum lng]) distance duration extra = Normal w
    /\ serialize w = Some (JObj members)
    /\ List.map fst members = layout k
    /\ internalize (JObj members) = VObj ObjectProto o
    /\ List.map fst o = layout k
    /\ obj_get "type" o = VStr (type_name k).
Proof.
  intros k clk lat lng distance duration extra. destruct k; cbn [create].
  - rewrite ClassFacts.Running_new_eq. do 3 eexists.
    split; [reflexivity|]. split; [apply JSONFacts.serialize_obj|].
    split; [reflexivity|]. split; [apply JSONFacts.internalize_obj|].
    split; reflexivity.
  - rewrite ClassFacts.Cycling_new_eq. do 3 eexists.
    split; [reflexivity|]. split; [apply JSONFacts.serialize_obj|].
    split; [reflexivity|]. split; [apply JSONFacts.internalize_obj|].
    split; reflexivity.
Qed.

(** ** Logging a workout and finding it again *)

Lemma created_facts k clk latlng distance duration extra :
  exists p o,
    create k clk (centre latlng) distance duration extra = Normal (VObj p o)
    /\ placeable (VObj p o) = true
    /\ renders (VObj p o) = true
    /\ obj_get "id" o = VStr (Workout.id clk)
    /\ obj_get "coords" o = centre latlng.
Proof.
  destruct k; cbn [create].
  - rewrite ClassFacts.Running_new_eq. do 2 eexists. repeat split.
  - rewrite ClassFacts.Cycling_new_eq. do 2 eexists. repeat split.
Qed.

(** X14. With the map loaded: click the map at a point, submit an acceptable
    form, then click the new list entry.  The workout is appended with the
    clicked point as its [coords], and, no earlier workout having its id,
    the click on its entry centres the map on that point. *)
Theorem logged_workout_is_found_where_the_map_was_clicked :
  forall a latlng f clk k ws m,
  map a = Some m -> workouts a = VArr ws ->
  App.inputType f = type_name k -> acceptable k f = true ->
  Forall (fun w => App.has_id (Workout.id clk) w = Normal false) ws ->
  exists w,
    workouts (run [MapClick latlng; Submit f clk] a) = VArr (ws ++ [w])
    /\ GetV w "coords" = Normal (centre latlng)
    /\ GetV w "id" = Normal (VStr (Workout.id clk))
    /\ handle (ListClick (Some (Workout.id clk))) (run [MapClick latlng; Submit f clk] a)
       = (with_map (Some (centre latlng)) (run [MapClick latlng; Submit f clk] a),
          Normal tt).
Proof.
  intros a latlng f clk k ws m Hm Hw Ht Ha Hfresh.
  destruct (created_facts k clk latlng
              (App.inputDistance f) (App.inputDuration f) (extra_input k f))
    as (p & o & Ec & Hp & Hr & Hid & Hco).
  set (a1 := with_formHidden false (with_mapEvent (Some latlng) a)).
  assert (E1 : fst (handle (MapClick latlng) a) = a1).
  { cbn [handle]. unfold bind, gets. rewrite Hm. reflexivity. }
  assert (E2 : handle (Submit f clk) a1 = (submitted (VObj p o) ws a1, Normal tt)).
  { cbn [handle].
    rewrite (HandlerFacts.newWorkout_eq f clk a1 latlng eq_refl).
    rewrite (OverflowFacts.settle_accepted k f clk latlng Ht Ha).
    change (VArr [VNum (fst latlng); VNum (snd latlng)]) with (centre latlng).
    rewrite Ec. rewrite (HandlerFacts.commit_eq _ a1 ws Hw Hp Hr).
    change (map a1) with (map a). now rewrite Hm. }
  assert (E : run [MapClick latlng; Submit f clk] a = submitted (VObj p o) ws a1).
  { unfold run. cbn [fold_left]. now rewrite E1, E2. }
  rewrite E. exists (VObj p o).
  split; [reflexivity|]. cbn [GetV]. rewrite Hid, Hco.
  split; [reflexivity|]. split; [reflexivity|].
  cbn [handle].
  rewrite (HandlerFacts.moveToPopup_found _ _ m p o).
  - rewrite Hco. reflexivity.
  - exact Hm.
  - change (workouts (submitted (VObj p o) ws a1)) with (VArr (ws ++ [VObj p o])).
    cbn [find].
    apply (find_items_first (App.has_id (Workout.id clk)) (VObj p o) [] ws Hfresh).
    unfold App.has_id. cbn [GetV]. rewrite Hid. cbn [strict_eq_str].
    now rewrite String.eqb_refl.
Qed.

Lemma logged_workout_is_found_where_the_map_was_clicked_witness :
  map logged = Some (VArr [VNum 40.5; VNum (-74.5)])%float
  /\ exists w,
       workouts (run [MapClick (41, -73)%float; Submit downhill_form clock3] logged)
       = VArr ([run1] ++ [w])
       /\ GetV w "coords" = Normal (centre (41, -73)%float)
       /\ GetV w "id" = Normal (VStr (Workout.id clock3))
       /\ handle (ListClick (Some (Workout.id clock3)))
            (run [MapClick (41, -73)%float; Submit downhill_form clock3] logged)
          = (with_map (Some (centre (41, -73)%float))
               (run [MapClick (41, -73)%float; Submit downhill_form clock3] logged),
             Normal tt).
Proof.
  split; [reflexivity|].
  apply (logged_workout_is_found_where_the_map_was_clicked
           logged (41, -73)%float downhill_form clock3 KCycling [run1]
           (VArr [VNum 40.5; VNum (-74.5)])%float);
    try reflexivity.
  constructor; [vm_compute; reflexivity | constructor].
Defined.

(** ** Entries that are missing *)

Lemma find_items_throws pred e bad after : forall before,
  Forall (fun x => pred x = Normal false) before ->
  pred bad = Throw e ->
  find_items pred (before ++ bad :: after) = Throw e.
Proof.
  induction 1 as [|x before Hx _ IH]; intros Hb; cbn.
  - now rewrite Hb.
  - rewrite Hx. now apply IH.
Qed.

(** X15. An [undefined] or [null] entry of the collection hides every
    workout after it from the list: a click on the entry of a workout that comes
    later throws on reading the [id] of the missing one, and the map does
    not move. *)
Theorem click_stops_at_missing_entry :
  forall a id before bad after,
  workouts a = VArr (before ++ bad :: after) ->
  is_nullish bad = true ->
  Forall (fun w => App.has_id id w = Normal false) before ->
  App._moveToPopup (Some id) a = (a, Throw (cannot_read (nullish_name bad) "id")).
Proof.
  intros a id before bad after Hw Hbad Hb.
  unfold App._moveToPopup, bind, gets, lift. rewrite Hw. cbn [find].
  rewrite (find_items_throws (App.has_id id)
             (cannot_read (nullish_name bad) "id") bad after before Hb).
  - reflexivity.
  - destruct bad; try discriminate; reflexivity.
Qed.

Lemma click_stops_at_missing_entry_witness :
  workouts (run [Submit walk_form clock1; Submit downhill_form clock2] logged)
  = VArr ([run1] ++ VUndefined :: [ride2])
  /\ App._moveToPopup (Some "0000000001")
       (run [Submit walk_form clock1; Submit downhill_form clock2] logged)
     = (run [Submit walk_form clock1; Submit downhill_form clock2] logged,
        Throw (cannot_read "undefined" "id")).
Proof.
  split; [vm_compute; reflexivity|].
  apply (click_stops_at_missing_entry
           (run [Submit walk_form clock1; Submit downhill_form clock2] logged)
           "0000000001" [run1] VUndefined [ride2]);
    [vm_compute; reflexivity | reflexivity |].
  constructor; [vm_compute; reflexivity | constructor].
Defined.

Lemma nullish_item x :
  is_nullish x = true ->
  serialize_item x = JNull /\ renders (internalize (serialize_item x)) = false.
Proof. destruct x; try discriminate; split; reflexivity. Qed.

(** X16. A collection that holds [undefined] or [null] is saved with
    [null] in each such place, and the page cannot be loaded from that
    store: every run of the script installs the stored collection, lists
    the entries before the first one it cannot render, that place at the
    latest, and throws a TypeError there, before the listeners are
    attached. *)
Theorem missing_entry_breaks_every_reload :
  forall a ws,
  workouts a = VArr ws -> existsb is_nullish ws = true ->
  localStorage (fst (App._setLocalStorage a))
  = Some (JSONText (JArr (serialize_items ws)))
  /\ (forall i x, nth_error ws i = Some x -> is_nullish x = true ->
                  nth_error (serialize_items ws) i = Some JNull)
  /\ exists good bad rest msg,
       List.map internalize (serialize_items ws) = good ++ bad :: rest
       /\ forallb renders good = true /\ renders bad = false
       /\ (forall i x, nth_error ws i = Some x -> is_nullish x = true ->
                       (List.length good <= i)%nat)
       /\ reload (fst (App._setLocalStorage a))
          = (with_listItems (rev good)
               (with_workouts (VArr (good ++ bad :: rest))
                  (App.page (Some (JSONText (JArr (serialize_items ws)))))),
             Throw (TypeError msg))
       /\ listening (fst (reload (fst (App._setLocalStorage a)))) = false.
Proof.
  intros a ws Hw Hn.
  assert (Hst : localStorage (fst (App._setLocalStorage a))
                = Some (JSONText (JArr (serialize_items ws)))).
  { rewrite setLocalStorage_eq. cbn [fst localStorage with_localStorage].
    now rewrite Hw. }
  assert (Hnull : forall i x, nth_error ws i = Some x -> is_nullish x = true ->
                    nth_error (serialize_items ws) i = Some JNull).
  { intros i x Hi Hx. rewrite ReloadFacts.serialize_items_map.
    rewrite (map_nth_error _ _ _ Hi). f_equal. now apply nullish_item. }
  split; [exact Hst|]. split; [exact Hnull|].
  destruct (OverflowFacts.reload_fails _ (serialize_items ws) Hst)
    as (good & bad & rest & msg & Esplit & Hg & Hb & R).
  { apply existsb_exists in Hn as (x & Hin & Hx).
    apply not_true_is_false. intros Hall.
    rewrite forallb_forall in Hall.
    rewrite ReloadFacts.serialize_items_map in Hall.
    assert (Hr := Hall (internalize (serialize_item x))
                    (in_map _ _ _ (in_map _ _ _ Hin))).
    destruct (nullish_item x Hx) as [_ Hf]. congruence. }
  exists good, bad, rest, msg.
  split; [exact Esplit|]. split; [exact Hg|]. split; [exact Hb|].
  split.
  { intros i x Hi Hx. destruct (Nat.le_gt_cases (List.length good) i) as [|Hlt];
      [assumption|exfalso].
    assert (Hgi : nth_error good i = Some VNull).
    { assert (Hj := map_nth_error internalize _ _ (Hnull i x Hi Hx)).
      rewrite Esplit, nth_error_app1 in Hj by exact Hlt. exact Hj. }
    rewrite forallb_forall in Hg.
    assert (Hr := Hg VNull (nth_error_In _ _ Hgi)). discriminate Hr. }
  rewrite R, Hst. split; reflexivity.
Qed.

Lemma missing_entry_breaks_every_reload_witness :
  workouts (fst (App._newWorkout walk_form clock1 ready)) = VArr [VUndefined]
  /\ localStorage (fst (App._setLocalStorage
                          (fst (App._newWorkout walk_form clock1 ready))))
     = Some (JSONText (JArr (serialize_items [VUndefined])))
  /\ serialize_items [VUndefined] = [JNull]
  /\ (forall i x, nth_error [VUndefined] i = Some x -> is_nullish x = true ->
                  nth_error (serialize_items [VUndefined]) i = Some JNull)
  /\ exists good bad rest msg,
       List.map internalize (serialize_items [VUndefined]) = good ++ bad :: rest
       /\ forallb renders good = true /\ renders bad = false
       /\ (forall i x, nth_error [VUndefined] i = Some x -> is_nullish x = true ->
                       (List.length good <= i)%nat)
       /\ reload (fst (App._setLocalStorage
                         (fst (App._newWorkout walk_form clock1 ready))))
          = (with_listItems (rev good)
               (with_workouts (VArr (good ++ bad :: rest))
                  (App.page (Some (JSONText (JArr (serialize_items [VUndefined])))))),
             Throw (TypeError msg))
       /\ listening (fst (reload (fst (App._setLocalStorage
                                        (fst (App._newWorkout walk_form clock1 ready))))))
          = false.
Proof.
  split; [vm_compute; reflexivity|].
  assert (H := missing_entry_breaks_every_reload
                 (fst (App._newWorkout walk_form clock1 ready)) [VUndefined]
                 eq_refl eq_refl).
  destruct H as (H1 & H2 & H3).
  split; [exact H1|]. split; [reflexivity|]. split; [exact H2 | exact H3].
Defined.

(** The store after the submission of an unknown type and a save, and
    the load that follows. *)
Example missing_entry_example :
  localStorage (fst (App._setLocalStorage
                       (fst (App._newWorkout walk_form clock1 ready))))
  = Some (JSONText (JArr [JNull]))
  /\ reload (fst (App._setLocalStorage
                    (fst (App._newWorkout walk_form clock1 ready))))
     = (with_workouts (VArr [VNull]) (App.page (Some (JSONText (JArr [JNull])))),
        Throw (cannot_read "null" "type")).
Proof. split; vm_compute; reflexivity. Qed.

(** ** The rows of the form *)

Lemma toggle_iter n : forall r,
  Nat.iter n _toggelElevationField r
  = mkRows (xorb (Nat.odd n) (elevationRowHidden r))
           (xorb (Nat.odd n) (cadenceRowHidden r)).
Proof.
  induction n as [|n IH]; intros r; [now destruct r|].
  rewrite Nat.iter_succ, IH. unfold _toggelElevationField.
  cbn [elevationRowHidden cadenceRowHidden]. rewrite Nat.odd_succ, <- Nat.negb_odd.
  destruct (Nat.odd n), (elevationRowHidden r), (cadenceRowHidden r); reflexivity.
Qed.

(** X17. After any number of changes of the type select, the two rows have
    swapped an odd number of times or are as they were: when exactly one
    of the cadence row and the elevation row is hidden to begin with,
    exactly one is hidden ever after, the other one after each change; and
    two changes restore the rows. *)
Theorem rows_stay_complementary :
  forall n r,
  cadenceRowHidden r = negb (elevationRowHidden r) ->
  cadenceRowHidden (Nat.iter n _toggelElevationField r)
  = negb (elevationRowHidden (Nat.iter n _toggelElevationField r))
  /\ elevationRowHidden (Nat.iter n _toggelElevationField r)
     = xorb (Nat.odd n) (elevationRowHidden r)
  /\ _toggelElevationField (_toggelElevationField r) = r.
Proof.
  intros n r H. rewrite toggle_iter. cbn [elevationRowHidden cadenceRowHidden].
  rewrite H. destruct r as [e c]. cbn.
  destruct (Nat.odd n), e, c; repeat split.
Qed.

Lemma rows_stay_complementary_witness :
  cadenceRowHidden (mkRows true false) = negb (elevationRowHidden (mkRows true false))
  /\ cadenceRowHidden (Nat.iter 3 _toggelElevationField (mkRows true false))
     = negb (elevationRowHidden (Nat.iter 3 _toggelElevationField (mkRows true false))).
Proof.
  split; [reflexivity|].
  apply (rows_stay_complementary 3 (mkRows true false)). reflexivity.
Defined.
